(** * lineup-backend: the alert pipeline, the chat webhook and sensor
      administration of [src/server.js], as a shallow embedding.

    The Express handlers are translated into functions over an explicit
    [World] (the three Mongo collections, the outbound chat calls issued so
    far, the console) in a small state-and-exception monad.  Everything the
    handlers consume from outside the file (storage faults, transport faults,
    the wall clock, [process.env]) is read from an [Env] record; the library
    functions whose text is not part of the repository (number printing,
    the case mapping of strings, the regular-expression engine, the chart
    URL builder, the Mongoose schemas' defaults) are fields of the
    [Platform] class.

    Embedded routes: [POST /api/data], [POST /api/webhook/whatsapp],
    [POST /api/sensors/config], [GET /api/history],
    [DELETE /api/sensors/:hardwareId], with the three senders; further down
    [authenticateToken], [POST /api/auth/login], the two profile routes and
    [GET /api/latest].  The body of an ingest carries primitive JSON
    values, the body of the webhook is any JSON value; the sensor routes
    take the caller's id, which the middleware hands them.  A handler is
    first a function from its start to its answer; the ingest handler is
    also given step by step, from one [await] to the next, for the runs in
    which two requests overlap. *)

From Stdlib Require Import ZArith QArith Qpower Lia String Ascii List Bool.
From stdpp Require Import base option list strings sorting pretty.

Local Open Scope string_scope.
Local Open Scope Z_scope.

(** ** JavaScript numbers

    A Number is a double: a finite value, an infinity or NaN.  A finite
    double is kept as the rational it denotes, and the order of doubles is
    the order of rationals, so [<] and [>] below are the IEEE comparisons.
    What a conversion or an operation yields is rounded to the nearest
    double, ties to even, and to an infinity beyond the largest double
    ([round64]).  Negative zero is not told apart from zero: the handlers
    compare and print Numbers, and both treat the two alike. *)
Module Js.

Inductive Num : Type :=
| NaN
| NegInf
| Fin (q : Q)
| PosInf.

Definition of_Z (z : Z) : Num := Fin (inject_Z z).

Definition isNaN (x : Num) : bool :=
  match x with NaN => true | _ => false end.

Definition pow2 (k : Z) : Q := Qpower (2 # 1) k.

(** The exponent of a positive rational: the [e] with
    [2^e <= a < 2^(e+1)]. *)
Definition ilog2 (a : Q) : Z :=
  let e := Z.log2 (Qnum a) - Z.log2 (Zpos (Qden a)) in
  if Qle_bool (pow2 e) a then e else e - 1.

(** The integer nearest to a non-negative rational, the even one of two
    that are equally near. *)
Definition nearest_even (a : Q) : Z :=
  let f := Qnum a / Zpos (Qden a) in
  match 2 * (Qnum a mod Zpos (Qden a)) ?= Zpos (Qden a) with
  | Lt => f
  | Gt => f + 1
  | Eq => if Z.even f then f else f + 1
  end.

(** The double nearest to a positive rational, [None] when that is beyond
    the largest double: 53 significant bits, the last of them worth at
    least [2^-1074]. *)
Definition round_pos (a : Q) : option Q :=
  let k := Z.max (ilog2 a - 52) (-1074) in
  let v := Qred (inject_Z (nearest_even (a / pow2 k)) * pow2 k) in
  if Qle_bool (pow2 1024) v then None else Some v.

(** The Number a real value denotes. *)
Definition round64 (q : Q) : Num :=
  match Qnum q with
  | 0 => Fin 0
  | Zpos _ => match round_pos q with Some v => Fin v | None => PosInf end
  | Zneg _ => match round_pos (- q) with
              | Some v => Fin (- v)
              | None => NegInf
              end
  end.

(** A Number read from JSON text or kept in a document: the double nearest
    to the value written. *)
Definition round (x : Num) : Num :=
  match x with
  | Fin q => round64 q
  | _ => x
  end.

Definition Qltb (x y : Q) : bool := negb (Qle_bool y x).

(** [x < y] on Numbers: false as soon as one side is NaN. *)
Definition lt (x y : Num) : bool :=
  match x, y with
  | NaN, _ | _, NaN => false
  | NegInf, NegInf => false
  | NegInf, _ => true
  | _, NegInf => false
  | PosInf, _ => false
  | Fin _, PosInf => true
  | Fin a, Fin b => Qltb a b
  end.

(** [x > y] is [y < x] (both operands are already primitive numbers). *)
Definition gt (x y : Num) : bool := lt y x.

Definition neg (x : Num) : Num :=
  match x with
  | NaN => NaN
  | NegInf => PosInf
  | PosInf => NegInf
  | Fin q => Fin (- q)
  end.

Definition sgn (q : Q) : Z := Z.sgn (Qnum q).

(** [x * y]: NaN is contagious, zero times an infinity is NaN, and the
    product of two finite doubles is rounded. *)
Definition mul (x y : Num) : Num :=
  match x, y with
  | NaN, _ | _, NaN => NaN
  | Fin a, Fin b => round64 (a * b)
  | Fin a, PosInf | PosInf, Fin a =>
      match sgn a with 0 => NaN | Zpos _ => PosInf | Zneg _ => NegInf end
  | Fin a, NegInf | NegInf, Fin a =>
      match sgn a with 0 => NaN | Zpos _ => NegInf | Zneg _ => PosInf end
  | PosInf, PosInf | NegInf, NegInf => PosInf
  | PosInf, NegInf | NegInf, PosInf => NegInf
  end.

(** [a - b] for two Dates, each converted to its time value in
    milliseconds: the difference, rounded. *)
Definition sub_dates (a b : Z) : Num := round64 (inject_Z (a - b)).

(** *** Primitive values of a JSON body

    [VNum n] is a number as the body writes it; reading it gives the
    nearest double, [round n]. *)
Inductive Val : Type :=
| VUndefined
| VNull
| VBool (b : bool)
| VNum (n : Num)
| VStr (s : string).

(** *** Strings

    A string is kept as the bytes of its UTF-8 encoding.  The handlers
    search and split on ASCII text only, and an ASCII byte never occurs
    inside the encoding of another character, so these operations are the
    same on bytes as on UTF-16 code units. *)

Definition nl : string := String (ascii_of_nat 10) EmptyString.
Definition dquote : string := String (ascii_of_nat 34) EmptyString.
(** U+00A0, the no-break space, in UTF-8. *)
Definition nbsp : string :=
  String (ascii_of_nat 194) (String (ascii_of_nat 160) EmptyString).

(** The white space and line terminators of one byte: TAB, LF, VT, FF, CR
    and the space. *)
Definition is_space (c : ascii) : bool :=
  let n := nat_of_ascii c in
  ((9 <=? n) && (n <=? 13))%nat || (n =? 32)%nat.

(** U+00A0, the no-break space. *)
Definition is_space2 (a b : ascii) : bool :=
  ((nat_of_ascii a =? 194) && (nat_of_ascii b =? 160))%nat.

(** The white space and line terminators of three bytes: U+1680,
    U+2000 to U+200A, U+2028, U+2029, U+202F, U+205F, U+3000 and
    U+FEFF. *)
Definition is_space3 (a b c : ascii) : bool :=
  let '(x, y, z) := (nat_of_ascii a, nat_of_ascii b, nat_of_ascii c) in
  ((x =? 225) && (y =? 154) && (z =? 128)
   || (x =? 226) && (y =? 128)
      && ((128 <=? z) && (z <=? 138) || (z =? 168) || (z =? 169) || (z =? 175))
   || (x =? 226) && (y =? 129) && (z =? 159)
   || (x =? 227) && (y =? 128) && (z =? 128)
   || (x =? 239) && (y =? 187) && (z =? 191))%nat.

Definition is_digit (c : ascii) : bool :=
  let n := nat_of_ascii c in ((48 <=? n) && (n <=? 57))%nat.

Definition chars (s : string) : list ascii := list_ascii_of_string s.
Definition unchars (l : list ascii) : string := string_of_list_ascii l.

(** The list without the white space it starts with; [back] when the list
    is a string read from its end, with the bytes of each character in
    reverse. *)
Fixpoint drop_spaces (back : bool) (l : list ascii) : list ascii :=
  match l with
  | a :: l1 =>
      if is_space a then drop_spaces back l1
      else match l1 with
           | b :: l2 =>
               if (if back then is_space2 b a else is_space2 a b)
               then drop_spaces back l2
               else match l2 with
                    | c :: l3 =>
                        if (if back then is_space3 c b a else is_space3 a b c)
                        then drop_spaces back l3
                        else l
                    | [] => l
                    end
           | [] => l
           end
  | [] => []
  end.

(** [s.trim()] *)
Definition trim (s : string) : string :=
  unchars (rev (drop_spaces true (rev (drop_spaces false (chars s))))).

(** [s.startsWith(p)] *)
Definition startsWith (s p : string) : bool := String.prefix p s.

Fixpoint drop_chars (n : nat) (s : string) : string :=
  match n, s with
  | S n', String _ s' => drop_chars n' s'
  | _, _ => s
  end.

(** [s.replace(pat, rep)] for a string pattern: the first occurrence only
    ([rep] is taken literally, as it is for the empty replacement used). *)
Fixpoint replace (pat rep s : string) : string :=
  if String.prefix pat s then rep ++ drop_chars (String.length pat) s
  else match s with
       | EmptyString => EmptyString
       | String c s' => String c (replace pat rep s')
       end.

(** [s.split(sep)[0]] for a one-character separator. *)
Fixpoint split_head (sep : ascii) (s : string) : string :=
  match s with
  | EmptyString => EmptyString
  | String c s' => if Ascii.eqb c sep then EmptyString
                   else String c (split_head sep s')
  end.

(** Truthiness of a string: non-empty. *)
Definition truthy_str (s : string) : bool :=
  match s with EmptyString => false | _ => true end.

(** *** StringToNumber (the StringNumericLiteral grammar) *)

Definition digit_of (base : N) (c : ascii) : option N :=
  let n := N_of_ascii c in
  let v := if ((48 <=? n) && (n <=? 57))%N then Some (n - 48)%N
           else if ((97 <=? n) && (n <=? 102))%N then Some (n - 87)%N
           else if ((65 <=? n) && (n <=? 70))%N then Some (n - 55)%N
           else None in
  match v with
  | Some d => if (d <? base)%N then Some d else None
  | None => None
  end.

(** Value of a run of digits, most significant first; [None] when a
    character is not a digit of the base. *)
Fixpoint digits_val (base acc : N) (l : list ascii) : option N :=
  match l with
  | [] => Some acc
  | c :: l' =>
      match digit_of base c with
      | Some d => digits_val base (acc * base + d)%N l'
      | None => None
      end
  end.

(** A non-empty run of digits. *)
Definition digits1 (base : N) (l : list ascii) : option N :=
  match l with [] => None | _ => digits_val base 0%N l end.

Fixpoint span_digits (l : list ascii) : list ascii * list ascii :=
  match l with
  | c :: l' => if is_digit c
               then let '(d, r) := span_digits l' in (c :: d, r)
               else ([], l)
  | [] => ([], [])
  end.

Definition pow10 (e : Z) : Q := Qpower (10 # 1) e.

(** ExponentPart: empty, or [e]/[E], an optional sign, and digits. *)
Definition exponent (l : list ascii) : option Z :=
  match l with
  | [] => Some 0
  | c :: l' =>
      if Ascii.eqb c "e" || Ascii.eqb c "E" then
        match l' with
        | "+"%char :: ds => Z.of_N <$> digits1 10 ds
        | "-"%char :: ds => (fun n => - Z.of_N n) <$> digits1 10 ds
        | ds => Z.of_N <$> digits1 10 ds
        end
      else None
  end.

(** StrUnsignedDecimalLiteral without [Infinity]: digits, then optionally a
    dot and digits, with a digit on at least one side of the dot, then the
    exponent part. *)
Definition unsigned_decimal (l : list ascii) : option Q :=
  let '(ip, r) := span_digits l in
  let '(fp, r') := match r with
                   | "."%char :: r1 => span_digits r1
                   | _ => ([], r)
                   end in
  match ip, fp with
  | [], [] => None
  | _, _ =>
      match digits_val 10 0%N ip, digits_val 10 0%N fp, exponent r' with
      | Some i, Some f, Some e =>
          Some ((inject_Z (Z.of_N i)
                 + inject_Z (Z.of_N f) * pow10 (- Z.of_nat (length fp)))
                * pow10 e)%Q
      | _, _, _ => None
      end
  end.

Definition str_unsigned (l : list ascii) : Num :=
  if decide (unchars l = "Infinity") then PosInf
  else match unsigned_decimal l with
       | Some q => round64 q
       | None => NaN
       end.

Definition radix_literal (l : list ascii) : option Num :=
  match l with
  | "0"%char :: x :: ds =>
      let base := if Ascii.eqb x "x" || Ascii.eqb x "X" then Some 16%N
                  else if Ascii.eqb x "o" || Ascii.eqb x "O" then Some 8%N
                  else if Ascii.eqb x "b" || Ascii.eqb x "B" then Some 2%N
                  else None in
      match base with
      | Some b => Some match digits1 b ds with
                       | Some n => round64 (inject_Z (Z.of_N n))
                       | None => NaN
                       end
      | None => None
      end
  | _ => None
  end.

(** [Number(s)] for a string: white space trimmed, the empty string is 0,
    anything outside the grammar is NaN, and the value of a literal is
    rounded to the nearest double. *)
Definition StringToNumber (s : string) : Num :=
  match chars (trim s) with
  | [] => of_Z 0
  | "+"%char :: l => str_unsigned l
  | "-"%char :: l => neg (str_unsigned l)
  | l => match radix_literal l with
         | Some n => n
         | None => str_unsigned l
         end
  end.

(** ToNumber, which is also [Number(v)] on primitives. *)
Definition ToNumber (v : Val) : Num :=
  match v with
  | VUndefined => NaN
  | VNull => of_Z 0
  | VBool true => of_Z 1
  | VBool false => of_Z 0
  | VNum n => round n
  | VStr s => StringToNumber s
  end.

End Js.

(** ** Data model

    The Mongoose schemas ([models/User], [models/Sensor],
    [models/Measurement]) are not among the sources; the three records
    follow the design document's data model and the fields the handlers
    read and write. *)

Definition ObjectId := N.

(** Modelled from the spec: [models/User] is missing.  A user has a unique
    username, a hashed password and an optional chat contact. *)
Record User := mkUser {
  user_id : ObjectId;
  username : string;
  password : string;
  whatsapp : option string;
}.

(** Modelled from the spec: [models/Sensor] is missing.  A sensor has a
    hardwareId, a display name, a decimal threshold, one owner, an enabled
    flag and a nullable instant of the last alert (a Date, here in
    milliseconds since the epoch). *)
Record Sensor := mkSensor {
  hardwareId : string;
  friendlyName : string;
  alertThreshold : Js.Num;
  owner : ObjectId;
  enabled : bool;
  lastAlertSent : option Z;
}.

(** Modelled from the spec: [models/Measurement] is missing.  A measurement
    has the sensor's hardware identifier, two decimals and an instant that
    defaults to the time of creation. *)
Record Measurement := mkMeasurement {
  sensorId : string;
  temperatureC : Js.Num;
  voltageV : Js.Num;
  timestamp : Z;
}.

Definition set_lastAlertSent (t : option Z) (s : Sensor) : Sensor :=
  mkSensor (hardwareId s) (friendlyName s) (alertThreshold s) (owner s)
           (enabled s) t.

(** The declarative chart handed to QuickChart. *)
Record ChartConfig := mkChart {
  chart_labels : list string;
  chart_data : list Js.Num;
}.

(** ** What the handlers take from libraries and schemas *)
Class Platform := {
  (** [Number.prototype.toString], as used by template literals *)
  NumberToString : Js.Num -> string;
  (** [String.prototype.toLowerCase]: the case mapping of the engine's
      Unicode tables *)
  toLowerCase : string -> string;
  (** [new RegExp(src, "i")] followed by a match against a string; [None]
      when the constructor raises a SyntaxError *)
  RegExp_i : string -> option (string -> bool);
  (** [new Date(t).toLocaleTimeString()] *)
  toLocaleTimeString : Z -> string;
  (** [chart.getUrl()] of a line chart with these labels and data *)
  QuickChart_getUrl : ChartConfig -> string;
  (** the Sensor schema's values for paths an inserted document leaves out *)
  default_friendlyName : string;
  default_alertThreshold : Js.Num;
  default_lastAlertSent : option Z;
  (** the cursor's [limit(n)] for a caller-supplied number *)
  cursor_limit : Js.Num -> list Measurement -> list Measurement;
}.

(** [process.env], the wall clock and the faults of the two remote services.
    The n-th storage operation of a run fails when [dbFault n]; the n-th
    HTTP post to the chat platform fails when [netFault n]; the n-th reading
    of the clock returns [clock n]. *)
Record Env := mkEnv {
  ALERT_COOLDOWN : option string;
  clock : nat -> Z;
  dbFault : nat -> bool;
  netFault : nat -> bool;
}.

(** A call to the chat platform's HTTP API. *)
Inductive Outbound : Type :=
| SendText (number text : string)
| SendImage (number url caption : string).

Inductive LogLine : Type :=
| LogSendTextError
| LogSendImageError
| LogCooldown (name : string)
| LogCommand (text : string).

Record World := mkWorld {
  sensors : list Sensor;
  measurements : list Measurement;
  users : list User;
  (** posts issued so far, oldest first, each with whether it went through *)
  outbox : list (Outbound * bool);
  console : list LogLine;
  dbOps : nat;
  netOps : nat;
  clockReads : nat;
}.

Inductive Error : Type :=
| TypeError
| SyntaxError
| ValidationError
| StorageError
| NetworkError.

Inductive Result (A : Type) : Type :=
| Ok (a : A)
| Throw (e : Error).
Arguments Ok {A} a.
Arguments Throw {A} e.

(** ** The monad of an async function body *)
Definition M (A : Type) : Type := World -> Result A * World.

#[export] Instance M_ret : MRet M := fun A a w => (Ok a, w).

#[export] Instance M_bind : MBind M := fun A B k m w =>
  match m w with
  | (Ok a, w') => k a w'
  | (Throw e, w') => (Throw e, w')
  end.

Definition throw {A} (e : Error) : M A := fun w => (Throw e, w).

(** [try { m } catch (err) { h }] *)
Definition try_catch {A} (m : M A) (h : Error -> M A) : M A :=
  fun w => match m w with
           | (Ok a, w') => (Ok a, w')
           | (Throw e, w') => h e w'
           end.

Definition with_sensors (f : list Sensor -> list Sensor) (w : World) : World :=
  mkWorld (f (sensors w)) (measurements w) (users w) (outbox w) (console w)
          (dbOps w) (netOps w) (clockReads w).

Definition with_measurements (f : list Measurement -> list Measurement)
    (w : World) : World :=
  mkWorld (sensors w) (f (measurements w)) (users w) (outbox w) (console w)
          (dbOps w) (netOps w) (clockReads w).

Definition log (l : LogLine) : M unit := fun w =>
  (Ok tt, mkWorld (sensors w) (measurements w) (users w) (outbox w)
                  (console w ++ [l]) (dbOps w) (netOps w) (clockReads w)).

Section Effects.
Context (env : Env).

(** [new Date()] / [Date.now()] *)
Definition now : M Z := fun w =>
  (Ok (clock env (clockReads w)),
   mkWorld (sensors w) (measurements w) (users w) (outbox w) (console w)
           (dbOps w) (netOps w) (S (clockReads w))).

(** One awaited storage operation: it either fails, leaving the collections
    as they were, or runs [f]. *)
Definition db {A} (f : World -> A * World) : M A := fun w =>
  let w1 := mkWorld (sensors w) (measurements w) (users w) (outbox w)
                    (console w) (S (dbOps w)) (netOps w) (clockReads w) in
  if dbFault env (dbOps w) then (Throw StorageError, w1)
  else let '(a, w2) := f w1 in (Ok a, w2).

(** [await axios.post(...)] to the chat platform. *)
Definition axios_post (o : Outbound) : M unit := fun w =>
  let failed := netFault env (netOps w) in
  let w1 := mkWorld (sensors w) (measurements w) (users w)
                    (outbox w ++ [(o, negb failed)]) (console w)
                    (dbOps w) (S (netOps w)) (clockReads w) in
  if failed then (Throw NetworkError, w1) else (Ok tt, w1).

End Effects.

(** ** HTTP requests and responses *)

Inductive Payload : Type :=
| PText (s : string)                 (* res.send(s) *)
| PStatusOnly                        (* res.sendStatus(n) *)
| PMessage (s : string)              (* res.json({ message: s }) *)
| PError (s : string)                (* res.json({ error: s }) *)
| PSensor (s : Sensor)               (* res.json(sensor) *)
| PDocs (l : list Measurement).      (* res.json(docs) *)

Record Response := mkResponse {
  status : nat;
  payload : Payload;
}.

(** Body of [POST /api/data]. *)
Record DataBody := mkDataBody {
  b_sensorId : string;
  b_tempC : Js.Val;
  b_voltageV : Js.Val;
}.

(** A JSON value, as [express.json()] hands it to a handler. *)
#[local] Unset Elimination Schemes.
Inductive Json : Type :=
| JNull
| JBool (b : bool)
| JNum (n : Js.Num)
| JStr (s : string)
| JArr (items : list Json)
| JObj (fields : list (string * Json)).
#[local] Set Elimination Schemes.

(** The envelope of [POST /api/webhook/whatsapp], its texts typed:
    [req.body.data], [data.message], [data.key.remoteJid].  [conversation]
    and [ext_text] are [None] when the property is missing or a falsy value
    that is no string; [remoteJid] is [None] when the property is missing
    or no string, which [split] cannot be called on either way; [data] and
    [key] are [None] when the property is missing or null; [message] is
    [None] when the property is missing or falsy.  A body in which the text
    the handler picks is a truthy value that is no string has no envelope
    of its own: [post_api_webhook_json] answers it before [envelope] is
    looked at. *)
Record ExtendedTextMessage := mkExtended { ext_text : option string }.

Record WaMessage := mkWaMessage {
  conversation : option string;
  extendedTextMessage : option ExtendedTextMessage;
}.

Record WaKey := mkWaKey { remoteJid : option string }.

Record WaData := mkWaData {
  message : option WaMessage;
  key : option WaKey;
}.

Record WebhookBody := mkWebhookBody { data : option WaData }.

(** Body of [POST /api/sensors/config]: the schema paths it may carry. *)
Record ConfigBody := mkConfigBody {
  c_hardwareId : string;
  c_friendlyName : option string;
  c_alertThreshold : option Js.Num;
  c_owner : option ObjectId;
  c_enabled : option bool;
  c_lastAlertSent : option (option Z);
}.

(** [{ ...req.body, owner: req.user.id, enabled: true }] *)
Record SensorData := mkSensorData {
  d_hardwareId : string;
  d_friendlyName : option string;
  d_alertThreshold : option Js.Num;
  d_owner : ObjectId;
  d_enabled : bool;
  d_lastAlertSent : option (option Z);
}.

(** ** Queries *)

Fixpoint insert_desc (m : Measurement) (l : list Measurement)
    : list Measurement :=
  match l with
  | [] => [m]
  | x :: l' => if timestamp x <=? timestamp m then m :: l
               else x :: insert_desc m l'
  end.

(** [.sort({ timestamp: -1 })]: newest first; documents with the same
    timestamp keep their order in the collection. *)
Definition sort_desc (l : list Measurement) : list Measurement :=
  foldr insert_desc [] l.

Definition of_sensor (hid : string) (l : list Measurement) : list Measurement :=
  filter (fun m => sensorId m = hid) l.

(** [deleteOne]: the first match goes. *)
Definition delete_first {A} (P : A -> Prop) `{forall x, Decision (P x)}
    (l : list A) : list A :=
  match list_find P l with
  | Some (i, _) => delete i l
  | None => l
  end.

Definition owner_whatsapp (o : option User) : option string :=
  match o with
  | Some u => whatsapp u
  | None => None
  end.

Section Server.
Context `{Platform} (env : Env).

Definition ToString (v : Js.Val) : string :=
  match v with
  | Js.VUndefined => "undefined"
  | Js.VNull => "null"
  | Js.VBool true => "true"
  | Js.VBool false => "false"
  | Js.VNum n => NumberToString (Js.round n)
  | Js.VStr s => s
  end.

(** [Sensor.findOne({ hardwareId }).populate("owner")]: the document, its
    place in the collection (its identity for a later [save]) and the owner
    document, if that user exists. *)
Definition Sensor_findOne_populate (hid : string)
    : M (option (nat * Sensor * option User)) :=
  db env (fun w =>
    (match list_find (fun s => hardwareId s = hid) (sensors w) with
     | Some (i, s) =>
         Some (i, s, snd <$> list_find (fun u => user_id u = owner s) (users w))
     | None => None
     end, w)).

(** [Sensor.findOne(filter)] *)
Definition Sensor_findOne (P : Sensor -> Prop) `{forall s, Decision (P s)}
    : M (option Sensor) :=
  db env (fun w => (snd <$> list_find P (sensors w), w)).

(** [Sensor.find(filter)] *)
Definition Sensor_find (P : Sensor -> Prop) `{forall s, Decision (P s)}
    : M (list Sensor) :=
  db env (fun w => (filter P (sensors w), w)).

(** [sensor.lastAlertSent = t; await sensor.save()]: the modified path is
    written to the document found earlier. *)
Definition Sensor_save_lastAlertSent (i : nat) (t : Z) : M unit :=
  db env (fun w =>
    (tt, with_sensors (alter (set_lastAlertSent (Some t)) i) w)).

(** [await new Measurement({ ... }).save()].  The timestamp is not given by
    the handler: the schema's default (the time of creation, by the design
    document) is read from the clock when the document is built.  The two
    decimals are Number paths, and a Number path takes no NaN: the document
    then fails validation and [save] rejects before anything is sent to the
    store. *)
Definition Measurement_save (sid : string) (t v : Js.Num) : M unit :=
  ts ← now env;
  if Js.isNaN t || Js.isNaN v then throw ValidationError
  else
    db env (fun w =>
      (tt, with_measurements
             (fun ms => (ms ++ [mkMeasurement sid t v ts])%list) w)).

(** [Measurement.findOne({ sensorId }).sort({ timestamp: -1 })] *)
Definition Measurement_latest (hid : string) : M (option Measurement) :=
  db env (fun w => (head (sort_desc (of_sensor hid (measurements w))), w)).

(** [Measurement.find({ sensorId }).sort({ timestamp: -1 }).limit(10)] *)
Definition Measurement_recent (hid : string) (n : nat)
    : M (list Measurement) :=
  db env (fun w => (take n (sort_desc (of_sensor hid (measurements w))), w)).

(** [User.findOne({ whatsapp: from })] *)
Definition User_findOne_whatsapp (from : string) : M (option User) :=
  db env (fun w =>
    (snd <$> list_find (fun u => whatsapp u = Some from) (users w), w)).

(** ** Senders *)

Definition responderWhatsApp (number text : string) : M unit :=
  try_catch (axios_post env (SendText number text))
            (fun _ => log LogSendTextError).

Definition responderWhatsAppConImagen (number imageUrl caption : string)
    : M unit :=
  try_catch (axios_post env (SendImage number imageUrl caption))
            (fun _ => log LogSendImageError).

Definition alert_text (sensorName : string) (temp : Js.Val) : string :=
  "🚨 *ALERTA DE TEMPERATURA*" ++ Js.nl ++ Js.nl ++
  "📍 *Equipo:* " ++ sensorName ++ Js.nl ++
  "🌡️ *Temperatura:* " ++ ToString temp ++ "°C" ++ Js.nl ++ Js.nl ++
  "⚠️ _El límite ha sido superado._" ++ Js.nl ++
  "👉 Escribe *Estado* para ver todos tus equipos.".

Definition sendWhatsAppAlert (number sensorName : string) (temp : Js.Val)
    : M unit :=
  responderWhatsApp number (alert_text sensorName temp).

(** ** POST /api/data *)

(** [(process.env.ALERT_COOLDOWN || 30) * 60000] *)
Definition cooldownMs : Js.Num :=
  Js.mul (match ALERT_COOLDOWN env with
          | Some s => if Js.truthy_str s then Js.StringToNumber s
                      else Js.of_Z 30
          | None => Js.of_Z 30
          end)
         (Js.of_Z 60000).

(** [!sensor.lastAlertSent || ahora - sensor.lastAlertSent > cooldownMs]; a
    Date object is truthy whatever its value. *)
Definition cooldown_over (last : option Z) (ahora : Z) : bool :=
  match last with
  | None => true
  | Some l => Js.gt (Js.sub_dates ahora l) cooldownMs
  end.

Definition post_api_data (body : DataBody) : M Response :=
  try_catch
    (found ← Sensor_findOne_populate (b_sensorId body);
     match found with
     | None => mret (mkResponse 404 (PText "Sensor no configurado"))
     | Some (i, sensor, o) =>
         Measurement_save (b_sensorId body) (Js.ToNumber (b_tempC body))
                          (Js.ToNumber (b_voltageV body));;
         match owner_whatsapp o with
         | Some number =>
             if Js.gt (Js.ToNumber (b_tempC body)) (alertThreshold sensor)
                && Js.truthy_str number
             then
               ahora ← now env;
               if cooldown_over (lastAlertSent sensor) ahora then
                 sendWhatsAppAlert number (friendlyName sensor) (b_tempC body);;
                 Sensor_save_lastAlertSent i ahora
               else log (LogCooldown (friendlyName sensor))
             else mret tt
         | None => mret tt      (* [sensor.owner?.whatsapp] is undefined *)
         end;;
         mret (mkResponse 200 (PText "OK"))
     end)
    (fun _ => mret (mkResponse 500 (PText "Error"))).

(** ** POST /api/webhook/whatsapp *)

(** [data.message.conversation || data.message.extendedTextMessage?.text]
    or else the empty string *)
Definition message_text (m : WaMessage) : string :=
  let ext := match extendedTextMessage m with
             | Some e => match ext_text e with
                         | Some t => if Js.truthy_str t then t else EmptyString
                         | None => EmptyString
                         end
             | None => EmptyString
             end in
  match conversation m with
  | Some c => if Js.truthy_str c then c else ext
  | None => ext
  end.

Definition REPORT_HEADER : string :=
  "📋 *REPORTE DE EQUIPOS*" ++ Js.nl ++ Js.nl.

Definition report_line (s : Sensor) (lastM : option Measurement) : string :=
  let temp := match lastM with
              | Some m => NumberToString (temperatureC m) ++ "°C"
              | None => "N/A"
              end in
  let icon := match lastM with
              | Some m => if Js.gt (temperatureC m) (alertThreshold s)
                          then "🔴" else "🟢"
              | None => "🟢"
              end in
  icon ++ " *" ++ friendlyName s ++ "*: " ++ temp ++ Js.nl.

(** [for (const s of sensors) { ...; reporte += ... }] *)
Fixpoint estado_loop (ss : list Sensor) (reporte : string) : M string :=
  match ss with
  | [] => mret reporte
  | s :: ss' =>
      lastM ← Measurement_latest (hardwareId s);
      estado_loop ss' (reporte ++ report_line s lastM)
  end.

Definition estado (u : User) (from : string) : M unit :=
  ss ← Sensor_find (fun s => owner s = user_id u /\ enabled s = true);
  reporte ← estado_loop ss REPORT_HEADER;
  responderWhatsApp from reporte.

Definition history_chart (docs : list Measurement) : ChartConfig :=
  mkChart (rev (map (fun m => toLocaleTimeString (timestamp m)) docs))
          (rev (map temperatureC docs)).

Definition not_found_text (busqueda : string) : string :=
  "❌ No encontré el equipo " ++ Js.dquote ++ busqueda ++ Js.dquote.

Definition historial (u : User) (from text : string) : M unit :=
  let busqueda := Js.trim (Js.replace "historial" EmptyString text) in
  match RegExp_i busqueda with
  | None => throw SyntaxError
  | Some rx =>
      sensor ← Sensor_findOne
                 (fun s => owner s = user_id u /\ rx (friendlyName s) = true);
      match sensor with
      | Some s =>
          docs ← Measurement_recent (hardwareId s) 10;
          if (0 <? length docs)%nat then
            responderWhatsAppConImagen from
              (QuickChart_getUrl (history_chart docs))
              ("📊 Historial: " ++ friendlyName s)
          else mret tt
      | None => responderWhatsApp from (not_found_text busqueda)
      end
  end.

Definition post_api_webhook_whatsapp (body : WebhookBody) : M Response :=
  try_catch
    (match data body with
     | None => throw TypeError               (* [data.message] of undefined *)
     | Some d =>
         match message d with
         | None => mret (mkResponse 200 PStatusOnly)
         | Some m =>
             let text := Js.trim (toLowerCase (message_text m)) in
             match key d ≫= remoteJid with
             | None => throw TypeError       (* [data.key.remoteJid.split] *)
             | Some jid =>
                 let from := Js.split_head "@" jid in
                 user ← User_findOne_whatsapp from;
                 match user with
                 | None => mret (mkResponse 200 PStatusOnly)
                 | Some u =>
                     log (LogCommand text);;
                     (if decide (text = "estado") then estado u from
                      else mret tt);;
                     (if Js.startsWith text "historial"
                      then historial u from text
                      else mret tt);;
                     mret (mkResponse 200 PStatusOnly)
                 end
             end
         end
     end)
    (fun _ => mret (mkResponse 500 PStatusOnly)).

(** ** Sensor administration (behind [authenticateToken]: [caller] is
    [req.user.id]) *)

Definition sensorData_of (body : ConfigBody) (caller : ObjectId) : SensorData :=
  mkSensorData (c_hardwareId body) (c_friendlyName body)
               (c_alertThreshold body) caller true (c_lastAlertSent body).

(** The update sets the paths it carries and leaves the others. *)
Definition apply_set (d : SensorData) (s : Sensor) : Sensor :=
  mkSensor (d_hardwareId d)
           (default (friendlyName s) (d_friendlyName d))
           (default (alertThreshold s) (d_alertThreshold d))
           (d_owner d) (d_enabled d)
           (default (lastAlertSent s) (d_lastAlertSent d)).

(** The document an upsert inserts. *)
Definition new_sensor (d : SensorData) : Sensor :=
  apply_set d (mkSensor (d_hardwareId d) default_friendlyName
                        default_alertThreshold (d_owner d) (d_enabled d)
                        default_lastAlertSent).

(** [Sensor.findOneAndUpdate({ hardwareId }, d, { upsert: true, new: true })] *)
Definition Sensor_findOneAndUpdate (hid : string) (d : SensorData) : M Sensor :=
  db env (fun w =>
    match list_find (fun s => hardwareId s = hid) (sensors w) with
    | Some (i, s) =>
        (apply_set d s, with_sensors (fun l => <[i := apply_set d s]> l) w)
    | None =>
        (new_sensor d, with_sensors (fun l => (l ++ [new_sensor d])%list) w)
    end).

Definition post_api_sensors_config (caller : ObjectId) (body : ConfigBody)
    : M Response :=
  try_catch
    (sensor ← Sensor_findOneAndUpdate (c_hardwareId body)
                                      (sensorData_of body caller);
     mret (mkResponse 200 (PSensor sensor)))
    (fun _ => mret (mkResponse 500 (PError "Error al guardar"))).

(** [GET /api/history?sensorId=..&limit=..]; [limit] defaults to 100. *)
Definition get_api_history (caller : ObjectId) (sid : string)
    (limit : option string) : M Response :=
  sensor ← Sensor_findOne (fun s => hardwareId s = sid /\ owner s = caller);
  match sensor with
  | None => mret (mkResponse 403 (PText "No autorizado"))
  | Some _ =>
      docs ← db env (fun w =>
        (cursor_limit (match limit with
                       | Some l => Js.StringToNumber l
                       | None => Js.of_Z 100
                       end)
                      (sort_desc (of_sensor sid (measurements w))), w));
      mret (mkResponse 200 (PDocs docs))
  end.

(** [DELETE /api/sensors/:hardwareId] *)
Definition delete_api_sensors (caller : ObjectId) (hid : string) : M Response :=
  db env (fun w =>
    (tt, with_sensors
           (delete_first (fun s => hardwareId s = hid /\ owner s = caller)) w));;
  db env (fun w =>
    (tt, with_measurements (filter (fun m => sensorId m <> hid)) w));;
  mret (mkResponse 200 (PMessage "Eliminado")).

End Server.

(** What a handler sends: its response, or none when its promise rejects
    before it sends one (the routes without a [try]).  What the client then
    gets is up to the framework: Express 4 leaves the request unanswered,
    Express 5 answers 500. *)
Definition respond (m : M Response) (w : World) : option Response * World :=
  match m w with
  | (Ok r, w') => (Some r, w')
  | (Throw _, w') => (None, w')
  end.

(** ** The webhook on a raw body

    The handler reads [req.body] property by property.  [envelope] is what
    it reads; [text_raises] tells whether the value it goes on to call
    [toLowerCase] on is no string, which raises a TypeError inside the
    [try] before anything else is done.  [post_api_webhook_whatsapp] above
    is the handler from there on. *)

(** [j.k] for a [j] that is not null and one of the property names the
    handler reads, none of which a string, a number or an array has: the
    property of an object (the last one of a repeated key, as [JSON.parse]
    keeps it), else undefined. *)
Definition prop (k : string) (j : Json) : option Json :=
  match j with
  | JObj fields => snd <$> last (filter (fun kv => kv.1 = k) fields)
  | _ => None
  end.

(** Truthiness of a value or of undefined. *)
Definition truthy (v : option Json) : bool :=
  match v with
  | None | Some JNull => false
  | Some (JBool b) => b
  | Some (JNum n) => match Js.round n with
                     | Js.NaN => false
                     | Js.Fin q => negb (Qnum q =? 0)
                     | _ => true
                     end
  | Some (JStr s) => Js.truthy_str s
  | Some (JArr _) | Some (JObj _) => true
  end.

Definition nullish (v : option Json) : bool :=
  match v with None | Some JNull => true | _ => false end.

Definition as_string (v : option Json) : option string :=
  match v with Some (JStr s) => Some s | _ => None end.

(** [msg.extendedTextMessage?.text] *)
Definition extended_text (msg : Json) : option Json :=
  match prop "extendedTextMessage" msg with
  | None | Some JNull => None
  | Some e => prop "text" e
  end.

(** [msg.conversation || msg.extendedTextMessage?.text], when one of the
    two is truthy. *)
Definition chosen_text (msg : Json) : option Json :=
  if truthy (prop "conversation" msg) then prop "conversation" msg
  else if truthy (extended_text msg) then extended_text msg
  else None.

Definition read_message (msg : Json) : WaMessage :=
  mkWaMessage
    (as_string (prop "conversation" msg))
    (match prop "extendedTextMessage" msg with
     | None | Some JNull => None
     | Some e => Some (mkExtended (as_string (prop "text" e)))
     end).

Definition read_key (k : Json) : WaKey :=
  mkWaKey (as_string (prop "remoteJid" k)).

Definition read_data (d : Json) : WaData :=
  mkWaData
    (if truthy (prop "message" d) then read_message <$> prop "message" d
     else None)
    (if nullish (prop "key" d) then None else read_key <$> prop "key" d).

Definition envelope (body : Json) : WebhookBody :=
  mkWebhookBody
    (if nullish (prop "data" body) then None
     else read_data <$> prop "data" body).

Definition text_raises (body : Json) : bool :=
  match prop "data" body with
  | None | Some JNull => false
  | Some d =>
      truthy (prop "message" d) &&
      match prop "message" d ≫= chosen_text with
      | Some (JStr _) | None => false
      | Some _ => true
      end
  end.

Definition post_api_webhook_json `{Platform} (env : Env) (body : Json)
    : M Response :=
  if text_raises body then mret (mkResponse 500 PStatusOnly)
  else post_api_webhook_whatsapp env (envelope body).

(** ** The ingest handler between its awaits

    An async handler runs up to an [await] and resumes when the awaited
    operation has settled; meanwhile the other requests' handlers run.  A
    task is a handler with the locals it holds, named after the last
    operation it has seen settle.  A step runs its code up to the next
    [await] together with the awaited operation: the lookup; the building
    and the write of the measurement; the decision, the reading of [ahora]
    and the post of the alert; the write of lastAlertSent. *)
Inductive IngestTask : Type :=
| Started (body : DataBody)
| Found (body : DataBody) (i : nat) (sensor : Sensor) (o : option User)
| Saved (body : DataBody) (i : nat) (sensor : Sensor) (o : option User)
| Sent (i : nat) (ahora : Z)
| Finished (r : Response).

(** The handler's [catch]. *)
Definition settle (m : M IngestTask) (w : World) : IngestTask * World :=
  match m w with
  | (Ok t, w') => (t, w')
  | (Throw _, w') => (Finished (mkResponse 500 (PText "Error")), w')
  end.

Definition ingest_step `{Platform} (env : Env) (t : IngestTask)
    : World -> IngestTask * World :=
  match t with
  | Started body =>
      settle (found ← Sensor_findOne_populate env (b_sensorId body);
              mret match found with
                   | None =>
                       Finished (mkResponse 404 (PText "Sensor no configurado"))
                   | Some (i, sensor, o) => Found body i sensor o
                   end)
  | Found body i sensor o =>
      settle (Measurement_save env (b_sensorId body)
                (Js.ToNumber (b_tempC body)) (Js.ToNumber (b_voltageV body));;
              mret (Saved body i sensor o))
  | Saved body i sensor o =>
      settle
        match owner_whatsapp o with
        | Some number =>
            if Js.gt (Js.ToNumber (b_tempC body)) (alertThreshold sensor)
               && Js.truthy_str number
            then
              ahora ← now env;
              if cooldown_over env (lastAlertSent sensor) ahora then
                sendWhatsAppAlert env number (friendlyName sensor)
                                  (b_tempC body);;
                mret (Sent i ahora)
              else
                log (LogCooldown (friendlyName sensor));;
                mret (Finished (mkResponse 200 (PText "OK")))
            else mret (Finished (mkResponse 200 (PText "OK")))
        | None => mret (Finished (mkResponse 200 (PText "OK")))
        end
  | Sent i ahora =>
      settle (Sensor_save_lastAlertSent env i ahora;;
              mret (Finished (mkResponse 200 (PText "OK"))))
  | Finished r => fun w => (Finished r, w)
  end.

(** A run of several handlers: the schedule names, step by step, the task
    that resumes. *)
Fixpoint run_tasks `{Platform} (env : Env) (schedule : list nat)
    (tasks : list IngestTask) (w : World) : list IngestTask * World :=
  match schedule with
  | [] => (tasks, w)
  | k :: schedule' =>
      match tasks !! k with
      | Some t =>
          let '(t', w') := ingest_step env t w in
          run_tasks env schedule' (<[k := t']> tasks) w'
      | None => run_tasks env schedule' tasks w
      end
  end.

(** The schedule that handles [n] requests in turn, from task [first] on:
    each task takes its four steps before the next one starts. *)
Definition in_turn (first n : nat) : list nat :=
  flat_map (fun k => [k; k; k; k]) (seq first n).

(** The ingest requests of a run, one after the other: each handler has
    answered before the next one starts. *)
Fixpoint ingest_all `{Platform} (env : Env) (reqs : list DataBody) (w : World)
    : World :=
  match reqs with
  | [] => w
  | r :: reqs' => ingest_all env reqs' (post_api_data env r w).2
  end.

(** ** Vocabulary of the statements *)

(** The sensor of an ingest and the contact of its owner, as the handler's
    lookup returns them. *)
Definition configured (w : World) (hid : string) (i : nat) (s : Sensor) : Prop :=
  list_find (fun s => hardwareId s = hid) (sensors w) = Some (i, s).

Definition contact_of (w : World) (s : Sensor) : option string :=
  owner_whatsapp (snd <$> list_find (fun u => user_id u = owner s) (users w)).

(** The alert an ingest posts for sensor [s] to [number]. *)
Definition alert_of `{Platform} (body : DataBody) (s : Sensor) (number : string)
    : Outbound :=
  SendText number (alert_text (friendlyName s) (b_tempC body)).

(** The evaluator of the design document, from its contract: true iff
    [currentTemp > threshold] and ([lastAlertSent] is null or
    [now - lastAlertSent > cooldownWindow]). *)
Definition shouldAlert (currentTemp threshold : Js.Num)
    (lastAlertSent : option Z) (now : Z) (cooldownWindow : Js.Num) : bool :=
  Js.gt currentTemp threshold &&
  match lastAlertSent with
  | None => true
  | Some l => Js.gt (Js.sub_dates now l) cooldownWindow
  end.

(** The reading converts to two numbers: the measurement passes the
    schema's validation. *)
Definition accepted (body : DataBody) : bool :=
  negb (Js.isNaN (Js.ToNumber (b_tempC body))
        || Js.isNaN (Js.ToNumber (b_voltageV body))).

(** The posts a handler issued between two worlds. *)
Definition dispatched (w w' : World) : list (Outbound * bool) :=
  drop (length (outbox w)) (outbox w').


(** The normalised command text and the sender of a webhook message. *)
Definition command_of `{Platform} (m : WaMessage) : string :=
  Js.trim (toLowerCase (message_text m)).

Definition sender_of (jid : string) : string := Js.split_head "@" jid.

(** The search text of a historial command. *)
Definition query_of (text : string) : string :=
  Js.trim (Js.replace "historial" EmptyString text).

(** The envelope has the properties the handler dereferences. *)
Definition well_formed (body : WebhookBody) : Prop :=
  match data body with
  | None => False
  | Some d => match message d with
              | None => True
              | Some _ => is_Some (key d ≫= remoteJid)
              end
  end.

(** The body is one the handler reads without a TypeError: [data] is
    there, and for an event with a message the text the handler picks, if
    any, is a string and [key.remoteJid] is a string. *)
Definition readable (body : Json) : Prop :=
  exists d, prop "data" body = Some d /\ d <> JNull /\
    (truthy (prop "message" d) = true ->
     (forall v, prop "message" d ≫= chosen_text = Some v ->
                exists s, v = JStr s) /\
     exists k jid, prop "key" d = Some k /\
                   prop "remoteJid" k = Some (JStr jid)).

(** The search text of the request, when it is a historial command, is a
    pattern the regular-expression constructor accepts. *)
Definition pattern_compiles `{Platform} (body : WebhookBody) : Prop :=
  match data body with
  | Some d => match message d with
              | Some m => Js.startsWith (command_of m) "historial" = true ->
                          is_Some (RegExp_i (query_of (command_of m)))
              | None => True
              end
  | None => True
  end.

Definition newer_first (a b : Measurement) : Prop := timestamp b <= timestamp a.

(** The two statuses of the webhook. *)
Definition ack : Response := mkResponse 200 PStatusOnly.
Definition failure : Response := mkResponse 500 PStatusOnly.

(** The world once the sender has been resolved and the command logged. *)
Definition logged (w : World) (text : string) : World :=
  mkWorld (sensors w) (measurements w) (users w) (outbox w)
          (console w ++ [LogCommand text]) (S (dbOps w)) (netOps w)
          (clockReads w).

(** The world after [n] storage operations that changed nothing. *)
Definition bump_db (n : nat) (w : World) : World :=
  mkWorld (sensors w) (measurements w) (users w) (outbox w) (console w)
          (n + dbOps w) (netOps w) (clockReads w).

(** The world after one post to the chat platform, failed or not. *)
Definition posted (env : Env) (o : Outbound) (w : World) : World :=
  mkWorld (sensors w) (measurements w) (users w)
          (outbox w ++ [(o, negb (netFault env (netOps w)))])
          (console w ++ if netFault env (netOps w)
                        then [match o with
                              | SendText _ _ => LogSendTextError
                              | SendImage _ _ _ => LogSendImageError
                              end]
                        else [])
          (dbOps w) (S (netOps w)) (clockReads w).

(** ** A platform to run the handlers on

    Integral numbers print as JavaScript prints them (other finite values
    as a fraction); lower case is that of the letters A to Z, which is what
    the engine's mapping does to ASCII text, the only text this platform is
    run on; a pattern without metacharacters matches as a case-insensitive
    substring; this engine takes no other pattern, so it rejects what the
    real constructor rejects (an unbalanced parenthesis, say) and is only
    run on plain words besides; time labels and chart URLs are readable
    stand-ins. *)
Module Demo.

Definition lower_ascii (c : ascii) : ascii :=
  let n := nat_of_ascii c in
  if ((65 <=? n) && (n <=? 90))%nat then ascii_of_nat (n + 32) else c.

Definition lower (s : string) : string :=
  Js.unchars (map lower_ascii (Js.chars s)).

Definition show_num (n : Js.Num) : string :=
  match n with
  | Js.NaN => "NaN"
  | Js.PosInf => "Infinity"
  | Js.NegInf => "-Infinity"
  | Js.Fin q =>
      if (Z.rem (Qnum q) (Zpos (Qden q)) =? 0)
      then pretty (Z.quot (Qnum q) (Zpos (Qden q)))
      else pretty (Qnum q) ++ "/" ++ pretty (Zpos (Qden q))
  end.

Definition is_meta (c : ascii) : bool :=
  existsb (Ascii.eqb c) (Js.chars "\^$.|?*+()[]{}").

Fixpoint contains (pat s : string) : bool :=
  String.prefix pat s ||
  match s with
  | EmptyString => false
  | String _ s' => contains pat s'
  end.

Definition regexp_i (src : string) : option (string -> bool) :=
  if existsb is_meta (Js.chars src) then None
  else Some (fun s => contains (lower src) (lower s)).

Definition join (sep : string) (l : list string) : string :=
  foldr (fun x acc => x ++ sep ++ acc) EmptyString l.

Definition chart_url (c : ChartConfig) : string :=
  "https://quickchart.io/chart?labels=" ++ join "," (chart_labels c)
  ++ "&data=" ++ join "," (map show_num (chart_data c)).

Definition limit (n : Js.Num) (l : list Measurement) : list Measurement :=
  match n with
  | Js.Fin q => if (0 <? Qnum q) then take (Z.to_nat (Qnum q / Zpos (Qden q))) l
                else l
  | _ => l
  end.

#[export] Instance platform : Platform := {|
  NumberToString := show_num;
  toLowerCase := lower;
  RegExp_i := regexp_i;
  toLocaleTimeString := fun t => pretty t;
  QuickChart_getUrl := chart_url;
  default_friendlyName := EmptyString;
  default_alertThreshold := Js.NaN;
  default_lastAlertSent := None;
  cursor_limit := limit;
|}.

Definition world0 : World := mkWorld [] [] [] [] [] 0 0 0.

(** All services up, the clock reading [t0], [t0 + 1], ... *)
Definition env_ok (cooldown : option string) (t0 : Z) : Env :=
  mkEnv cooldown (fun n => t0 + Z.of_nat n) (fun _ => false) (fun _ => false).

(** The body of a message event: [{ data: { message: { conversation },
    key: { remoteJid } } }]. *)
Definition json_message (jid : string) (conversation : Json) : Json :=
  JObj [("data",
         JObj [("message", JObj [("conversation", conversation)]);
               ("key", JObj [("remoteJid", JStr jid)])])].

Definition text_message (jid text : string) : WebhookBody :=
  mkWebhookBody
    (Some (mkWaData (Some (mkWaMessage (Some text) None))
                    (Some (mkWaKey (Some jid))))).

(** A shop: two users, one freezer of the first user with an alert sent at
    the epoch, three readings. *)
Definition ana : User := mkUser 1%N "ana" "$2a$10$N9qo8uLOickgx2ZMRZoMye" (Some "5491100000000").
Definition beto : User := mkUser 2%N "beto" "$2a$10$7EqJtq98hPqEX7fNZaFWoO" (Some "5491122223333").

Definition freezer : Sensor :=
  mkSensor "HELADERA-01" "Freezer" (Js.of_Z 5) 1%N true (Some 0).

Definition reading (temp ts : Z) : Measurement :=
  mkMeasurement "HELADERA-01" (Js.of_Z temp) (Js.of_Z 12) ts.

Definition shop : World :=
  mkWorld [freezer] [reading 3 1000; reading 4 3000; reading 6 2000]
          [ana; beto] [] [] 0 0 0.

(** A reading of 9 degrees for the freezer, whose threshold is 5. *)
Definition hot : DataBody :=
  mkDataBody "HELADERA-01" (Js.VNum (Js.of_Z 9)) (Js.VNum (Js.of_Z 12)).

(** The same reading without a voltage, and with a voltage that is no
    number. *)
Definition hot_without_voltage : DataBody :=
  mkDataBody "HELADERA-01" (Js.VNum (Js.of_Z 9)) Js.VUndefined.

Definition hot_with_words : DataBody :=
  mkDataBody "HELADERA-01" (Js.VNum (Js.of_Z 9)) (Js.VStr "n/a").

Definition two_hours : Z := 7200000.

End Demo.

(** ** A second shop

    A third user without a contact owns a second sensor that has never
    alerted and has no reading. *)
Module Demo2.
Import Demo.

Definition carla : User := mkUser 3%N "carla" "$2a$10$CwTycUXWue0Thq9StjUM0u" None.

Definition fridge : Sensor :=
  mkSensor "HELADERA-02" "Fridge" (Js.of_Z 8) 3%N true None.

Definition shop2 : World :=
  mkWorld [freezer; fridge] [reading 3 1000; reading 4 3000; reading 6 2000]
          [ana; beto; carla] [] [] 0 0 0.

(** A reading of 9 degrees for the fridge, whose threshold is 8. *)
Definition warm : DataBody :=
  mkDataBody "HELADERA-02" (Js.VNum (Js.of_Z 9)) (Js.VNum (Js.of_Z 12)).

(** A reading of 5 degrees for the freezer: at its threshold, not above. *)
Definition mild : DataBody :=
  mkDataBody "HELADERA-01" (Js.VNum (Js.of_Z 5)) (Js.VNum (Js.of_Z 12)).

(** A reading without a temperature. *)
Definition blank : DataBody :=
  mkDataBody "HELADERA-01" Js.VUndefined (Js.VNum (Js.of_Z 12)).

(** Storage fails at the operations listed, the chat platform at the posts
    listed; the clock reads [t0], [t0 + 1], ... *)
Definition env_faulty (dbs nets : list nat) (t0 : Z) : Env :=
  mkEnv None (fun n => t0 + Z.of_nat n)
        (fun n => bool_decide (n ∈ dbs)) (fun n => bool_decide (n ∈ nets)).

End Demo2.

(** ** Vocabulary of the further statements *)

(** The three collections are what they were. *)
Definition same_store (w w' : World) : Prop :=
  sensors w' = sensors w /\ measurements w' = measurements w /\
  users w' = users w.




(** ** Authentication and accounts

    [authenticateToken], [POST /api/auth/login] and the two profile routes.
    The token and password functions of jsonwebtoken and bcryptjs, with the
    secret they are called with, are fields of the [Crypto] class. *)

(** [s.split(sep)] for a one-character separator: the pieces between the
    separators, empty ones included. *)
Fixpoint split_on (sep : ascii) (s : string) : list string :=
  match s with
  | EmptyString => [EmptyString]
  | String c s' =>
      if Ascii.eqb c sep then EmptyString :: split_on sep s'
      else match split_on sep s' with
           | piece :: pieces => String c piece :: pieces
           | [] => [String c EmptyString]
           end
  end.

(** What a token carries: [{ id, username }]. *)
Record JwtPayload := mkJwt {
  jwt_id : ObjectId;
  jwt_username : string;
}.

Class Crypto := {
  (** [jwt.sign(payload, process.env.JWT_SECRET)], issued at the time given *)
  jwt_sign : JwtPayload -> Z -> string;
  (** [jwt.verify(token, process.env.JWT_SECRET, cb)]: the payload handed to
      the callback, [None] when it is called with an error *)
  jwt_verify : string -> option JwtPayload;
  (** [bcrypt.compare(password, hash)] *)
  bcrypt_compare : string -> string -> bool;
  (** Modelled from the spec: [models/User] is missing and the design
      document has the password stored hashed; this is what the schema
      stores for a password assigned before [save()]. *)
  password_to_store : string -> string;
}.

Inductive AccountPayload : Type :=
| AStatusOnly                               (* res.sendStatus(n) *)
| AText (s : string)                        (* res.send(s) *)
| AMessage (s : string)                     (* res.json({ message: s }) *)
| AToken (token name : string)              (* res.json({ token, username }) *)
| AProfile (p : option (ObjectId * string * option string)).
                                            (* res.json(user), password left out *)

Record AccountResponse := mkAccount {
  a_status : nat;
  a_payload : AccountPayload;
}.

(** Body of [POST /api/auth/login]. *)
Record LoginBody := mkLoginBody {
  l_username : string;
  l_password : string;
}.

(** Body of [PUT /api/auth/profile]; a missing property is [None]. *)
Record ProfileBody := mkProfileBody {
  p_whatsapp : option string;
  p_oldPassword : option string;
  p_newPassword : option string;
}.

Definition truthy_opt (o : option string) : bool :=
  match o with
  | Some s => Js.truthy_str s
  | None => false
  end.

Definition set_password (p : string) (u : User) : User :=
  mkUser (user_id u) (username u) p (whatsapp u).

Definition set_whatsapp (c : string) (u : User) : User :=
  mkUser (user_id u) (username u) (password u) (Some c).

Definition with_users (f : list User -> list User) (w : World) : World :=
  mkWorld (sensors w) (measurements w) (f (users w)) (outbox w) (console w)
          (dbOps w) (netOps w) (clockReads w).

(** [authHeader && authHeader.split(" ")[1]]; [None] is undefined. *)
Definition bearer_token (authHeader : option string) : option string :=
  match authHeader with
  | None => None
  | Some h => if Js.truthy_str h then split_on " " h !! 1%nat else Some h
  end.

Section Accounts.
Context `{Crypto} (env : Env).

(** The middleware in front of a handler [next], which gets [req.user]. *)
Definition authenticateToken {R} (sendStatus : nat -> R)
    (authorization : option string) (next : JwtPayload -> M R) : M R :=
  let token := bearer_token authorization in
  if negb (truthy_opt token) then mret (sendStatus 401%nat)
  else match token ≫= jwt_verify with
       | None => mret (sendStatus 403%nat)
       | Some user => next user
       end.

(** [User.findOne({ username })] *)
Definition User_findOne_username (name : string) : M (option User) :=
  db env (fun w =>
    (snd <$> list_find (fun u => username u = name) (users w), w)).

(** [User.findById(id)], with the document's place in the collection. *)
Definition User_findById (id : ObjectId) : M (option (nat * User)) :=
  db env (fun w => (list_find (fun u => user_id u = id) (users w), w)).

(** [POST /api/auth/login].  The route has no [try]; jsonwebtoken stamps a
    token with the time of issue, which is read from the clock. *)
Definition post_api_auth_login (body : LoginBody) : M AccountResponse :=
  user ← User_findOne_username (l_username body);
  match user with
  | None => mret (mkAccount 401 (AMessage "Credenciales inválidas"))
  | Some u =>
      if bcrypt_compare (l_password body) (password u) then
        iat ← now env;
        mret (mkAccount 200
                (AToken (jwt_sign (mkJwt (user_id u) (username u)) iat)
                        (username u)))
      else mret (mkAccount 401 (AMessage "Credenciales inválidas"))
  end.

(** [GET /api/auth/profile]: [select("-password")]. *)
Definition get_api_auth_profile (caller : ObjectId) : M AccountResponse :=
  found ← User_findById caller;
  mret (mkAccount 200
          (AProfile ((fun iu => (user_id iu.2, username iu.2, whatsapp iu.2))
                     <$> found))).

(** [if (whatsapp) user.whatsapp = whatsapp; await user.save();] with the
    password already assigned or not. *)
Definition save_profile (i : nat) (user : User) (body : ProfileBody)
    : M AccountResponse :=
  let user' := if truthy_opt (p_whatsapp body)
               then set_whatsapp (default EmptyString (p_whatsapp body)) user
               else user in
  db env (fun w => (tt, with_users (fun l => <[i := user']> l) w));;
  mret (mkAccount 200 (AMessage "Perfil actualizado")).

(** [PUT /api/auth/profile].  A user that is not found is [null], and the
    first use of it raises; bcryptjs rejects an old password that is not a
    string (the handler does not look at the kind of error). *)
Definition put_api_auth_profile (caller : ObjectId) (body : ProfileBody)
    : M AccountResponse :=
  try_catch
    (found ← User_findById caller;
     match found with
     | None => throw TypeError
     | Some (i, user) =>
         if truthy_opt (p_newPassword body) then
           match p_oldPassword body with
           | None => throw TypeError
           | Some old =>
               if bcrypt_compare old (password user) then
                 save_profile i
                   (set_password
                      (password_to_store (default EmptyString (p_newPassword body)))
                      user)
                   body
               else mret (mkAccount 401 (AMessage "Contraseña incorrecta"))
           end
         else save_profile i user body
     end)
    (fun _ => mret (mkAccount 500 (AText "Error"))).

End Accounts.

(** A verifier that knows two subjects, and passwords stored behind a
    prefix. *)
Module DemoAccounts.

Definition sign (p : JwtPayload) (iat : Z) : string :=
  "jwt." ++ pretty (jwt_id p) ++ "." ++ jwt_username p ++ "." ++ pretty iat.

Definition verify (token : string) : option JwtPayload :=
  if String.prefix "jwt.1.ana." token then Some (mkJwt 1%N "ana")
  else if String.prefix "jwt.2.beto." token then Some (mkJwt 2%N "beto")
  else None.

#[export] Instance crypto : Crypto := {|
  jwt_sign := sign;
  jwt_verify := verify;
  bcrypt_compare := fun pw h => String.eqb h ("h:" ++ pw);
  password_to_store := fun pw => "h:" ++ pw;
|}.

Definition ana : User := mkUser 1%N "ana" "h:secreto" (Some "5491100000000").
Definition beto : User := mkUser 2%N "beto" "h:clave" None.

Definition office : World := mkWorld [] [] [ana; beto] [] [] 0 0 0.

(** [res.sendStatus(n)] on the account routes. *)
Definition status_only (n : nat) : AccountResponse := mkAccount n AStatusOnly.

End DemoAccounts.

(** Whether a character occurs in a string. *)
Fixpoint has_char (c : ascii) (s : string) : bool :=
  match s with
  | EmptyString => false
  | String x s' => Ascii.eqb x c || has_char c s'
  end.

(** ** GET /api/latest

    The aggregation over the sensors of the caller, stage by stage, on rows
    that pair a sensor with one of its measurements, or with none. *)

Definition JoinedRow : Type := Sensor * option Measurement.

Definition row_id (r : JoinedRow) : string := hardwareId r.1.
Definition row_time (r : JoinedRow) : option Z := timestamp <$> r.2.

(** [$lookup] of the measurements whose sensorId is the sensor's
    hardwareId, then [$unwind] with [preserveNullAndEmptyArrays]: one row
    for each measurement, and one row without measurement for a sensor that
    has none. *)
Definition lookup_unwind (ms : list Measurement) (s : Sensor) : list JoinedRow :=
  match of_sensor (hardwareId s) ms with
  | [] => [(s, None)]
  | l => map (fun m => (s, Some m)) l
  end.

(** The order of [$sort] on a field that may be missing: missing is lowest. *)
Definition time_le (a b : option Z) : bool :=
  match a, b with
  | None, _ => true
  | Some _, None => false
  | Some x, Some y => x <=? y
  end.

Fixpoint insert_row (r : JoinedRow) (l : list JoinedRow) : list JoinedRow :=
  match l with
  | [] => [r]
  | x :: l' => if time_le (row_time x) (row_time r) then r :: l
               else x :: insert_row r l'
  end.

(** [{ $sort: { "m.timestamp": -1 } }]; rows of equal time keep their
    order. *)
Definition sort_rows (l : list JoinedRow) : list JoinedRow :=
  foldr insert_row [] l.

(** [$group] by hardwareId with [$first] accumulators: the first row of
    each hardwareId, the groups in the order their first rows come. *)
Fixpoint group_first (seen : list string) (rows : list JoinedRow)
    : list JoinedRow :=
  match rows with
  | [] => []
  | r :: rest =>
      if decide (row_id r ∈ seen) then group_first seen rest
      else r :: group_first (row_id r :: seen) rest
  end.

(** A document of the result: [_id], the two sensor fields and the three
    measurement fields, null for a sensor without measurement. *)
Record LatestRow := mkLatestRow {
  r_id : string;
  r_friendlyName : string;
  r_alertThreshold : Js.Num;
  r_temperatureC : option Js.Num;
  r_voltageV : option Js.Num;
  r_timestamp : option Z;
}.

Definition latest_row (r : JoinedRow) : LatestRow :=
  mkLatestRow (hardwareId r.1) (friendlyName r.1) (alertThreshold r.1)
              (temperatureC <$> r.2) (voltageV <$> r.2) (timestamp <$> r.2).

Inductive LatestPayload : Type :=
| LRows (l : list LatestRow)        (* res.json(data) *)
| LText (s : string).               (* res.send(s) *)

Definition aggregate_latest (caller : ObjectId) (w : World) : list LatestRow :=
  map latest_row
    (group_first []
       (sort_rows
          (flat_map (lookup_unwind (measurements w))
             (filter (fun s => owner s = caller /\ enabled s = true)
                     (sensors w))))).

Definition get_api_latest (env : Env) (caller : ObjectId)
    : M (nat * LatestPayload) :=
  try_catch
    (rows ← db env (fun w => (aggregate_latest caller w, w));
     mret (200%nat, LRows rows))
    (fun _ => mret (500%nat, LText "Error")).

(** Row [a] is not older than row [b]. *)
Definition newer_row (a b : JoinedRow) : Prop :=
  time_le (row_time b) (row_time a) = true.

(** * Properties *)

Ltac run_m :=
  unfold respond, post_api_data, post_api_webhook_whatsapp, post_api_sensors_config,
    get_api_history, delete_api_sensors, estado, historial,
    Sensor_findOne_populate, Sensor_findOne, Sensor_find,
    Sensor_save_lastAlertSent, Measurement_save, Measurement_latest,
    Measurement_recent, User_findOne_whatsapp, Sensor_findOneAndUpdate,
    sendWhatsAppAlert, responderWhatsApp, responderWhatsAppConImagen,
    try_catch, throw, log, now, db, axios_post,
    mbind, mret, M_bind, M_ret, with_sensors, with_measurements;
  cbn [fst snd sensors measurements users outbox console dbOps netOps
       clockReads status payload].

Section Ingest.
Context `{Platform} (env : Env).

Lemma find_sensor_none (hid : string) (l : list Sensor) :
  (forall s, s ∈ l -> hardwareId s <> hid) ->
  list_find (fun s => hardwareId s = hid) l = None.
Proof.
  intros Hno. apply list_find_None, Forall_forall. exact Hno.
Qed.

(** C8: an ingest whose sensorId is the hardwareId of no configured sensor
    creates no measurement, leaves every collection and the outbox as they
    were, and is answered 404 "Sensor no configurado" once the lookup has
    completed. *)
Theorem ingest_unknown_sensor_discarded (body : DataBody) (w : World) :
  (forall s, s ∈ sensors w -> hardwareId s <> b_sensorId body) ->
  let w' := (post_api_data env body w).2 in
  measurements w' = measurements w /\
  sensors w' = sensors w /\
  users w' = users w /\
  outbox w' = outbox w /\
  dbOps w' = S (dbOps w) /\
  (dbFault env (dbOps w) = false ->
   (post_api_data env body w).1
   = Ok (mkResponse 404 (PText "Sensor no configurado"))).
Proof.
  intros Hno. run_m. rewrite (find_sensor_none _ _ Hno).
  destruct (dbFault env (dbOps w)); cbn; repeat split; congruence.
Qed.

Lemma accepted_true (body : DataBody) :
  accepted body = true ->
  Js.isNaN (Js.ToNumber (b_tempC body))
  || Js.isNaN (Js.ToNumber (b_voltageV body)) = false.
Proof. unfold accepted. intros A. now apply negb_true_iff in A. Qed.

Lemma accepted_false (body : DataBody) :
  accepted body = false ->
  Js.isNaN (Js.ToNumber (b_tempC body))
  || Js.isNaN (Js.ToNumber (b_voltageV body)) = true.
Proof. unfold accepted. intros A. now apply negb_false_iff in A. Qed.

(** The whole effect of an ingest for a configured sensor whose owner has a
    contact, when the reading is accepted and the lookup and the measurement
    write go through. *)
Lemma post_api_data_configured (body : DataBody) (w : World) i s number :
  configured w (b_sensorId body) i s ->
  contact_of w s = Some number ->
  accepted body = true ->
  dbFault env (dbOps w) = false ->
  dbFault env (S (dbOps w)) = false ->
  let ms := (measurements w ++
             [mkMeasurement (b_sensorId body) (Js.ToNumber (b_tempC body))
                (Js.ToNumber (b_voltageV body)) (clock env (clockReads w))])%list in
  let ahora := clock env (S (clockReads w)) in
  let failed := netFault env (netOps w) in
  post_api_data env body w =
    if Js.gt (Js.ToNumber (b_tempC body)) (alertThreshold s)
       && Js.truthy_str number
    then
      if cooldown_over env (lastAlertSent s) ahora then
        let out := (outbox w ++ [(alert_of body s number, negb failed)])%list in
        let con := (console w ++ if failed then [LogSendTextError] else [])%list in
        if dbFault env (S (S (dbOps w))) then
          (Ok (mkResponse 500 (PText "Error")),
           mkWorld (sensors w) ms (users w) out con
                   (3 + dbOps w) (S (netOps w)) (2 + clockReads w))
        else
          (Ok (mkResponse 200 (PText "OK")),
           mkWorld (alter (set_lastAlertSent (Some ahora)) i (sensors w))
                   ms (users w) out con
                   (3 + dbOps w) (S (netOps w)) (2 + clockReads w))
      else
        (Ok (mkResponse 200 (PText "OK")),
         mkWorld (sensors w) ms (users w) (outbox w)
                 (console w ++ [LogCooldown (friendlyName s)])
                 (2 + dbOps w) (netOps w) (2 + clockReads w))
    else
      (Ok (mkResponse 200 (PText "OK")),
       mkWorld (sensors w) ms (users w) (outbox w) (console w)
               (2 + dbOps w) (netOps w) (1 + clockReads w)).
Proof.
  unfold configured, contact_of. intros Hs Hc Ha H0 H1. run_m.
  rewrite H0, Hs. cbn. rewrite (accepted_true body Ha). cbn.
  rewrite H1. cbn. rewrite Hc.
  destruct (Js.gt _ _ && _); [|reflexivity]. cbn.
  destruct (cooldown_over _ _ _); [|reflexivity]. cbn.
  destruct (netFault env (netOps w)); cbn;
    destruct (dbFault env (S (S (dbOps w)))); cbn;
    rewrite ?app_nil_r; reflexivity.
Qed.

(** A reading that does not convert to two numbers, for a configured
    sensor: the measurement fails validation, nothing is stored or posted,
    and the answer is 500. *)
Lemma post_api_data_refused (body : DataBody) (w : World) i s :
  configured w (b_sensorId body) i s ->
  accepted body = false ->
  dbFault env (dbOps w) = false ->
  post_api_data env body w =
    (Ok (mkResponse 500 (PText "Error")),
     mkWorld (sensors w) (measurements w) (users w) (outbox w) (console w)
             (1 + dbOps w) (netOps w) (1 + clockReads w)).
Proof.
  unfold configured. intros Hs Ha H0. run_m.
  rewrite H0, Hs. cbn. rewrite (accepted_false body Ha). reflexivity.
Qed.

Lemma dispatched_app (w w' : World) l :
  outbox w' = (outbox w ++ l)%list -> dispatched w w' = l.
Proof. unfold dispatched. intros ->. apply drop_app_length. Qed.

Lemma dispatched_same (w w' : World) :
  outbox w' = outbox w -> dispatched w w' = [].
Proof. unfold dispatched. intros ->. apply drop_all. Qed.

Lemma Qltb_eq_false (a b : Q) : (a == b)%Q -> Js.Qltb b a = false.
Proof.
  intros E. unfold Js.Qltb. apply negb_false_iff, Qle_bool_iff.
  rewrite E. apply Qle_refl.
Qed.

Lemma Qltb_lt (a b : Q) : Js.Qltb a b = true <-> (a < b)%Q.
Proof.
  unfold Js.Qltb. rewrite negb_true_iff. split.
  - intros E. apply Qnot_le_lt. intros L.
    apply Qle_bool_iff in L. congruence.
  - intros L. destruct (Qle_bool b a) eqn:E; [|reflexivity].
    apply Qle_bool_iff in E. exfalso. exact (Qlt_not_le _ _ L E).
Qed.

Lemma shouldAlert_cooldown_over t thr last ahora :
  shouldAlert t thr last ahora (cooldownMs env)
  = Js.gt t thr && cooldown_over env last ahora.
Proof. reflexivity. Qed.

(** The window when the variable is unset or empty: 30 minutes. *)
Lemma cooldownMs_default :
  ALERT_COOLDOWN env = None \/ ALERT_COOLDOWN env = Some EmptyString ->
  cooldownMs env = Js.mul (Js.of_Z 30) (Js.of_Z 60000).
Proof. unfold cooldownMs. intros [-> | ->]; reflexivity. Qed.

(** A value that is not a number makes the window NaN: a sensor that has
    alerted once is never past its cooldown again. *)
Lemma cooldown_never_over_when_NaN (s : string) (last ahora : Z) :
  ALERT_COOLDOWN env = Some s ->
  Js.truthy_str s = true ->
  Js.StringToNumber s = Js.NaN ->
  cooldownMs env = Js.NaN /\
  cooldown_over env (Some last) ahora = false /\
  cooldown_over env None ahora = true.
Proof.
  intros E T N.
  assert (C : cooldownMs env = Js.NaN).
  { unfold cooldownMs. now rewrite E, T, N. }
  unfold cooldown_over. rewrite C. repeat split.
Qed.

(** C1: for a configured sensor whose owner has a contact, the ingest posts
    the alert exactly when the reading converts to two numbers (so that it
    is stored), the reported temperature is greater than the threshold and
    the last alert is null or older than the cooldown window; a temperature
    equal to the threshold, or an elapsed time equal to the window, posts
    nothing. *)
Theorem alert_decision_strict (body : DataBody) (w : World) i s number :
  configured w (b_sensorId body) i s ->
  contact_of w s = Some number ->
  Js.truthy_str number = true ->
  dbFault env (dbOps w) = false ->
  dbFault env (S (dbOps w)) = false ->
  let w' := (post_api_data env body w).2 in
  let t := Js.ToNumber (b_tempC body) in
  let ahora := clock env (S (clockReads w)) in
  let alert := (alert_of body s number, negb (netFault env (netOps w))) in
  dispatched w w'
  = (if accepted body
        && shouldAlert t (alertThreshold s) (lastAlertSent s) ahora
                       (cooldownMs env)
     then [alert] else []) /\
  (dispatched w w' = [alert] <->
   accepted body = true /\
   Js.gt t (alertThreshold s) = true /\
   (lastAlertSent s = None \/
    exists l, lastAlertSent s = Some l /\
              Js.gt (Js.sub_dates ahora l) (cooldownMs env) = true)) /\
  (forall q1 q2, t = Js.Fin q1 -> alertThreshold s = Js.Fin q2 ->
                 (q1 == q2)%Q -> dispatched w w' = []) /\
  (forall l e q, lastAlertSent s = Some l ->
                 Js.sub_dates ahora l = Js.Fin e -> cooldownMs env = Js.Fin q ->
                 (e == q)%Q -> dispatched w w' = []).
Proof.
  intros Hs Hc Ht H0 H1 w' t ahora alert.
  assert (E : dispatched w w'
              = if accepted body
                   && shouldAlert t (alertThreshold s) (lastAlertSent s) ahora
                                  (cooldownMs env)
                then [alert] else []).
  { subst w'. destruct (accepted body) eqn:Ha; cbn [andb].
    - rewrite (post_api_data_configured body w i s number Hs Hc Ha H0 H1).
      cbn zeta. rewrite Ht, andb_true_r, shouldAlert_cooldown_over.
      fold t ahora. destruct (Js.gt t (alertThreshold s)); cbn [andb].
      + destruct (cooldown_over env (lastAlertSent s) ahora).
        * destruct (dbFault env (S (S (dbOps w))));
            apply dispatched_app; reflexivity.
        * apply dispatched_same; reflexivity.
      + apply dispatched_same; reflexivity.
    - rewrite (post_api_data_refused body w i s Hs Ha H0).
      apply dispatched_same; reflexivity. }
  split; [exact E|]. rewrite E. clear E. split; [split|split].
  - destruct (accepted body); [|discriminate]. cbn [andb].
    destruct (shouldAlert _ _ _ _ _) eqn:S; [|discriminate].
    apply andb_true_iff in S. destruct S as [G S]. intros _.
    split; [reflexivity|]. split; [exact G|].
    destruct (lastAlertSent s) as [l|]; [right; eauto | left; reflexivity].
  - intros (-> & G & C). unfold shouldAlert. rewrite G. cbn [andb].
    destruct C as [-> | (l & -> & C)]; [reflexivity | now rewrite C].
  - intros q1 q2 E1 E2 Q. unfold shouldAlert, Js.gt. rewrite E1, E2. cbn.
    rewrite (Qltb_eq_false q1 q2 Q). now rewrite andb_false_r.
  - intros l e q E1 E2 E3 Q. unfold shouldAlert. rewrite E1, E2, E3.
    unfold Js.gt at 2. cbn [Js.lt].
    rewrite (Qltb_eq_false _ _ Q). now rewrite !andb_false_r.
Qed.

(** C3: a reading that converts to two numbers, with a temperature above
    the threshold, the cooldown over (or no alert yet) and an owner with a
    contact: exactly one alert is posted, whether or not the post fails the
    write of lastAlertSent is issued, and once it goes through the sensor's
    lastAlertSent is the time the handler read, its other fields and the
    other sensors being what they were. *)
Theorem alert_sent_and_stamped (body : DataBody) (w : World) i s number :
  configured w (b_sensorId body) i s ->
  contact_of w s = Some number ->
  Js.truthy_str number = true ->
  accepted body = true ->
  Js.gt (Js.ToNumber (b_tempC body)) (alertThreshold s) = true ->
  (lastAlertSent s = None \/
   exists l, lastAlertSent s = Some l /\
     Js.gt (Js.sub_dates (clock env (S (clockReads w))) l) (cooldownMs env)
     = true) ->
  dbFault env (dbOps w) = false ->
  dbFault env (S (dbOps w)) = false ->
  let w' := (post_api_data env body w).2 in
  let ahora := clock env (S (clockReads w)) in
  dispatched w w'
  = [(alert_of body s number, negb (netFault env (netOps w)))] /\
  dbOps w' = (3 + dbOps w)%nat /\
  (netFault env (netOps w) = true ->
   console w' = (console w ++ [LogSendTextError])%list) /\
  (dbFault env (S (S (dbOps w))) = false ->
   sensors w' !! i
   = Some (mkSensor (hardwareId s) (friendlyName s) (alertThreshold s)
                    (owner s) (enabled s) (Some ahora)) /\
   (forall j, j <> i -> sensors w' !! j = sensors w !! j) /\
   length (sensors w') = length (sensors w) /\
   (post_api_data env body w).1 = Ok (mkResponse 200 (PText "OK"))).
Proof.
  intros Hs Hc Ht Ha G C H0 H1 w' ahora. subst w'.
  rewrite (post_api_data_configured body w i s number Hs Hc Ha H0 H1).
  cbn zeta. rewrite G, Ht. cbn [andb].
  assert (O : cooldown_over env (lastAlertSent s) ahora = true).
  { destruct C as [-> | (l & -> & C)]; [reflexivity | exact C]. }
  fold ahora. rewrite O.
  apply list_find_Some in Hs. destruct Hs as (Hi & _ & _).
  destruct (dbFault env (S (S (dbOps w)))) eqn:H2; cbn.
  - repeat split; try discriminate.
    + apply dispatched_app; reflexivity.
    + intros ->. reflexivity.
  - split; [apply dispatched_app; reflexivity|].
    split; [reflexivity|]. split; [intros ->; reflexivity|].
    intros _. split; [|split; [|split]].
    + rewrite list_lookup_alter_eq, Hi. reflexivity.
    + intros j Hj. now rewrite list_lookup_alter_ne.
    + apply length_alter.
    + reflexivity.
Qed.

(** Whatever the request and the faults, an ingest leaves the sensors as
    they were or stamps one of them, and then only past its cooldown. *)
Lemma post_api_data_sensors (body : DataBody) (w : World) :
  let w' := (post_api_data env body w).2 in
  let ahora := clock env (S (clockReads w)) in
  sensors w' = sensors w \/
  exists i s, sensors w !! i = Some s /\
              cooldown_over env (lastAlertSent s) ahora = true /\
              sensors w' = alter (set_lastAlertSent (Some ahora)) i (sensors w).
Proof.
  run_m.
  destruct (dbFault env (dbOps w)); [left; reflexivity|].
  destruct (list_find _ (sensors w)) as [[i s]|] eqn:Hs; [|left; reflexivity].
  apply list_find_Some in Hs. destruct Hs as (Hi & _ & _).
  cbn. destruct (Js.isNaN _ || Js.isNaN _); [left; reflexivity|]. cbn.
  destruct (dbFault env (S (dbOps w))); [left; reflexivity|]. cbn.
  destruct (owner_whatsapp _); [|left; reflexivity].
  destruct (Js.gt _ _ && _); [|left; reflexivity]. cbn.
  destruct (cooldown_over _ _ _) eqn:O; [|left; reflexivity]. cbn.
  destruct (netFault env (netOps w)); cbn;
    (destruct (dbFault env (S (S (dbOps w)))); cbn;
     [left; reflexivity | right; exists i, s; auto]).
Qed.

Lemma pow2_pos (k : Z) : (0 < Js.pow2 k)%Q.
Proof. apply Qpower_0_lt. reflexivity. Qed.

Lemma nearest_even_nonneg (a : Q) : (0 <= a)%Q -> 0 <= Js.nearest_even a.
Proof.
  intros A. unfold Js.nearest_even.
  assert (N : 0 <= Qnum a).
  { unfold Qle in A. cbn in A. lia. }
  assert (F : 0 <= Qnum a / Zpos (Qden a)) by (apply Z.div_pos; lia).
  destruct (_ ?= _); [destruct (Z.even _)| |]; lia.
Qed.

(** Rounding keeps the sign: what is not positive does not become
    positive. *)
Lemma round64_nonpos (q : Q) :
  (q <= 0)%Q ->
  match Js.round64 q with
  | Js.Fin v => (v <= 0)%Q
  | Js.NegInf => True
  | _ => False
  end.
Proof.
  intros L. unfold Js.round64.
  destruct (Qnum q) as [|p|p] eqn:E.
  - apply Qle_refl.
  - exfalso. unfold Qle in L. cbn in L. lia.
  - unfold Js.round_pos.
    destruct (Qle_bool _ _); [exact I|].
    rewrite Qred_correct.
    assert (P : (0 <= - q)%Q).
    { apply (Qopp_le_compat q 0) in L. exact L. }
    set (k := Z.max _ _).
    assert (D : (0 <= - q / Js.pow2 k)%Q).
    { apply Qle_shift_div_l; [apply pow2_pos|]. now rewrite Qmult_0_l. }
    apply nearest_even_nonneg in D.
    assert (V : (0 <= inject_Z (Js.nearest_even (- q / Js.pow2 k)) * Js.pow2 k)%Q).
    { apply Qmult_le_0_compat; [|apply Qlt_le_weak, pow2_pos].
      change 0%Q with (inject_Z 0). now rewrite <- Zle_Qle. }
    apply (Qopp_le_compat 0) in V. exact V.
Qed.

Lemma cooldown_over_later (last ahora : Z) :
  Js.lt (cooldownMs env) (Js.of_Z 0) = false ->
  cooldown_over env (Some last) ahora = true ->
  last < ahora.
Proof.
  unfold cooldown_over, Js.gt, Js.of_Z, Js.sub_dates. intros N G.
  destruct (Z_lt_le_dec last ahora) as [L|L]; [exact L|exfalso].
  assert (V : (inject_Z (ahora - last) <= 0)%Q).
  { change 0%Q with (inject_Z 0). rewrite <- Zle_Qle. lia. }
  apply round64_nonpos in V.
  destruct (Js.round64 (inject_Z (ahora - last))) as [| |v|];
    destruct (cooldownMs env) as [| |q|]; cbn in *;
    try discriminate; try contradiction.
  apply Qltb_lt in G.
  assert (Q0 : (q < 0)%Q) by (eapply Qlt_le_trans; eassumption).
  apply Qltb_lt in Q0. change (inject_Z 0) with 0%Q in N. congruence.
Qed.

(** One ingest never moves a set lastAlertSent backwards. *)
Lemma post_api_data_monotone (body : DataBody) (w : World) j s t0 :
  Js.lt (cooldownMs env) (Js.of_Z 0) = false ->
  sensors w !! j = Some s ->
  lastAlertSent s = Some t0 ->
  exists t1, sensors (post_api_data env body w).2 !! j
             = Some (mkSensor (hardwareId s) (friendlyName s)
                              (alertThreshold s) (owner s) (enabled s)
                              (Some t1)) /\ t0 <= t1.
Proof.
  intros N Hj Hl.
  assert (Same : s = mkSensor (hardwareId s) (friendlyName s)
                              (alertThreshold s) (owner s) (enabled s)
                              (Some t0))
    by (destruct s; cbn in *; congruence).
  destruct (post_api_data_sensors body w) as [-> | (i & s' & Hi & O & ->)].
  - exists t0. split; [|lia]. rewrite Hj. f_equal. exact Same.
  - destruct (decide (i = j)) as [->|Hne].
    + rewrite list_lookup_alter_eq, Hj. cbn.
      assert (s' = s) as -> by congruence. rewrite Hl in O.
      eexists; split; [reflexivity|].
      apply cooldown_over_later in O; [lia | exact N].
    + rewrite list_lookup_alter_ne by exact Hne.
      exists t0. split; [|lia]. rewrite Hj. f_equal. exact Same.
Qed.

(** C4: along any sequence of ingests that run one after the other, with a
    cooldown window that is not negative, a sensor whose lastAlertSent is
    set keeps it set, the stored instant never decreases, and nothing else
    of the sensor changes. *)
Theorem lastAlertSent_never_decreases (reqs : list DataBody) (w : World) j s t0 :
  Js.lt (cooldownMs env) (Js.of_Z 0) = false ->
  sensors w !! j = Some s ->
  lastAlertSent s = Some t0 ->
  exists t1, sensors (ingest_all env reqs w) !! j
             = Some (mkSensor (hardwareId s) (friendlyName s)
                              (alertThreshold s) (owner s) (enabled s)
                              (Some t1)) /\ t0 <= t1.
Proof.
  intros N. revert w s t0.
  induction reqs as [|r reqs IH]; intros w s t0 Hj Hl; cbn [ingest_all].
  - exists t0. split; [|lia]. rewrite Hj. f_equal.
    destruct s; cbn in *; congruence.
  - destruct (post_api_data_monotone r w j s t0 N Hj Hl) as (t1 & H1 & L1).
    destruct (IH _ _ t1 H1 eq_refl) as (t2 & H2 & L2).
    exists t2. split; [|lia]. rewrite H2. reflexivity.
Qed.

(** A handler that runs from its start to its answer with no other handler
    in between does what [post_api_data] does. *)
Lemma ingest_steps_alone (body : DataBody) (w : World) :
  let '(t1, w1) := ingest_step env (Started body) w in
  let '(t2, w2) := ingest_step env t1 w1 in
  let '(t3, w3) := ingest_step env t2 w2 in
  let '(t4, w4) := ingest_step env t3 w3 in
  exists r, t4 = Finished r /\ post_api_data env body w = (Ok r, w4).
Proof.
  unfold ingest_step at 1, settle. run_m.
  destruct (dbFault env (dbOps w)); [cbn; eauto|].
  destruct (list_find _ (sensors w)) as [[i s]|]; [|cbn; eauto].
  cbn. unfold settle. run_m.
  destruct (Js.isNaN _ || Js.isNaN _); [cbn; eauto|]. cbn.
  destruct (dbFault env (S (dbOps w))); [cbn; eauto|]. cbn.
  unfold settle. run_m.
  destruct (owner_whatsapp _); [|cbn; eauto].
  destruct (Js.gt _ _ && _); [|cbn; eauto]. cbn.
  destruct (cooldown_over _ _ _); [|cbn; eauto]. cbn.
  destruct (netFault env (netOps w)); cbn; unfold settle; run_m; cbn;
    (destruct (dbFault env (S (S (dbOps w)))); cbn; eauto).
Qed.

Lemma run_tasks_step (done rest : list IngestTask) (t : IngestTask)
    (schedule : list nat) (w : World) :
  run_tasks env (length done :: schedule) (done ++ t :: rest)%list w
  = run_tasks env schedule
      (done ++ (ingest_step env t w).1 :: rest)%list (ingest_step env t w).2.
Proof.
  cbn [run_tasks]. rewrite list_lookup_middle by reflexivity.
  destruct (ingest_step env t w) as [t' w']. cbn [fst snd].
  f_equal. rewrite <- (Nat.add_0_r (length done)).
  now rewrite insert_app_r.
Qed.

(** Handled in turn, the requests leave the store as [ingest_all] leaves
    it, and every task has answered. *)
Lemma run_tasks_in_turn (reqs : list DataBody) (done : list IngestTask)
    (w : World) :
  exists rs,
    length rs = length reqs /\
    run_tasks env (in_turn (length done) (length reqs))
              (done ++ (Started <$> reqs))%list w
    = ((done ++ (Finished <$> rs))%list, ingest_all env reqs w).
Proof.
  revert done w. induction reqs as [|r reqs IH]; intros done w.
  { exists []. split; reflexivity. }
  unfold in_turn. cbn [length seq flat_map fmap list_fmap ingest_all app].
  pose proof (ingest_steps_alone r w) as A.
  rewrite run_tasks_step.
  destruct (ingest_step env (Started r) w) as [t1 w1]. cbn [fst snd].
  rewrite run_tasks_step.
  destruct (ingest_step env t1 w1) as [t2 w2]. cbn [fst snd].
  rewrite run_tasks_step.
  destruct (ingest_step env t2 w2) as [t3 w3]. cbn [fst snd].
  rewrite run_tasks_step.
  destruct (ingest_step env t3 w3) as [t4 w4]. cbn [fst snd].
  destruct A as (r' & -> & ->). cbn [snd].
  destruct (IH (done ++ [Finished r'])%list w4) as (rs & L & E).
  exists (r' :: rs). split; [cbn; now rewrite L|].
  rewrite length_app, Nat.add_1_r in E.
  rewrite <- !(assoc_L (++)) in E. exact E.
Qed.

End Ingest.

Section Webhook.
Context `{Platform} (env : Env).

Lemma webhook_resolved (body : WebhookBody) (w : World) d m jid k u :
  data body = Some d -> message d = Some m ->
  key d ≫= remoteJid = Some jid ->
  dbFault env (dbOps w) = false ->
  list_find (fun u => whatsapp u = Some (sender_of jid)) (users w) = Some (k, u) ->
  post_api_webhook_whatsapp env body w =
  try_catch
    ((if decide (command_of m = "estado") then estado env u (sender_of jid)
      else mret tt);;
     (if Js.startsWith (command_of m) "historial"
      then historial env u (sender_of jid) (command_of m)
      else mret tt);;
     mret ack)
    (fun _ => mret failure) (logged w (command_of m)).
Proof.
  intros Hd Hm Hk H0 Hu.
  unfold post_api_webhook_whatsapp, User_findOne_whatsapp, try_catch, db.
  rewrite Hd, Hm, Hk. unfold mbind at 1, M_bind at 1.
  rewrite H0. fold (sender_of jid). cbn [users]. rewrite Hu.
  reflexivity.
Qed.

End Webhook.

Section Sorting.

Lemma insert_desc_perm (m : Measurement) (l : list Measurement) :
  insert_desc m l ≡ₚ m :: l.
Proof.
  induction l as [|x l IH]; cbn; [reflexivity|].
  destruct (timestamp x <=? timestamp m); [reflexivity|].
  rewrite IH. apply Permutation_swap.
Qed.

Lemma sort_desc_perm (l : list Measurement) : sort_desc l ≡ₚ l.
Proof.
  induction l as [|x l IH]; cbn; [reflexivity|].
  fold (sort_desc l). rewrite insert_desc_perm, IH. reflexivity.
Qed.

Lemma insert_desc_sorted (m : Measurement) (l : list Measurement) :
  StronglySorted newer_first l -> StronglySorted newer_first (insert_desc m l).
Proof.
  induction 1 as [|x l S IH F]; cbn; [repeat constructor|].
  destruct (timestamp x <=? timestamp m) eqn:E.
  - apply Z.leb_le in E. constructor; [constructor; assumption|].
    constructor; [exact E|].
    eapply Forall_impl; [exact F|]. unfold newer_first. cbn. intros; lia.
  - apply Z.leb_gt in E. constructor; [exact IH|].
    rewrite insert_desc_perm. constructor; [|exact F].
    unfold newer_first. lia.
Qed.

Lemma sort_desc_sorted (l : list Measurement) :
  StronglySorted newer_first (sort_desc l).
Proof.
  induction l as [|x l IH]; cbn; [constructor|].
  apply insert_desc_sorted, IH.
Qed.




End Sorting.

Section Commands.
Context `{Platform} (env : Env).

(** The senders swallow a failed post: they always return. *)
Lemma responderWhatsApp_run (number text : string) (w : World) :
  responderWhatsApp env number text w = (Ok tt, posted env (SendText number text) w).
Proof.
  run_m. unfold posted. destruct (netFault env (netOps w)); cbn;
    rewrite ?app_nil_r; reflexivity.
Qed.

Lemma responderWhatsAppConImagen_run (number url caption : string) (w : World) :
  responderWhatsAppConImagen env number url caption w
  = (Ok tt, posted env (SendImage number url caption) w).
Proof.
  run_m. unfold posted. destruct (netFault env (netOps w)); cbn;
    rewrite ?app_nil_r; reflexivity.
Qed.

Lemma estado_loop_run (ss : list Sensor) (reporte : string) (w : World) :
  (forall n, dbFault env n = false) ->
  exists r, estado_loop env ss reporte w = (Ok r, bump_db (length ss) w).
Proof.
  intros NF. revert reporte w.
  induction ss as [|s ss IH]; intros reporte w; cbn [estado_loop length].
  - exists reporte. destruct w; reflexivity.
  - run_m. rewrite NF.
    match goal with |- context [estado_loop env ss ?r ?w1] =>
      destruct (IH r w1) as (r' & ->) end.
    exists r'. unfold bump_db. cbn. do 2 f_equal. lia.
Qed.

Lemma estado_run (u : User) (from : string) (w : World) :
  (forall n, dbFault env n = false) ->
  exists w', estado env u from w = (Ok tt, w').
Proof.
  intros NF. unfold estado, Sensor_find, db, mbind, M_bind. rewrite NF.
  match goal with |- context [estado_loop env ?ss ?r ?w1] =>
    destruct (estado_loop_run ss r w1 NF) as (r' & ->) end.
  rewrite responderWhatsApp_run. eauto.
Qed.

(** A user without enabled sensors still gets the header. *)
Lemma estado_no_sensors (u : User) (from : string) (w : World) :
  (forall s, s ∈ sensors w -> owner s = user_id u -> enabled s = false) ->
  dbFault env (dbOps w) = false ->
  estado env u from w
  = (Ok tt, posted env (SendText from REPORT_HEADER) (bump_db 1 w)).
Proof.
  intros Hno H0. unfold estado, Sensor_find, db, mbind, M_bind. rewrite H0.
  cbn [sensors].
  assert (E : filter (fun s => owner s = user_id u /\ enabled s = true)
                     (sensors w) = []).
  { destruct (filter _ (sensors w)) as [|s l] eqn:F; [reflexivity|].
    assert (Hs : s ∈ filter (fun s => owner s = user_id u /\ enabled s = true)
                            (sensors w)) by (rewrite F; left).
    apply list_elem_of_filter in Hs as [[Ho He] Hs].
    rewrite (Hno s Hs Ho) in He. discriminate. }
  rewrite E. cbn [estado_loop]. unfold mret, M_ret.
  rewrite responderWhatsApp_run. reflexivity.
Qed.

Lemma historial_run (u : User) (from text : string) (w : World) rx :
  RegExp_i (query_of text) = Some rx ->
  dbFault env (dbOps w) = false ->
  dbFault env (S (dbOps w)) = false ->
  historial env u from text w =
  match list_find (fun s => owner s = user_id u /\ rx (friendlyName s) = true)
                  (sensors w) with
  | None => (Ok tt, posted env (SendText from (not_found_text (query_of text)))
                           (bump_db 1 w))
  | Some (_, s) =>
      let docs := take 10 (sort_desc (of_sensor (hardwareId s) (measurements w))) in
      match docs with
      | [] => (Ok tt, bump_db 2 w)
      | _ => (Ok tt, posted env (SendImage from (QuickChart_getUrl (history_chart docs))
                                       ("📊 Historial: " ++ friendlyName s))
                            (bump_db 2 w))
      end
  end.
Proof.
  intros Hrx H0 H1. unfold historial. fold (query_of text). rewrite Hrx.
  unfold Sensor_findOne, Measurement_recent, db, mbind, M_bind. rewrite H0.
  cbn [sensors].
  destruct (list_find _ (sensors w)) as [[i s]|]; cbn [fmap option_fmap option_map snd].
  - cbn [dbOps]. rewrite H1. cbn [measurements].
    destruct (take 10 _) as [|m0 docs] eqn:E; cbn [length Nat.ltb Nat.leb].
    + reflexivity.
    + rewrite responderWhatsAppConImagen_run. reflexivity.
  - rewrite responderWhatsApp_run. reflexivity.
Qed.

Lemma dispatched_posted (w w1 : World) (o : Outbound) :
  outbox w1 = outbox w -> netOps w1 = netOps w ->
  dispatched w (posted env o w1) = [(o, negb (netFault env (netOps w)))].
Proof.
  intros Eo En. apply dispatched_app. cbn. now rewrite Eo, En.
Qed.

(** C10: an estado command from a resolved user with no enabled sensor is
    answered with exactly one text, the bare report header. *)
Theorem estado_without_sensors_sends_header
    (body : WebhookBody) (w : World) d m jid k u :
  data body = Some d -> message d = Some m ->
  key d ≫= remoteJid = Some jid ->
  command_of m = "estado" ->
  list_find (fun u => whatsapp u = Some (sender_of jid)) (users w) = Some (k, u) ->
  (forall s, s ∈ sensors w -> owner s = user_id u -> enabled s = false) ->
  dbFault env (dbOps w) = false ->
  dbFault env (S (dbOps w)) = false ->
  let w' := (post_api_webhook_whatsapp env body w).2 in
  dispatched w w'
  = [(SendText (sender_of jid) REPORT_HEADER, negb (netFault env (netOps w)))] /\
  REPORT_HEADER = "📋 *REPORTE DE EQUIPOS*" ++ Js.nl ++ Js.nl /\
  (post_api_webhook_whatsapp env body w).1 = Ok ack.
Proof.
  intros Hd Hm Hk Hc Hu Hno H0 H1 w'. subst w'.
  rewrite (webhook_resolved env body w d m jid k u Hd Hm Hk H0 Hu), Hc.
  unfold try_catch, mbind, M_bind.
  destruct (decide ("estado" = "estado")) as [_|N]; [|congruence].
  rewrite (estado_no_sensors u (sender_of jid) (logged w "estado") Hno H1).
  cbn -[REPORT_HEADER dispatched posted].
  repeat split. apply dispatched_posted; reflexivity.
Qed.

Lemma webhook_historial (body : WebhookBody) (w : World) d m jid k u :
  data body = Some d -> message d = Some m ->
  key d ≫= remoteJid = Some jid ->
  Js.startsWith (command_of m) "historial" = true ->
  list_find (fun u => whatsapp u = Some (sender_of jid)) (users w) = Some (k, u) ->
  dbFault env (dbOps w) = false ->
  post_api_webhook_whatsapp env body w =
  match historial env u (sender_of jid) (command_of m)
                  (logged w (command_of m)) with
  | (Ok _, w2) => (Ok ack, w2)
  | (Throw _, w2) => (Ok failure, w2)
  end.
Proof.
  intros Hd Hm Hk Hh Hu H0.
  rewrite (webhook_resolved env body w d m jid k u Hd Hm Hk H0 Hu).
  unfold try_catch, mbind, M_bind, mret, M_ret.
  destruct (decide (command_of m = "estado")) as [E|_].
  { rewrite E in Hh. discriminate. }
  rewrite Hh. destruct (historial _ _ _ _ _) as [[[]|e] w2]; reflexivity.
Qed.

Lemma historial_bad_pattern (u : User) (from text : string) (w : World) :
  RegExp_i (query_of text) = None ->
  historial env u from text w = (Throw SyntaxError, w).
Proof.
  intros E. unfold historial. fold (query_of text). now rewrite E.
Qed.


(** The handler, branch by branch. *)
Lemma webhook_branches (body : WebhookBody) (w : World) :
  post_api_webhook_whatsapp env body w =
  match data body with
  | None => (Ok failure, w)
  | Some d =>
      match message d with
      | None => (Ok ack, w)
      | Some m =>
          match key d ≫= remoteJid with
          | None => (Ok failure, w)
          | Some jid =>
              if dbFault env (dbOps w) then (Ok failure, bump_db 1 w)
              else
                match list_find (fun u => whatsapp u = Some (sender_of jid))
                                (users w) with
                | None => (Ok ack, bump_db 1 w)
                | Some (_, u) =>
                    try_catch
                      ((if decide (command_of m = "estado")
                        then estado env u (sender_of jid) else mret tt);;
                       (if Js.startsWith (command_of m) "historial"
                        then historial env u (sender_of jid) (command_of m)
                        else mret tt);;
                       mret ack)
                      (fun _ => mret failure) (logged w (command_of m))
                end
          end
      end
  end.
Proof.
  unfold post_api_webhook_whatsapp, try_catch, User_findOne_whatsapp, db.
  destruct (data body) as [d|]; [|reflexivity].
  destruct (message d) as [m|]; [|reflexivity].
  destruct (key d ≫= remoteJid) as [jid|]; [|reflexivity].
  unfold mbind at 1, M_bind at 1. fold (sender_of jid).
  destruct (dbFault env (dbOps w)); [reflexivity|]. cbn [users].
  destruct (list_find _ (users w)) as [[k u]|]; reflexivity.
Qed.

Lemma historial_returns (u : User) (from text : string) (w : World) :
  (forall n, dbFault env n = false) ->
  is_Some (RegExp_i (query_of text)) ->
  exists w', historial env u from text w = (Ok tt, w').
Proof.
  intros NF [rx Hrx].
  rewrite (historial_run u from text w rx Hrx (NF _) (NF _)).
  destruct (list_find _ _) as [[i s]|]; [|eauto].
  cbn zeta. destruct (take 10 _); eauto.
Qed.

Lemma text_raises_data (body d : Json) :
  prop "data" body = Some d -> d <> JNull ->
  text_raises body
  = truthy (prop "message" d) &&
    match prop "message" d ≫= chosen_text with
    | Some (JStr _) | None => false
    | Some _ => true
    end.
Proof.
  unfold text_raises. intros -> Hd. destruct d; congruence || reflexivity.
Qed.

Lemma envelope_data (body d : Json) :
  prop "data" body = Some d -> d <> JNull ->
  data (envelope body) = Some (read_data d).
Proof.
  unfold envelope. intros -> Hd. destruct d; congruence || reflexivity.
Qed.

Lemma envelope_no_data (body : Json) :
  prop "data" body = None \/ prop "data" body = Some JNull ->
  text_raises body = false /\ data (envelope body) = None.
Proof. unfold envelope, text_raises. intros [-> | ->]; split; reflexivity. Qed.

(** On a body it reads without a TypeError, the handler is the handler of
    the envelope. *)
Lemma readable_envelope (body : Json) :
  readable body <-> text_raises body = false /\ well_formed (envelope body).
Proof.
  unfold readable, well_formed. split.
  - intros (d & Hb & Hd & Hm).
    rewrite (text_raises_data body d Hb Hd), (envelope_data body d Hb Hd).
    cbn [message key read_data].
    destruct (truthy (prop "message" d)) eqn:T; cbn [andb];
      [|split; [reflexivity | exact I]].
    destruct (Hm eq_refl) as (Hv & k & jid & Hk & Hj).
    split.
    + destruct (prop "message" d ≫= chosen_text) as [v|]; [|reflexivity].
      destruct (Hv v eq_refl) as (t & ->). reflexivity.
    + destruct (prop "message" d) as [m|]; [|discriminate T].
      rewrite Hk.
      assert (nullish (Some k) = false) as ->
        by (destruct k; try reflexivity; discriminate Hj).
      unfold read_key. cbn. rewrite Hj. cbn. eauto.
  - intros [R W].
    destruct (prop "data" body) as [d|] eqn:Hb.
    2:{ destruct (envelope_no_data body (or_introl Hb)) as [_ E].
        now rewrite E in W. }
    assert (Dn : d = JNull \/ d <> JNull)
      by (destruct d; (left; reflexivity) || (right; discriminate)).
    destruct Dn as [->|Hd].
    { destruct (envelope_no_data body (or_intror Hb)) as [_ E].
      now rewrite E in W. }
    exists d. split; [reflexivity|]. split; [exact Hd|]. intros T.
    rewrite (text_raises_data body d Hb Hd), T in R. cbn [andb] in R.
    rewrite (envelope_data body d Hb Hd) in W.
    cbn [message key read_data] in W. rewrite T in W.
    destruct (prop "message" d) as [m|]; [|discriminate T].
    cbn [fmap option_fmap option_map] in W.
    split.
    + intros v Hv. rewrite Hv in R. destruct v; try discriminate R. eauto.
    + destruct (prop "key" d) as [k|]; [|destruct W as [? W]; discriminate W].
      destruct (nullish (Some k)); [destruct W as [? W]; discriminate W|].
      destruct W as [jid W]. exists k, jid. split; [reflexivity|].
      cbn in W. unfold as_string in W.
      destruct (prop "remoteJid" k) as [[]|]; congruence.
Qed.

(** The text of [msg.extendedTextMessage?.text], when it is the one the
    handler picks. *)
Lemma envelope_extended_text (msg : Json) :
  let text :=
    match extendedTextMessage (read_message msg) with
    | Some e => match ext_text e with
                | Some t => if Js.truthy_str t then t else EmptyString
                | None => EmptyString
                end
    | None => EmptyString
    end in
  match (if truthy (extended_text msg) then extended_text msg else None) with
  | Some (JStr s) => text = s
  | None => text = EmptyString
  | Some _ => True
  end.
Proof.
  unfold extended_text, read_message. cbn [extendedTextMessage].
  destruct (prop "extendedTextMessage" msg) as [[|b|n|s|l|l]|];
    cbn [truthy]; try reflexivity;
    match goal with |- context [prop "text" ?e] =>
      destruct (prop "text" e) as [[|b'|n'|s'|l'|l']|]
    end;
    cbn [truthy as_string ext_text]; try reflexivity;
    repeat match goal with
           | |- context [if ?c then _ else _] => destruct c
           end; try reflexivity; exact I.
Qed.

(** The text of the envelope is the text the handler picks: the string
    it goes on to lower-case, or the empty string when neither property is
    truthy. *)
Lemma envelope_text (msg : Json) :
  match chosen_text msg with
  | Some (JStr s) => message_text (read_message msg) = s
  | None => message_text (read_message msg) = EmptyString
  | Some _ => True
  end.
Proof.
  pose proof (envelope_extended_text msg) as E. cbn zeta in E.
  unfold chosen_text, message_text.
  change (conversation (read_message msg))
    with (as_string (prop "conversation" msg)).
  destruct (prop "conversation" msg) as [[|b|n|s|l|l]|];
    cbn [truthy as_string]; try exact E; try exact I.
  - destruct b; [exact I | exact E].
  - destruct (match Js.round n with
              | Js.NaN => false
              | Js.Fin q => negb (Qnum q =? 0)
              | _ => true
              end); [exact I | exact E].
  - destruct (Js.truthy_str s); [reflexivity | exact E].
Qed.

Lemma webhook_json_readable (body : Json) (w : World) :
  text_raises body = false ->
  post_api_webhook_json env body w
  = post_api_webhook_whatsapp env (envelope body) w.
Proof. unfold post_api_webhook_json. now intros ->. Qed.

(** C5, as the handler has it: every webhook request is answered, with 200
    or with 500.  It is 200 whenever the handler reads the body without a
    TypeError, no storage operation fails and a historial search text is a
    valid pattern: for a message-less event, an unknown sender, an
    unrecognised command, and whatever happens to the outbound posts.  It
    is 500 when the body is not read without a TypeError ([data] is
    missing, or the text or the sender's [key.remoteJid] is no string),
    when the sender lookup fails, and when the search text is rejected by
    the pattern constructor. *)
Theorem webhook_answers_200_or_500 (body : Json) (w : World) :
  let r := (post_api_webhook_json env body w).1 in
  (r = Ok ack \/ r = Ok failure) /\
  ((forall n, dbFault env n = false) -> readable body ->
   pattern_compiles (envelope body) -> r = Ok ack) /\
  (~ readable body -> r = Ok failure) /\
  (forall d m, readable body ->
               data (envelope body) = Some d -> message d = Some m ->
               dbFault env (dbOps w) = true -> r = Ok failure) /\
  (forall d m jid k u,
     readable body ->
     data (envelope body) = Some d -> message d = Some m ->
     key d ≫= remoteJid = Some jid ->
     list_find (fun u => whatsapp u = Some (sender_of jid)) (users w)
     = Some (k, u) ->
     dbFault env (dbOps w) = false ->
     Js.startsWith (command_of m) "historial" = true ->
     RegExp_i (query_of (command_of m)) = None -> r = Ok failure).
Proof.
  cbn zeta. split; [|split; [|split; [|split]]].
  - unfold post_api_webhook_json.
    destruct (text_raises body); [right; reflexivity|].
    rewrite webhook_branches.
    destruct (data _) as [d|]; [|right; reflexivity].
    destruct (message d) as [m|]; [|left; reflexivity].
    destruct (key d ≫= remoteJid) as [jid|]; [|right; reflexivity].
    destruct (dbFault env (dbOps w)); [right; reflexivity|].
    destruct (list_find _ _) as [[k u]|]; [|left; reflexivity].
    unfold try_catch, mbind, M_bind.
    match goal with |- context [(if decide ?P then ?a else ?b) ?x] =>
      destruct ((if decide P then a else b) x) as [[[]|e] w1] end;
      [|right; reflexivity].
    match goal with |- context [(if Js.startsWith ?t ?p then ?a else ?b) ?x] =>
      destruct ((if Js.startsWith t p then a else b) x) as [[[]|e] w2] end;
      [left|right]; reflexivity.
  - intros NF [R WF]%readable_envelope PC.
    rewrite (webhook_json_readable body w R), webhook_branches.
    unfold well_formed, pattern_compiles in *.
    destruct (data _) as [d|]; [|contradiction].
    destruct (message d) as [m|]; [|reflexivity].
    destruct WF as [jid ->]. rewrite NF.
    destruct (list_find _ _) as [[k u]|]; [|reflexivity].
    unfold try_catch, mbind, M_bind.
    assert (E : exists w1,
      (if decide (command_of m = "estado") then estado env u (sender_of jid)
       else mret tt) (logged w (command_of m)) = (Ok tt, w1)).
    { destruct (decide _); [apply estado_run, NF | eexists; reflexivity]. }
    destruct E as (w1 & ->).
    destruct (Js.startsWith (command_of m) "historial") eqn:Hh; [|reflexivity].
    destruct (historial_returns u (sender_of jid) (command_of m) w1 NF
                (PC eq_refl)) as (w2 & ->).
    reflexivity.
  - intros N. unfold post_api_webhook_json.
    destruct (text_raises body) eqn:R; [reflexivity|].
    rewrite webhook_branches.
    assert (W : ~ well_formed (envelope body)).
    { intros W. apply N, readable_envelope. auto. }
    unfold well_formed in W.
    destruct (data _) as [d|]; [|reflexivity].
    destruct (message d) as [m|]; [|tauto].
    destruct (key d ≫= remoteJid) as [jid|]; [|reflexivity].
    exfalso. apply W. eauto.
  - intros d m [R WF]%readable_envelope Hd Hm F.
    rewrite (webhook_json_readable body w R), webhook_branches.
    unfold well_formed in WF. rewrite Hd, Hm in *.
    destruct WF as [jid ->]. now rewrite F.
  - intros d m jid k u [R _]%readable_envelope Hd Hm Hk Hu H0 Hh Hrx.
    rewrite (webhook_json_readable body w R).
    rewrite (webhook_historial (envelope body) w d m jid k u Hd Hm Hk Hh Hu H0).
    now rewrite (historial_bad_pattern _ _ _ _ Hrx).
Qed.

End Commands.

Section Administration.
Context `{Platform} (env : Env).

(** C9: after a sensor configuration request whose write goes through, the
    sensor found under the request's hardwareId is owned by the caller and
    enabled; a document already stored under that hardwareId, whoever owned
    it, is the one overwritten. *)
Theorem config_takes_ownership (caller : ObjectId) (body : ConfigBody) (w : World) :
  dbFault env (dbOps w) = false ->
  let w' := (post_api_sensors_config env caller body w).2 in
  exists i s',
    list_find (fun s => hardwareId s = c_hardwareId body) (sensors w')
    = Some (i, s') /\
    owner s' = caller /\ enabled s' = true /\
    (post_api_sensors_config env caller body w).1
    = Ok (mkResponse 200 (PSensor s')) /\
    (forall j s0,
       list_find (fun s => hardwareId s = c_hardwareId body) (sensors w)
       = Some (j, s0) ->
       i = j /\ length (sensors w') = length (sensors w)).
Proof.
  intros H0. run_m. rewrite H0.
  destruct (list_find _ (sensors w)) as [[j s0]|] eqn:F; cbn.
  - apply list_find_Some in F as (Hj & _ & Hlt).
    exists j, (apply_set (sensorData_of body caller) s0).
    split; [|split; [reflexivity|split; [reflexivity|split; [reflexivity|]]]].
    + apply list_find_Some. repeat split.
      * apply list_lookup_insert_eq. eapply lookup_lt_Some, Hj.
      * intros j' y Hy Hlt'. apply (Hlt j' y); [|exact Hlt'].
        rewrite list_lookup_insert_ne in Hy by lia. exact Hy.
    + intros j' s1 E. injection E as <- _.
      split; [reflexivity | apply length_insert].
  - exists (length (sensors w)), (new_sensor (sensorData_of body caller)).
    repeat split; try discriminate.
    apply list_find_Some. repeat split.
    + apply list_lookup_middle. reflexivity.
    + intros j' y Hy Hlt'. rewrite lookup_app_l in Hy by exact Hlt'.
      apply list_find_None in F. rewrite Forall_forall in F.
      apply F, list_elem_of_lookup. eauto.
Qed.

(** The sensor goes only when the caller owns it; the measurements stored
    under the hardwareId go in every case. *)
Lemma delete_api_sensors_run (caller : ObjectId) (hid : string) (w : World) :
  dbFault env (dbOps w) = false ->
  dbFault env (S (dbOps w)) = false ->
  delete_api_sensors env caller hid w =
  (Ok (mkResponse 200 (PMessage "Eliminado")),
   mkWorld (delete_first (fun s => hardwareId s = hid /\ owner s = caller)
                         (sensors w))
           (filter (fun m => sensorId m <> hid) (measurements w))
           (users w) (outbox w) (console w) (2 + dbOps w) (netOps w)
           (clockReads w)).
Proof.
  intros H0 H1. run_m. rewrite H0. cbn. rewrite H1. reflexivity.
Qed.

Lemma delete_by_stranger (caller : ObjectId) (hid : string) (w : World) :
  (forall s, s ∈ sensors w -> hardwareId s = hid -> owner s <> caller) ->
  dbFault env (dbOps w) = false ->
  dbFault env (S (dbOps w)) = false ->
  let w' := (delete_api_sensors env caller hid w).2 in
  sensors w' = sensors w /\
  of_sensor hid (measurements w') = [].
Proof.
  intros Hno H0 H1. cbn zeta. rewrite delete_api_sensors_run by assumption.
  cbn [snd sensors measurements]. split.
  - unfold delete_first.
    assert (N : list_find (fun s => hardwareId s = hid /\ owner s = caller)
                          (sensors w) = None).
    { apply list_find_None, Forall_forall. intros s Hs [E O].
      exact (Hno s Hs E O). }
    now rewrite N.
  - unfold of_sensor.
    destruct (filter _ (filter _ _)) as [|m l] eqn:F; [reflexivity|].
    assert (Hm : m ∈ filter (fun m => sensorId m = hid)
                   (filter (fun m => sensorId m <> hid) (measurements w)))
      by (rewrite F; left).
    apply list_elem_of_filter in Hm as [E Hm].
    apply list_elem_of_filter in Hm as [N _]. contradiction.
Qed.

(** X16: An owner's delete removes the sensor and its measurements, and the
    former owner's history query is refused. *)
Lemma delete_by_owner (caller : ObjectId) (hid : string) (w : World)
    (limit : option string) :
  NoDup (map hardwareId (sensors w)) ->
  (forall n, dbFault env n = false) ->
  let w' := (delete_api_sensors env caller hid w).2 in
  (exists i s, list_find (fun s => hardwareId s = hid /\ owner s = caller)
                         (sensors w) = Some (i, s)) ->
  (forall s, s ∈ sensors w' -> hardwareId s <> hid) /\
  (forall m, m ∈ measurements w' -> sensorId m <> hid) /\
  (respond (get_api_history env caller hid limit) w').1
  = Some (mkResponse 403 (PText "No autorizado")).
Proof.
  intros ND NF w' (i & s & F). subst w'.
  rewrite delete_api_sensors_run by apply NF.
  cbn [snd sensors measurements].
  assert (Gone : forall x,
            x ∈ delete_first (fun s => hardwareId s = hid /\ owner s = caller)
                             (sensors w) -> hardwareId x <> hid).
  { unfold delete_first. rewrite F.
    apply list_find_Some in F as (Hi & [Eh _] & _).
    intros x Hx Ex. apply list_elem_of_lookup in Hx as [j Hj].
    assert (Hj' : exists j', j' <> i /\ sensors w !! j' = Some x).
    { destruct (decide (j < i)%nat).
      - exists j. split; [lia|]. now rewrite list_lookup_delete_lt in Hj.
      - exists (S j). split; [lia|].
        now rewrite list_lookup_delete_ge in Hj by lia. }
    destruct Hj' as (j' & Hne & Hj'). apply Hne.
    eapply (NoDup_lookup _ j' i (hardwareId x) ND);
      rewrite list_lookup_fmap.
    - now rewrite Hj'.
    - rewrite Hi. cbn. congruence. }
  repeat split.
  - exact Gone.
  - intros m Hm. apply list_elem_of_filter in Hm. tauto.
  - run_m. rewrite NF.
    match goal with |- context [list_find ?P ?l] =>
      assert (N : list_find P l = None) end.
    { apply list_find_None, Forall_forall. intros x Hx [Ex _].
      exact (Gone x Hx Ex). }
    rewrite N. reflexivity.
Qed.

End Administration.

(** * Further properties of the ingest route *)
Section IngestMore.
Context `{Platform} (env : Env).

(** The ingest handler, branch by branch. *)
Lemma post_api_data_branches (body : DataBody) (w : World) :
  let m := mkMeasurement (b_sensorId body) (Js.ToNumber (b_tempC body))
             (Js.ToNumber (b_voltageV body)) (clock env (clockReads w)) in
  let ms := (measurements w ++ [m])%list in
  let ahora := clock env (S (clockReads w)) in
  let failed := netFault env (netOps w) in
  post_api_data env body w =
  if dbFault env (dbOps w) then
    (Ok (mkResponse 500 (PText "Error")), bump_db 1 w)
  else
    match list_find (fun s => hardwareId s = b_sensorId body) (sensors w) with
    | None => (Ok (mkResponse 404 (PText "Sensor no configurado")), bump_db 1 w)
    | Some (i, s) =>
        if negb (accepted body) then
          (Ok (mkResponse 500 (PText "Error")),
           mkWorld (sensors w) (measurements w) (users w) (outbox w)
                   (console w) (1 + dbOps w) (netOps w) (1 + clockReads w))
        else if dbFault env (S (dbOps w)) then
          (Ok (mkResponse 500 (PText "Error")),
           mkWorld (sensors w) (measurements w) (users w) (outbox w)
                   (console w) (2 + dbOps w) (netOps w) (1 + clockReads w))
        else
          match contact_of w s with
          | None =>
              (Ok (mkResponse 200 (PText "OK")),
               mkWorld (sensors w) ms (users w) (outbox w) (console w)
                       (2 + dbOps w) (netOps w) (1 + clockReads w))
          | Some number =>
              if Js.gt (Js.ToNumber (b_tempC body)) (alertThreshold s)
                 && Js.truthy_str number
              then
                if cooldown_over env (lastAlertSent s) ahora then
                  let out := (outbox w ++ [(alert_of body s number, negb failed)])%list in
                  let con := (console w ++ if failed then [LogSendTextError] else [])%list in
                  if dbFault env (S (S (dbOps w))) then
                    (Ok (mkResponse 500 (PText "Error")),
                     mkWorld (sensors w) ms (users w) out con
                             (3 + dbOps w) (S (netOps w)) (2 + clockReads w))
                  else
                    (Ok (mkResponse 200 (PText "OK")),
                     mkWorld (alter (set_lastAlertSent (Some ahora)) i (sensors w))
                             ms (users w) out con
                             (3 + dbOps w) (S (netOps w)) (2 + clockReads w))
                else
                  (Ok (mkResponse 200 (PText "OK")),
                   mkWorld (sensors w) ms (users w) (outbox w)
                           (console w ++ [LogCooldown (friendlyName s)])
                           (2 + dbOps w) (netOps w) (2 + clockReads w))
              else
                (Ok (mkResponse 200 (PText "OK")),
                 mkWorld (sensors w) ms (users w) (outbox w) (console w)
                         (2 + dbOps w) (netOps w) (1 + clockReads w))
          end
    end.
Proof.
  cbn zeta. destruct (dbFault env (dbOps w)) eqn:H0.
  { run_m. now rewrite H0. }
  destruct (list_find _ (sensors w)) as [[i s]|] eqn:Hs.
  2:{ run_m. now rewrite H0, Hs. }
  destruct (accepted body) eqn:Ha; cbn [negb].
  2:{ exact (post_api_data_refused env body w i s Hs Ha H0). }
  destruct (dbFault env (S (dbOps w))) eqn:H1.
  { run_m. rewrite H0, Hs. cbn. rewrite (accepted_true body Ha). cbn.
    now rewrite H1. }
  destruct (contact_of w s) as [number|] eqn:Hc.
  - exact (post_api_data_configured env body w i s number Hs Hc Ha H0 H1).
  - unfold contact_of in Hc. run_m. rewrite H0, Hs. cbn.
    rewrite (accepted_true body Ha). cbn. rewrite H1. cbn.
    now rewrite Hc.
Qed.

Lemma gt_NaN_l (y : Js.Num) : Js.gt Js.NaN y = false.
Proof. destruct y; reflexivity. Qed.

(** X1: What the status of an ingest says about storage: 200 means the reading
    converted to two numbers and was appended, once, with the doubles
    [Number(tempC)] and [Number(voltageV)]; 404 means no sensor has that
    hardwareId and nothing at all was written; the only other answer is
    500. *)
Theorem ingest_status_tells_storage (body : DataBody) (w : World) :
  let r := (post_api_data env body w).1 in
  let w' := (post_api_data env body w).2 in
  let m := mkMeasurement (b_sensorId body) (Js.ToNumber (b_tempC body))
             (Js.ToNumber (b_voltageV body)) (clock env (clockReads w)) in
  (r = Ok (mkResponse 200 (PText "OK")) /\ accepted body = true /\
   measurements w' = (measurements w ++ [m])%list) \/
  (r = Ok (mkResponse 404 (PText "Sensor no configurado")) /\
   w' = bump_db 1 w /\
   forall s, s ∈ sensors w -> hardwareId s <> b_sensorId body) \/
  (r = Ok (mkResponse 500 (PText "Error")) /\
   (measurements w' = measurements w \/
    measurements w' = (measurements w ++ [m])%list)).
Proof.
  cbn zeta. rewrite post_api_data_branches. cbn zeta.
  destruct (dbFault env (dbOps w)); [right; right; auto|].
  destruct (list_find _ (sensors w)) as [[i s]|] eqn:Hs.
  2:{ right; left. repeat split. apply list_find_None in Hs.
      rewrite Forall_forall in Hs. exact Hs. }
  destruct (accepted body); cbn [negb]; [|right; right; auto].
  destruct (dbFault env (S (dbOps w))); [right; right; auto|].
  destruct (contact_of w s) as [number|]; [|left; auto].
  destruct (Js.gt _ _ && _); [|left; auto].
  destruct (cooldown_over _ _ _); [|left; auto].
  destruct (dbFault env (S (S (dbOps w)))); [right; right; auto | left; auto].
Qed.

(** X2: A sensor whose owner document is gone, or whose owner has no contact or
    an empty one, never alerts: whatever the reading and the faults, nothing
    is posted and no sensor is touched. *)
Theorem ingest_without_contact_is_silent (body : DataBody) (w : World) i s :
  configured w (b_sensorId body) i s ->
  contact_of w s = None \/ contact_of w s = Some EmptyString ->
  let w' := (post_api_data env body w).2 in
  dispatched w w' = [] /\ sensors w' = sensors w.
Proof.
  unfold configured. intros Hs Hc. cbn zeta.
  rewrite post_api_data_branches. cbn zeta. rewrite Hs.
  destruct (dbFault env (dbOps w)); [split; [apply dispatched_same|]; reflexivity|].
  destruct (negb (accepted body)); [split; [apply dispatched_same|]; reflexivity|].
  destruct (dbFault env (S (dbOps w))); [split; [apply dispatched_same|]; reflexivity|].
  destruct Hc as [-> | ->]; [split; [apply dispatched_same|]; reflexivity|].
  rewrite andb_false_r. split; [apply dispatched_same|]; reflexivity.
Qed.

(** X3: A reading that is not above the threshold of its sensor posts nothing
    and stamps nothing, whatever the cooldown state. *)
Theorem ingest_not_above_threshold_is_silent (body : DataBody) (w : World) i s :
  configured w (b_sensorId body) i s ->
  Js.gt (Js.ToNumber (b_tempC body)) (alertThreshold s) = false ->
  let w' := (post_api_data env body w).2 in
  dispatched w w' = [] /\ sensors w' = sensors w.
Proof.
  unfold configured. intros Hs G. cbn zeta.
  rewrite post_api_data_branches. cbn zeta. rewrite Hs, G. cbn [andb].
  destruct (dbFault env (dbOps w)); [split; [apply dispatched_same|]; reflexivity|].
  destruct (negb (accepted body)); [split; [apply dispatched_same|]; reflexivity|].
  destruct (dbFault env (S (dbOps w))); [split; [apply dispatched_same|]; reflexivity|].
  destruct (contact_of w s); split; try apply dispatched_same; reflexivity.
Qed.

(** X4: A reading whose tempC or voltageV is no number (undefined, a word,
    ...) is refused: whatever the sensor and the faults, nothing is
    stored, nothing is posted, no sensor is touched, and the answer is 404
    or 500, never 200. *)
Theorem reading_without_numbers_is_refused (body : DataBody) (w : World) :
  Js.ToNumber (b_tempC body) = Js.NaN \/
  Js.ToNumber (b_voltageV body) = Js.NaN ->
  let r := (post_api_data env body w).1 in
  let w' := (post_api_data env body w).2 in
  measurements w' = measurements w /\
  dispatched w w' = [] /\
  sensors w' = sensors w /\
  (r = Ok (mkResponse 404 (PText "Sensor no configurado")) \/
   r = Ok (mkResponse 500 (PText "Error"))).
Proof.
  intros N. cbn zeta.
  assert (Ha : accepted body = false).
  { unfold accepted. destruct N as [-> | ->]; [reflexivity|].
    now rewrite orb_true_r. }
  rewrite post_api_data_branches. cbn zeta. rewrite Ha. cbn [negb].
  destruct (dbFault env (dbOps w));
    [repeat split; [apply dispatched_same; reflexivity | now right]|].
  destruct (list_find _ (sensors w)) as [[i s]|];
    (repeat split; [apply dispatched_same; reflexivity | auto]).
Qed.

(** X5: What an ingest never does to the collections: users are untouched, no
    stored measurement is changed or removed and at most one is appended,
    no sensor is added or removed, and a sensor changes in nothing but its
    lastAlertSent. *)
Theorem ingest_frame (body : DataBody) (w : World) :
  let w' := (post_api_data env body w).2 in
  users w' = users w /\
  (exists l, measurements w' = (measurements w ++ l)%list /\ (length l <= 1)%nat) /\
  length (sensors w') = length (sensors w) /\
  (forall j s, sensors w !! j = Some s ->
               exists t, sensors w' !! j = Some (set_lastAlertSent t s)).
Proof.
  cbn zeta. rewrite post_api_data_branches. cbn zeta.
  assert (Same : forall j s, sensors w !! j = Some s ->
            exists t, sensors w !! j = Some (set_lastAlertSent t s)).
  { intros j s Hj. exists (lastAlertSent s). rewrite Hj. now destruct s. }
  assert (Keep : exists l, measurements w = (measurements w ++ l)%list
                           /\ (length l <= 1)%nat).
  { exists []. rewrite app_nil_r. split; [reflexivity | cbn; lia]. }
  assert (Grow : forall m, exists l,
            (measurements w ++ [m])%list = (measurements w ++ l)%list
            /\ (length l <= 1)%nat).
  { intros m. exists [m]. split; [reflexivity | cbn; lia]. }
  destruct (dbFault env (dbOps w)); [cbn; auto|].
  destruct (list_find _ (sensors w)) as [[i s]|]; [|cbn; auto].
  destruct (negb (accepted body)); [cbn; auto|].
  destruct (dbFault env (S (dbOps w))); [cbn; auto|].
  destruct (contact_of w s) as [number|]; [|cbn; auto].
  destruct (Js.gt _ _ && _); [|cbn; auto].
  destruct (cooldown_over _ _ _); [|cbn; auto].
  destruct (dbFault env (S (S (dbOps w)))); [cbn; auto|].
  cbn. repeat split; auto.
  - apply length_alter.
  - intros j s0 Hj. destruct (decide (i = j)) as [->|Hne].
    + eexists. rewrite list_lookup_alter_eq, Hj. cbn. f_equal.
    + rewrite list_lookup_alter_ne by exact Hne. auto.
Qed.

(** X6: An ingest posts at most one message, and only the alert of the sensor
    named by sensorId, with that sensor's name and the temperature as it
    was sent, to the contact of that sensor's owner, for a reading that
    converts to two numbers and is above the sensor's threshold. *)
Theorem ingest_alerts_only_the_owner (body : DataBody) (w : World) :
  let w' := (post_api_data env body w).2 in
  dispatched w w' = [] \/
  exists i s number,
    configured w (b_sensorId body) i s /\
    contact_of w s = Some number /\
    accepted body = true /\
    Js.gt (Js.ToNumber (b_tempC body)) (alertThreshold s) = true /\
    dispatched w w'
    = [(SendText number
          ("🚨 *ALERTA DE TEMPERATURA*" ++ Js.nl ++ Js.nl ++
           "📍 *Equipo:* " ++ friendlyName s ++ Js.nl ++
           "🌡️ *Temperatura:* " ++ ToString (b_tempC body) ++ "°C"
           ++ Js.nl ++ Js.nl ++
           "⚠️ _El límite ha sido superado._" ++ Js.nl ++
           "👉 Escribe *Estado* para ver todos tus equipos."),
        negb (netFault env (netOps w)))].
Proof.
  cbn zeta. rewrite post_api_data_branches. cbn zeta.
  destruct (dbFault env (dbOps w)); [left; apply dispatched_same; reflexivity|].
  destruct (list_find _ (sensors w)) as [[i s]|] eqn:Hs;
    [|left; apply dispatched_same; reflexivity].
  destruct (accepted body) eqn:Ha; cbn [negb];
    [|left; apply dispatched_same; reflexivity].
  destruct (dbFault env (S (dbOps w))); [left; apply dispatched_same; reflexivity|].
  destruct (contact_of w s) as [number|] eqn:Hc;
    [|left; apply dispatched_same; reflexivity].
  destruct (Js.gt _ _) eqn:G; cbn [andb];
    [|left; apply dispatched_same; reflexivity].
  destruct (Js.truthy_str number); [|left; apply dispatched_same; reflexivity].
  destruct (cooldown_over _ _ _); [|left; apply dispatched_same; reflexivity].
  right. exists i, s, number. repeat split; auto.
  destruct (dbFault env (S (S (dbOps w)))); apply dispatched_app; reflexivity.
Qed.

(** X7: The alert and the stamp are two steps: when the write of lastAlertSent
    fails after the alert for an accepted reading was posted, the alert
    stays posted, the sensor keeps its old stamp, and the request is
    answered 500 although the reading is stored. *)
Theorem alert_posted_but_stamp_lost (body : DataBody) (w : World) i s number :
  configured w (b_sensorId body) i s ->
  contact_of w s = Some number ->
  Js.truthy_str number = true ->
  accepted body = true ->
  Js.gt (Js.ToNumber (b_tempC body)) (alertThreshold s) = true ->
  cooldown_over env (lastAlertSent s) (clock env (S (clockReads w))) = true ->
  dbFault env (dbOps w) = false ->
  dbFault env (S (dbOps w)) = false ->
  dbFault env (S (S (dbOps w))) = true ->
  let w' := (post_api_data env body w).2 in
  (post_api_data env body w).1 = Ok (mkResponse 500 (PText "Error")) /\
  dispatched w w' = [(alert_of body s number, negb (netFault env (netOps w)))] /\
  sensors w' = sensors w /\
  measurements w'
  = (measurements w ++
     [mkMeasurement (b_sensorId body) (Js.ToNumber (b_tempC body))
        (Js.ToNumber (b_voltageV body)) (clock env (clockReads w))])%list.
Proof.
  intros Hs Hc Ht Ha G O H0 H1 H2. cbn zeta.
  rewrite (post_api_data_configured env body w i s number Hs Hc Ha H0 H1).
  cbn zeta. rewrite G, Ht, O, H2. cbn.
  repeat split.
  apply dispatched_app; reflexivity.
Qed.

Lemma list_find_alter_found {A} (P : A -> Prop) `{forall x, Decision (P x)}
    (f : A -> A) (l : list A) i x :
  list_find P l = Some (i, x) -> P (f x) ->
  list_find P (alter f i l) = Some (i, f x).
Proof.
  intros F Pf. apply list_find_Some in F as (Hi & _ & Hlt).
  apply list_find_Some. repeat split.
  - now rewrite list_lookup_alter_eq, Hi.
  - exact Pf.
  - intros j y Hy Hj. rewrite list_lookup_alter_ne in Hy by lia.
    exact (Hlt j y Hy Hj).
Qed.

(** X8: The debounce: once an accepted reading has alerted and stamped the
    sensor, the next accepted reading for that sensor, taken while the
    elapsed time is not greater than the window, is stored and answered OK
    but posts nothing and leaves the stamp, which is the time the first
    handler read. *)
Theorem second_reading_within_window_is_silent
    (b1 b2 : DataBody) (w : World) i s number :
  configured w (b_sensorId b1) i s ->
  b_sensorId b2 = b_sensorId b1 ->
  contact_of w s = Some number ->
  Js.truthy_str number = true ->
  accepted b1 = true ->
  accepted b2 = true ->
  Js.gt (Js.ToNumber (b_tempC b1)) (alertThreshold s) = true ->
  cooldown_over env (lastAlertSent s) (clock env (1 + clockReads w)) = true ->
  (forall n, (n < 5)%nat -> dbFault env (n + dbOps w) = false) ->
  Js.gt (Js.sub_dates (clock env (3 + clockReads w))
                      (clock env (1 + clockReads w)))
        (cooldownMs env) = false ->
  let w1 := (post_api_data env b1 w).2 in
  let w2 := (post_api_data env b2 w1).2 in
  dispatched w w1 = [(alert_of b1 s number, negb (netFault env (netOps w)))] /\
  dispatched w1 w2 = [] /\
  sensors w2 = sensors w1 /\
  sensors w2 !! i
  = Some (mkSensor (hardwareId s) (friendlyName s) (alertThreshold s)
                   (owner s) (enabled s)
                   (Some (clock env (1 + clockReads w)))) /\
  length (measurements w2) = (2 + length (measurements w))%nat /\
  (post_api_data env b2 w1).1 = Ok (mkResponse 200 (PText "OK")).
Proof.
  intros Hs E2 Hc Ht A1 A2 G O NF In. cbn zeta.
  pose proof (NF 0%nat ltac:(lia)) as F0. pose proof (NF 1%nat ltac:(lia)) as F1.
  pose proof (NF 2%nat ltac:(lia)) as F2. pose proof (NF 3%nat ltac:(lia)) as F3.
  pose proof (NF 4%nat ltac:(lia)) as F4. cbn [Nat.add] in *.
  rewrite (post_api_data_configured env b1 w i s number Hs Hc A1 F0 F1).
  cbn zeta. rewrite G, Ht, O, F2. cbn [andb snd].
  set (ahora := clock env (S (clockReads w))) in *.
  set (s1 := set_lastAlertSent (Some ahora) s).
  match goal with |- context [post_api_data env b2 ?x] => set (w1 := x) end.
  assert (Hs1 : configured w1 (b_sensorId b2) i s1).
  { unfold configured, w1. cbn [sensors]. rewrite E2.
    apply list_find_alter_found; [exact Hs|].
    apply list_find_Some in Hs as (_ & Hh & _). exact Hh. }
  assert (Hc1 : contact_of w1 s1 = Some number) by exact Hc.
  rewrite (post_api_data_configured env b2 w1 i s1 number Hs1 Hc1 A2 F3 F4).
  cbn zeta. cbn [lastAlertSent s1 set_lastAlertSent w1 clockReads Nat.add].
  unfold cooldown_over. fold ahora. rewrite In.
  apply list_find_Some in Hs as (Hi & _ & _).
  assert (L : alter (set_lastAlertSent (Some ahora)) i (sensors w) !! i = Some s1).
  { now rewrite list_lookup_alter_eq, Hi. }
  split; [apply dispatched_app; reflexivity|].
  destruct (Js.gt _ _ && _); cbn [fst snd sensors measurements];
    (repeat split;
     first [apply dispatched_same; reflexivity | exact L
           | unfold w1; cbn [measurements]; rewrite !length_app; cbn; lia]).
Qed.

Lemma head_sort_desc_newest (l : list Measurement) (m : Measurement) :
  (forall x, x ∈ l -> timestamp x < timestamp m) ->
  head (sort_desc (l ++ [m])) = Some m.
Proof.
  intros Old.
  pose proof (sort_desc_perm (l ++ [m])) as P.
  pose proof (sort_desc_sorted (l ++ [m])) as S.
  destruct (sort_desc (l ++ [m])) as [|x t].
  { apply Permutation_nil_l in P. now destruct l. }
  cbn. f_equal.
  assert (Hx : x ∈ (l ++ [m])%list) by (rewrite <- P; left).
  assert (Hm : m ∈ x :: t) by (rewrite P; apply elem_of_app; right; left).
  apply elem_of_app in Hx as [Hx | Hx];
    [|now apply list_elem_of_singleton in Hx].
  specialize (Old x Hx).
  apply elem_of_cons in Hm as [-> | Hm]; [reflexivity|].
  apply StronglySorted_cons in S as [F _]. rewrite Forall_forall in F.
  specialize (F m Hm). unfold newer_first in F. lia.
Qed.

(** X9: Ingest then read back: a reading answered 200 whose time of creation is
    later than every stored measurement of its sensor is what the latest
    lookup of that sensor (the one of the estado report) returns next. *)
Theorem stored_reading_becomes_latest (body : DataBody) (w : World) :
  (post_api_data env body w).1 = Ok (mkResponse 200 (PText "OK")) ->
  (forall x, x ∈ measurements w -> sensorId x = b_sensorId body ->
             timestamp x < clock env (clockReads w)) ->
  let w' := (post_api_data env body w).2 in
  dbFault env (dbOps w') = false ->
  (Measurement_latest env (b_sensorId body) w').1
  = Ok (Some (mkMeasurement (b_sensorId body) (Js.ToNumber (b_tempC body))
                (Js.ToNumber (b_voltageV body)) (clock env (clockReads w)))).
Proof.
  intros R Old. cbn zeta.
  set (m := mkMeasurement _ _ _ _).
  assert (Hm : measurements (post_api_data env body w).2
               = (measurements w ++ [m])%list).
  { revert R. rewrite post_api_data_branches. cbn zeta. fold m.
    destruct (dbFault env (dbOps w)); [discriminate|].
    destruct (list_find _ (sensors w)) as [[i s]|]; [|discriminate].
    destruct (negb (accepted body)); [discriminate|].
    destruct (dbFault env (S (dbOps w))); [discriminate|].
    destruct (contact_of w s) as [number|]; [|reflexivity].
    destruct (Js.gt _ _ && _); [|reflexivity].
    destruct (cooldown_over _ _ _); [|reflexivity].
    destruct (dbFault env (S (S (dbOps w)))); [discriminate | reflexivity]. }
  intros NF. unfold Measurement_latest, db. rewrite NF.
  cbn [fst measurements]. rewrite Hm. unfold of_sensor.
  rewrite filter_app, filter_cons_True, filter_nil by reflexivity.
  do 2 f_equal. apply head_sort_desc_newest.
  intros x Hx. apply list_elem_of_filter in Hx as [E Hx]. exact (Old x Hx E).
Qed.

End IngestMore.

(** * Further properties of the chat webhook *)
Section WebhookMore.
Context `{Platform} (env : Env).

Lemma same_store_refl (w : World) : same_store w w.
Proof. repeat split. Qed.

Lemma same_store_trans (w1 w2 w3 : World) :
  same_store w1 w2 -> same_store w2 w3 -> same_store w1 w3.
Proof. unfold same_store. intros (A & B & C) (D & E & F). repeat split; congruence. Qed.

Lemma responderWhatsApp_store (number text : string) (w : World) :
  same_store w (responderWhatsApp env number text w).2.
Proof. rewrite responderWhatsApp_run. repeat split. Qed.

Lemma estado_loop_store (ss : list Sensor) (reporte : string) (w : World) :
  same_store w (estado_loop env ss reporte w).2.
Proof.
  revert reporte w. induction ss as [|s ss IH]; intros reporte w;
    cbn [estado_loop]; [apply same_store_refl|].
  unfold Measurement_latest, db, mbind, M_bind.
  destruct (dbFault env (dbOps w)); [repeat split|].
  match goal with |- context [estado_loop env ss ?r ?w1] =>
    eapply same_store_trans; [|exact (IH r w1)] end.
  repeat split.
Qed.

Lemma estado_store (u : User) (from : string) (w : World) :
  same_store w (estado env u from w).2.
Proof.
  unfold estado, Sensor_find, db, mbind, M_bind.
  destruct (dbFault env (dbOps w)); [repeat split|].
  match goal with |- context [estado_loop env ?ss ?r ?w1] =>
    pose proof (estado_loop_store ss r w1) as L;
    destruct (estado_loop env ss r w1) as [[r'|e] w2] end;
    cbn [snd] in *.
  - eapply same_store_trans; [|apply responderWhatsApp_store].
    eapply same_store_trans; [|exact L]. repeat split.
  - eapply same_store_trans; [|exact L]. repeat split.
Qed.

Lemma historial_store (u : User) (from text : string) (w : World) :
  same_store w (historial env u from text w).2.
Proof.
  unfold historial. destruct (RegExp_i _) as [rx|]; [|repeat split].
  unfold Sensor_findOne, Measurement_recent, db, mbind, M_bind.
  destruct (dbFault env (dbOps w)); [repeat split|].
  cbn [sensors]. destruct (list_find _ (sensors w)) as [[i s]|];
    cbn [fmap option_fmap option_map snd].
  - cbn [dbOps]. destruct (dbFault env (S (dbOps w))); [repeat split|].
    destruct (0 <? length _)%nat.
    + rewrite responderWhatsAppConImagen_run. repeat split.
    + repeat split.
  - rewrite responderWhatsApp_run. repeat split.
Qed.

(** X10: The webhook only reads: whatever the event, the command and the faults,
    sensors, measurements and users are what they were. *)
Theorem webhook_never_writes (body : WebhookBody) (w : World) :
  same_store w (post_api_webhook_whatsapp env body w).2.
Proof.
  rewrite webhook_branches.
  destruct (data body) as [d|]; [|apply same_store_refl].
  destruct (message d) as [m|]; [|apply same_store_refl].
  destruct (key d ≫= remoteJid) as [jid|]; [|apply same_store_refl].
  destruct (dbFault env (dbOps w)); [repeat split|].
  destruct (list_find _ (users w)) as [[k u]|]; [|repeat split].
  unfold try_catch, mbind, M_bind.
  set (w0 := logged w (command_of m)).
  assert (S0 : same_store w w0) by repeat split.
  assert (S1 : same_store w0
            ((if decide (command_of m = "estado")
              then estado env u (sender_of jid) else mret tt) w0).2).
  { destruct (decide _); [apply estado_store | apply same_store_refl]. }
  destruct ((if decide (command_of m = "estado")
             then estado env u (sender_of jid) else mret tt) w0)
    as [[[]|e] w1]; cbn [snd] in S1;
    [|exact (same_store_trans _ _ _ S0 S1)].
  assert (S2 : same_store w1
            ((if Js.startsWith (command_of m) "historial"
              then historial env u (sender_of jid) (command_of m)
              else mret tt) w1).2).
  { destruct (Js.startsWith _ _); [apply historial_store | apply same_store_refl]. }
  destruct ((if Js.startsWith (command_of m) "historial"
             then historial env u (sender_of jid) (command_of m)
             else mret tt) w1)
    as [[[]|e] w2]; cbn [snd] in S2;
    exact (same_store_trans _ _ _ S0 (same_store_trans _ _ _ S1 S2)).
Qed.

(** X11: An event without a message is acknowledged without a single storage
    operation; a message from a contact no user has is acknowledged after
    the one lookup, with nothing sent and nothing logged. *)
Theorem webhook_ignores_strangers (body : WebhookBody) (w : World) d :
  data body = Some d ->
  (message d = None ->
   post_api_webhook_whatsapp env body w = (Ok ack, w)) /\
  (forall m jid,
     message d = Some m -> key d ≫= remoteJid = Some jid ->
     (forall u, u ∈ users w -> whatsapp u <> Some (sender_of jid)) ->
     dbFault env (dbOps w) = false ->
     post_api_webhook_whatsapp env body w = (Ok ack, bump_db 1 w)).
Proof.
  intros Hd. rewrite webhook_branches, Hd. split.
  - now intros ->.
  - intros m jid -> -> Hno ->.
    assert (N : list_find (fun u => whatsapp u = Some (sender_of jid)) (users w)
                = None).
    { apply list_find_None, Forall_forall. exact Hno. }
    now rewrite N.
Qed.

(** X12: A text that is neither "estado" nor begins with "historial", from a
    resolved user: the command is logged, nothing is sent, the answer is
    200. *)
Theorem unrecognised_command_is_ignored
    (body : WebhookBody) (w : World) d m jid k u :
  data body = Some d -> message d = Some m ->
  key d ≫= remoteJid = Some jid ->
  list_find (fun u => whatsapp u = Some (sender_of jid)) (users w) = Some (k, u) ->
  command_of m <> "estado" ->
  Js.startsWith (command_of m) "historial" = false ->
  dbFault env (dbOps w) = false ->
  post_api_webhook_whatsapp env body w = (Ok ack, logged w (command_of m)).
Proof.
  intros Hd Hm Hk Hu Ne Nh H0.
  rewrite (webhook_resolved env body w d m jid k u Hd Hm Hk H0 Hu).
  unfold try_catch, mbind, M_bind.
  destruct (decide (command_of m = "estado")); [contradiction|].
  now rewrite Nh.
Qed.




(** The latest lookup returns nothing exactly when the sensor has no stored
    measurement, and otherwise one of its measurements than which none is
    newer. *)
Theorem latest_is_newest (hid : string) (w : World) :
  dbFault env (dbOps w) = false ->
  exists r, Measurement_latest env hid w = (Ok r, bump_db 1 w) /\
    match r with
    | None => forall x, x ∈ measurements w -> sensorId x <> hid
    | Some m => m ∈ measurements w /\ sensorId m = hid /\
                forall x, x ∈ measurements w -> sensorId x = hid ->
                          timestamp x <= timestamp m
    end.
Proof.
  intros H0. unfold Measurement_latest, db. rewrite H0. cbn [measurements].
  eexists. split; [reflexivity|].
  pose proof (sort_desc_perm (of_sensor hid (measurements w))) as P.
  pose proof (sort_desc_sorted (of_sensor hid (measurements w))) as S.
  destruct (sort_desc (of_sensor hid (measurements w))) as [|m t]; cbn [head].
  - apply Permutation_nil_l in P. intros x Hx E.
    assert (Hf : x ∈ of_sensor hid (measurements w))
      by (apply list_elem_of_filter; auto).
    rewrite <- P in Hf. now apply elem_of_nil in Hf.
  - assert (Hm : m ∈ of_sensor hid (measurements w)) by (rewrite <- P; left).
    apply list_elem_of_filter in Hm as [E Hm]. repeat split; auto.
    intros x Hx Ex.
    assert (Hf : x ∈ m :: t) by (rewrite P; apply list_elem_of_filter; auto).
    apply StronglySorted_cons in S as [F _]. rewrite Forall_forall in F.
    apply elem_of_cons in Hf as [-> | Hf]; [lia|].
    exact (F x Hf).
Qed.

(** X14: The bare word "historial" searches for the empty pattern, which every
    name matches: the chart is that of the first sensor the user owns,
    enabled or not. *)
Theorem bare_historial_charts_first_sensor
    (body : WebhookBody) (w : World) d m jid k u rx i s :
  data body = Some d -> message d = Some m ->
  key d ≫= remoteJid = Some jid ->
  command_of m = "historial" ->
  list_find (fun u => whatsapp u = Some (sender_of jid)) (users w) = Some (k, u) ->
  RegExp_i EmptyString = Some rx -> (forall x, rx x = true) ->
  list_find (fun s => owner s = user_id u) (sensors w) = Some (i, s) ->
  of_sensor (hardwareId s) (measurements w) <> [] ->
  (forall n, dbFault env n = false) ->
  let w' := (post_api_webhook_whatsapp env body w).2 in
  dispatched w w'
  = [(SendImage (sender_of jid)
        (QuickChart_getUrl
           (history_chart
              (take 10 (sort_desc (of_sensor (hardwareId s) (measurements w))))))
        ("📊 Historial: " ++ friendlyName s),
      negb (netFault env (netOps w)))].
Proof.
  intros Hd Hm Hk Hc Hu Hrx All Hs Hne NF. cbn zeta.
  assert (Hh : Js.startsWith (command_of m) "historial" = true)
    by now rewrite Hc.
  rewrite (webhook_historial env body w d m jid k u Hd Hm Hk Hh Hu (NF _)).
  assert (Hq : RegExp_i (query_of (command_of m)) = Some rx) by now rewrite Hc.
  rewrite (historial_run env u (sender_of jid) (command_of m)
             (logged w (command_of m)) rx Hq (NF _) (NF _)).
  cbn [sensors measurements logged].
  assert (F : list_find (fun s => owner s = user_id u /\ rx (friendlyName s) = true)
                        (sensors w) = Some (i, s)).
  { apply list_find_Some in Hs as (Hi & Ho & Hlt).
    apply list_find_Some. repeat split; auto.
    intros j y Hy Hj [Oy _]. exact (Hlt j y Hy Hj Oy). }
  rewrite F. cbn zeta.
  destruct (take 10 _) as [|m0 docs] eqn:E.
  { exfalso. apply Hne.
    pose proof (sort_desc_perm (of_sensor (hardwareId s) (measurements w))) as P.
    destruct (sort_desc _) as [|x t]; [|discriminate E].
    now apply Permutation_nil_l in P. }
  cbn -[dispatched posted history_chart]. apply dispatched_posted; reflexivity.
Qed.

End WebhookMore.

(** * Further properties of sensor administration *)
Section AdministrationMore.
Context `{Platform} (env : Env).

(** X15: The history route hands out measurements only to a caller who owns a
    sensor under the requested hardwareId, and then the stored measurements
    of that hardwareId, newest first, cut by the cursor's limit for the
    double [Number(limit)]; a caller who owns none is answered 403; the
    route writes nothing, and the handler sends no response of its own only
    when a storage operation failed. *)
Theorem history_only_for_the_owner
    (caller : ObjectId) (sid : string) (limit : option string) (w : World) :
  let r := (respond (get_api_history env caller sid limit) w).1 in
  let w' := (respond (get_api_history env caller sid limit) w).2 in
  same_store w w' /\
  (forall l, r = Some (mkResponse 200 (PDocs l)) ->
     (exists s, s ∈ sensors w /\ hardwareId s = sid /\ owner s = caller) /\
     l = cursor_limit (match limit with
                       | Some n => Js.StringToNumber n
                       | None => Js.of_Z 100
                       end)
                      (sort_desc (of_sensor sid (measurements w)))) /\
  ((forall s, s ∈ sensors w -> hardwareId s = sid -> owner s <> caller) ->
   dbFault env (dbOps w) = false ->
   r = Some (mkResponse 403 (PText "No autorizado"))) /\
  (r = None ->
   dbFault env (dbOps w) = true \/ dbFault env (S (dbOps w)) = true).
Proof.
  cbn zeta. run_m.
  destruct (dbFault env (dbOps w)) eqn:H0.
  { cbn. split; [repeat split|]. split; [intros l E; discriminate E|].
    split; [intros _ E; discriminate E | auto]. }
  destruct (list_find _ (sensors w)) as [[i s]|] eqn:F; cbn.
  - apply list_find_Some in F as (Hi & [Hh Ho] & _).
    assert (Hs : s ∈ sensors w) by (apply list_elem_of_lookup; eauto).
    destruct (dbFault env (S (dbOps w))) eqn:H1; cbn.
    + split; [repeat split|]. split; [intros l E; discriminate E|].
      split; [|auto]. intros Hno _. exfalso. exact (Hno s Hs Hh Ho).
    + split; [repeat split|]. split; [|split; [|intros E; discriminate E]].
      * intros l E. injection E as <-. split; [|reflexivity].
        exists s. auto.
      * intros Hno _. exfalso. exact (Hno s Hs Hh Ho).
  - split; [repeat split|]. split; [intros l E; discriminate E|].
    split; [reflexivity | intros E; discriminate E].
Qed.

Lemma of_sensor_after_delete (hid h' : string) (l : list Measurement) :
  of_sensor h' (filter (fun m => sensorId m <> hid) l)
  = if decide (h' = hid) then [] else of_sensor h' l.
Proof.
  unfold of_sensor. induction l as [|m l IH]; [now destruct (decide _)|].
  destruct (decide (sensorId m = hid)) as [E|N].
  - rewrite (filter_cons_False (fun m => sensorId m <> hid)) by tauto.
    rewrite IH. destruct (decide (h' = hid)) as [->|Nh]; [reflexivity|].
    rewrite (filter_cons_False (fun m => sensorId m = h')) by congruence.
    reflexivity.
  - rewrite (filter_cons_True (fun m => sensorId m <> hid)) by exact N.
    destruct (decide (sensorId m = h')) as [E'|N'].
    + rewrite !(filter_cons_True (fun m => sensorId m = h')) by exact E'.
      rewrite IH. destruct (decide (h' = hid)); [congruence | reflexivity].
    + rewrite !(filter_cons_False (fun m => sensorId m = h')) by exact N'.
      exact IH.
Qed.

Lemma delete_first_keeps {A} (P : A -> Prop) `{forall x, Decision (P x)}
    (l : list A) :
  (forall x, x ∈ delete_first P l -> x ∈ l) /\
  (forall x, x ∈ l -> ~ P x -> x ∈ delete_first P l) /\
  (length l <= S (length (delete_first P l)))%nat.
Proof.
  unfold delete_first. destruct (list_find P l) as [[i y]|] eqn:F;
    [|repeat split; auto; lia].
  apply list_find_Some in F as (Hi & Py & _).
  repeat split.
  - intros x Hx. apply list_elem_of_lookup in Hx as [j Hj].
    apply list_elem_of_lookup. destruct (decide (j < i)%nat).
    + exists j. now rewrite list_lookup_delete_lt in Hj.
    + exists (S j). now rewrite list_lookup_delete_ge in Hj by lia.
  - intros x Hx Nx. apply list_elem_of_lookup in Hx as [j Hj].
    assert (j <> i) by (intros ->; congruence).
    apply list_elem_of_lookup. destruct (decide (j < i)%nat).
    + exists j. now rewrite list_lookup_delete_lt.
    + exists (pred j). rewrite list_lookup_delete_ge by lia.
      now replace (S (pred j)) with j by lia.
  - rewrite length_delete by eauto. lia.
Qed.

(** X17: A delete request whose two storage operations go through is answered
    200 "Eliminado" whether or not anything matched; it removes at most one
    sensor and none that has another hardwareId or another owner; the
    measurements of every other hardwareId stay as they were, in order;
    users are untouched. *)
Theorem delete_frame (caller : ObjectId) (hid : string) (w : World) :
  dbFault env (dbOps w) = false ->
  dbFault env (S (dbOps w)) = false ->
  let r := (respond (delete_api_sensors env caller hid) w).1 in
  let w' := (respond (delete_api_sensors env caller hid) w).2 in
  r = Some (mkResponse 200 (PMessage "Eliminado")) /\
  users w' = users w /\
  (forall h', h' <> hid ->
     of_sensor h' (measurements w') = of_sensor h' (measurements w)) /\
  (forall s, s ∈ sensors w' -> s ∈ sensors w) /\
  (forall s, s ∈ sensors w -> hardwareId s <> hid \/ owner s <> caller ->
             s ∈ sensors w') /\
  (length (sensors w) <= S (length (sensors w')))%nat.
Proof.
  intros H0 H1. cbn zeta. unfold respond.
  rewrite (delete_api_sensors_run env caller hid w H0 H1).
  cbn [fst snd users sensors measurements].
  destruct (delete_first_keeps
              (fun s => hardwareId s = hid /\ owner s = caller) (sensors w))
    as (A & B & C).
  repeat split; auto.
  - intros h' Hne. rewrite of_sensor_after_delete.
    destruct (decide (h' = hid)); [contradiction | reflexivity].
  - intros s Hs Hn. apply B; [exact Hs | tauto].
Qed.

(** X18: The two deletions are separate operations and the route has no catch:
    when the removal of the measurements fails, the owner's sensor is
    already gone, its measurements all remain, and the handler sends no
    response: its promise rejects with the storage error. *)
Theorem delete_stops_half_way (caller : ObjectId) (hid : string) (w : World) i s :
  list_find (fun s => hardwareId s = hid /\ owner s = caller) (sensors w)
  = Some (i, s) ->
  dbFault env (dbOps w) = false ->
  dbFault env (S (dbOps w)) = true ->
  let w' := (delete_api_sensors env caller hid w).2 in
  (delete_api_sensors env caller hid w).1 = Throw StorageError /\
  sensors w' = delete i (sensors w) /\
  length (sensors w) = S (length (sensors w')) /\
  measurements w' = measurements w /\
  users w' = users w /\
  outbox w' = outbox w.
Proof.
  intros F H0 H1. cbn zeta. run_m. rewrite H0. cbn. rewrite H1. cbn.
  unfold delete_first. rewrite F. repeat split.
  apply list_find_Some in F as (Hi & _). rewrite length_delete by eauto.
  apply lookup_lt_Some in Hi. lia.
Qed.

Lemma apply_set_twice (d : SensorData) (s : Sensor) :
  apply_set d (apply_set d s) = apply_set d s.
Proof.
  unfold apply_set. cbn.
  destruct (d_friendlyName d), (d_alertThreshold d), (d_lastAlertSent d);
    reflexivity.
Qed.

Lemma apply_set_new (d : SensorData) :
  apply_set d (new_sensor d) = new_sensor d.
Proof. unfold new_sensor. apply apply_set_twice. Qed.

(** The sensors after an upsert that went through. *)
Lemma config_run (caller : ObjectId) (body : ConfigBody) (w : World) :
  dbFault env (dbOps w) = false ->
  let d := sensorData_of body caller in
  post_api_sensors_config env caller body w =
  match list_find (fun s => hardwareId s = c_hardwareId body) (sensors w) with
  | Some (i, s) =>
      (Ok (mkResponse 200 (PSensor (apply_set d s))),
       mkWorld (<[i := apply_set d s]> (sensors w)) (measurements w) (users w)
               (outbox w) (console w) (S (dbOps w)) (netOps w) (clockReads w))
  | None =>
      (Ok (mkResponse 200 (PSensor (new_sensor d))),
       mkWorld (sensors w ++ [new_sensor d]) (measurements w) (users w)
               (outbox w) (console w) (S (dbOps w)) (netOps w) (clockReads w))
  end.
Proof.
  intros H0. cbn zeta. run_m. rewrite H0.
  destruct (list_find _ (sensors w)) as [[i s]|]; reflexivity.
Qed.

Lemma find_after_insert (hid : string) (l : list Sensor) i s s' :
  list_find (fun s => hardwareId s = hid) l = Some (i, s) ->
  hardwareId s' = hid ->
  list_find (fun s => hardwareId s = hid) (<[i := s']> l) = Some (i, s').
Proof.
  intros F E. apply list_find_Some in F as (Hi & _ & Hlt).
  apply list_find_Some. repeat split; [|exact E|].
  - apply list_lookup_insert_eq. eapply lookup_lt_Some, Hi.
  - intros j y Hy Hj. rewrite list_lookup_insert_ne in Hy by lia.
    exact (Hlt j y Hy Hj).
Qed.

Lemma find_after_append (hid : string) (l : list Sensor) s' :
  list_find (fun s => hardwareId s = hid) l = None ->
  hardwareId s' = hid ->
  list_find (fun s => hardwareId s = hid) (l ++ [s']) = Some (length l, s').
Proof.
  intros F E. apply list_find_None in F. rewrite Forall_forall in F.
  apply list_find_Some. repeat split; [|exact E|].
  - apply list_lookup_middle. reflexivity.
  - intros j y Hy Hj. rewrite lookup_app_l in Hy by exact Hj.
    apply F, list_elem_of_lookup. eauto.
Qed.

(** X19: What a configuration request leaves alone: measurements and users; the
    sensors at every other place of the collection; on an update, the name,
    the threshold and the last-alert stamp that the body does not carry.
    What the body says about owner and enabled is without effect. *)
Theorem config_frame (caller : ObjectId) (body : ConfigBody) (w : World) :
  dbFault env (dbOps w) = false ->
  let w' := (post_api_sensors_config env caller body w).2 in
  measurements w' = measurements w /\ users w' = users w /\
  post_api_sensors_config env caller body w
  = post_api_sensors_config env caller
      (mkConfigBody (c_hardwareId body) (c_friendlyName body)
                    (c_alertThreshold body) None None (c_lastAlertSent body)) w /\
  match list_find (fun s => hardwareId s = c_hardwareId body) (sensors w) with
  | Some (i, s) =>
      length (sensors w') = length (sensors w) /\
      (forall j, j <> i -> sensors w' !! j = sensors w !! j) /\
      exists s', sensors w' !! i = Some s' /\
        (c_friendlyName body = None -> friendlyName s' = friendlyName s) /\
        (c_alertThreshold body = None -> alertThreshold s' = alertThreshold s) /\
        (c_lastAlertSent body = None -> lastAlertSent s' = lastAlertSent s) /\
        (forall t, c_lastAlertSent body = Some t -> lastAlertSent s' = t)
  | None =>
      exists s', sensors w' = (sensors w ++ [s'])%list /\
                 hardwareId s' = c_hardwareId body
  end.
Proof.
  intros H0. cbn zeta.
  rewrite (config_run caller body w H0). cbn zeta.
  split; [|split; [|split]].
  - destruct (list_find _ (sensors w)) as [[i s]|]; reflexivity.
  - destruct (list_find _ (sensors w)) as [[i s]|]; reflexivity.
  - rewrite (config_run caller (mkConfigBody _ _ _ None None _) w H0).
    reflexivity.
  - destruct (list_find _ (sensors w)) as [[i s]|] eqn:F; cbn [snd sensors].
    + apply list_find_Some in F as (Hi & _ & _).
      split; [apply length_insert|]. split.
      * intros j Hj. apply list_lookup_insert_ne. congruence.
      * eexists. split.
        { apply list_lookup_insert_eq. eapply lookup_lt_Some, Hi. }
        unfold apply_set, sensorData_of. cbn.
        repeat split; try (intros ->; reflexivity).
        intros t ->. reflexivity.
    + eexists. split; reflexivity.
Qed.

(** X20: Configuring twice with the same body is configuring once: the second
    request leaves the sensors as the first left them and returns the same
    document. *)
Theorem config_idempotent (caller : ObjectId) (body : ConfigBody) (w : World) :
  dbFault env (dbOps w) = false ->
  dbFault env (S (dbOps w)) = false ->
  let w1 := (post_api_sensors_config env caller body w).2 in
  let w2 := (post_api_sensors_config env caller body w1).2 in
  sensors w2 = sensors w1 /\
  (post_api_sensors_config env caller body w1).1
  = (post_api_sensors_config env caller body w).1.
Proof.
  intros H0 H1. cbn zeta.
  rewrite (config_run caller body w H0). cbn zeta.
  set (d := sensorData_of body caller).
  destruct (list_find _ (sensors w)) as [[i s]|] eqn:F; cbn [fst snd].
  - match goal with |- context [post_api_sensors_config env caller body ?x] =>
      set (w1 := x) end.
    assert (F1 : list_find (fun s => hardwareId s = c_hardwareId body) (sensors w1)
                 = Some (i, apply_set d s))
      by (eapply find_after_insert; [exact F | reflexivity]).
    rewrite (config_run caller body w1 H1). cbn zeta. fold d. rewrite F1.
    cbn [fst snd sensors]. rewrite apply_set_twice. split; [|reflexivity].
    apply list_insert_id. apply list_find_Some in F1 as (Hi & _). exact Hi.
  - match goal with |- context [post_api_sensors_config env caller body ?x] =>
      set (w1 := x) end.
    assert (F1 : list_find (fun s => hardwareId s = c_hardwareId body) (sensors w1)
                 = Some (length (sensors w), new_sensor d))
      by (apply find_after_append; [exact F | reflexivity]).
    rewrite (config_run caller body w1 H1). cbn zeta. fold d. rewrite F1.
    cbn [fst snd sensors]. rewrite apply_set_new. split; [|reflexivity].
    apply list_insert_id. apply list_find_Some in F1 as (Hi & _). exact Hi.
Qed.

(** A storage failure during configuration is answered 500 "Error al
    guardar" and changes no collection. *)
Theorem config_failure_changes_nothing
    (caller : ObjectId) (body : ConfigBody) (w : World) :
  dbFault env (dbOps w) = true ->
  post_api_sensors_config env caller body w
  = (Ok (mkResponse 500 (PError "Error al guardar")), bump_db 1 w).
Proof. intros H0. run_m. now rewrite H0. Qed.

Lemma config_sensor_after (caller : ObjectId) (body : ConfigBody) (w : World) :
  dbFault env (dbOps w) = false ->
  let w' := (post_api_sensors_config env caller body w).2 in
  exists i s',
    sensors w' !! i = Some s' /\ hardwareId s' = c_hardwareId body /\
    owner s' = caller /\
    (NoDup (map hardwareId (sensors w)) ->
     forall j y, sensors w' !! j = Some y ->
                 hardwareId y = c_hardwareId body -> j = i).
Proof.
  intros H0. cbn zeta. rewrite (config_run caller body w H0). cbn zeta.
  set (d := sensorData_of body caller).
  destruct (list_find _ (sensors w)) as [[i s]|] eqn:F; cbn [snd sensors].
  - apply list_find_Some in F as (Hi & Hh & _).
    exists i, (apply_set d s).
    split; [apply list_lookup_insert_eq; eapply lookup_lt_Some, Hi|].
    split; [reflexivity|]. split; [reflexivity|].
    intros ND j y Hy Ey. destruct (decide (j = i)) as [|Nj]; [assumption|].
    rewrite list_lookup_insert_ne in Hy by congruence.
    eapply (NoDup_lookup _ j i (c_hardwareId body) ND);
      rewrite list_lookup_fmap.
    + rewrite Hy. cbn. congruence.
    + rewrite Hi. cbn. congruence.
  - exists (length (sensors w)), (new_sensor d).
    split; [apply list_lookup_middle; reflexivity|].
    split; [reflexivity|]. split; [reflexivity|].
    intros _ j y Hy Ey.
    destruct (decide (j < length (sensors w))%nat) as [Lt|Ge].
    + rewrite lookup_app_l in Hy by exact Lt.
      apply list_find_None in F. rewrite Forall_forall in F.
      exfalso. apply (F y); [apply list_elem_of_lookup; eauto | exact Ey].
    + apply lookup_lt_Some in Hy. rewrite length_app in Hy. cbn in Hy. lia.
Qed.

(** X21: Taking a sensor over: after a caller has configured a hardwareId, the
    history of that hardwareId is served to the caller, and, hardwareIds
    being unique in the collection, refused to everybody else, its previous
    owner included. *)
Theorem config_moves_history_access
    (caller other : ObjectId) (body : ConfigBody) (limit : option string)
    (w : World) :
  NoDup (map hardwareId (sensors w)) ->
  other <> caller ->
  (forall n, dbFault env n = false) ->
  let w' := (post_api_sensors_config env caller body w).2 in
  (exists l, (respond (get_api_history env caller (c_hardwareId body) limit) w').1
             = Some (mkResponse 200 (PDocs l))) /\
  (respond (get_api_history env other (c_hardwareId body) limit) w').1
  = Some (mkResponse 403 (PText "No autorizado")).
Proof.
  intros ND Hne NF. cbn zeta.
  destruct (config_sensor_after caller body w (NF _))
    as (i & s' & Hi & Hh & Ho & Uniq).
  specialize (Uniq ND).
  set (w1 := (post_api_sensors_config env caller body w).2) in *.
  clearbody w1. split.
  - run_m. rewrite NF.
    assert (Is : is_Some (list_find
              (fun s => hardwareId s = c_hardwareId body /\ owner s = caller)
              (sensors w1))).
    { eapply list_find_elem_of; [apply list_elem_of_lookup; eauto | auto]. }
    destruct Is as [[k x] ->]. cbn. rewrite NF. cbn. eauto.
  - run_m. rewrite NF.
    assert (N : list_find
              (fun s => hardwareId s = c_hardwareId body /\ owner s = other)
              (sensors w1) = None).
    { apply list_find_None, Forall_forall. intros y Hy [Ey Oy].
      apply list_elem_of_lookup in Hy as [j Hj].
      pose proof (Uniq j y Hj Ey) as ->. congruence. }
    rewrite N. reflexivity.
Qed.

End AdministrationMore.

(** * Properties of authentication and accounts *)
Section AccountsMore.
Context `{Crypto} (env : Env).

Lemma split_on_no_sep (sep : ascii) (s : string) :
  has_char sep s = false -> split_on sep s = [s].
Proof.
  induction s as [|c s IH]; cbn; [reflexivity|].
  intros E. apply orb_false_iff in E as [Ec Es].
  rewrite Ec, (IH Es). reflexivity.
Qed.

Lemma split_on_app (sep : ascii) (a b : string) :
  has_char sep a = false ->
  split_on sep (a ++ String sep b) = a :: split_on sep b.
Proof.
  induction a as [|c a IH]; intros E.
  - change (split_on sep (String sep b) = EmptyString :: split_on sep b).
    cbn. now rewrite Ascii.eqb_refl.
  - cbn in E. apply orb_false_iff in E as [Ec Ea].
    change (split_on sep (String c (a ++ String sep b))
            = String c a :: split_on sep b).
    cbn. rewrite Ec, (IH Ea). reflexivity.
Qed.

Lemma truthy_app_sep (a b : string) : Js.truthy_str (a ++ String " " b) = true.
Proof. destruct a; reflexivity. Qed.

(** The token of a header of two words is the second word. *)
Lemma bearer_token_second_word (scheme tok : string) :
  has_char " " scheme = false -> has_char " " tok = false ->
  bearer_token (Some (scheme ++ String " " tok)) = Some tok.
Proof.
  intros Es Et. unfold bearer_token.
  rewrite truthy_app_sep, split_on_app, split_on_no_sep by assumption.
  reflexivity.
Qed.

(** ... also when more words follow. *)
Lemma bearer_token_more_words (scheme tok rest : string) :
  has_char " " scheme = false -> has_char " " tok = false ->
  bearer_token (Some (scheme ++ String " " (tok ++ String " " rest))) = Some tok.
Proof.
  intros Es Et. unfold bearer_token.
  rewrite truthy_app_sep, !split_on_app by assumption.
  reflexivity.
Qed.

(** X22: Turned away at the door: without an authorization header, with a header
    of one word, or with an empty second word the answer is 401; with a
    second word that does not verify it is 403.  In each case the handler
    behind the middleware is not run and the world is what it was. *)
Theorem authentication_turns_away {R} (sendStatus : nat -> R)
    (next : JwtPayload -> M R) (w : World) :
  authenticateToken sendStatus None next w = (Ok (sendStatus 401%nat), w) /\
  (forall h, has_char " " h = false ->
     authenticateToken sendStatus (Some h) next w
     = (Ok (sendStatus 401%nat), w)) /\
  (forall scheme, has_char " " scheme = false ->
     authenticateToken sendStatus (Some (scheme ++ " ")) next w
     = (Ok (sendStatus 401%nat), w)) /\
  (forall scheme tok,
     has_char " " scheme = false -> has_char " " tok = false ->
     tok <> EmptyString -> jwt_verify tok = None ->
     authenticateToken sendStatus (Some (scheme ++ String " " tok)) next w
     = (Ok (sendStatus 403%nat), w)).
Proof.
  split; [reflexivity|]. split; [|split].
  - intros h E. unfold authenticateToken, bearer_token.
    destruct (Js.truthy_str h) eqn:T.
    + rewrite split_on_no_sep by exact E. reflexivity.
    + cbn. rewrite T. reflexivity.
  - intros scheme E. unfold authenticateToken.
    rewrite (bearer_token_second_word scheme EmptyString E eq_refl).
    reflexivity.
  - intros scheme tok Es Et Ne V. unfold authenticateToken.
    rewrite (bearer_token_second_word scheme tok Es Et). cbn.
    destruct tok; [contradiction|]. cbn. now rewrite V.
Qed.

(** X23: The first word of the header is not looked at: any scheme in front of
    a token does what "Bearer" does, and words after the token are
    ignored. *)
Theorem authentication_ignores_the_scheme {R} (sendStatus : nat -> R)
    (next : JwtPayload -> M R) (w : World) (scheme tok rest : string) :
  has_char " " scheme = false -> has_char " " tok = false ->
  authenticateToken sendStatus (Some (scheme ++ String " " tok)) next w
  = authenticateToken sendStatus (Some ("Bearer " ++ tok)) next w /\
  authenticateToken sendStatus
    (Some (scheme ++ String " " (tok ++ String " " rest))) next w
  = authenticateToken sendStatus (Some ("Bearer " ++ tok)) next w.
Proof.
  intros Es Et. unfold authenticateToken.
  rewrite (bearer_token_second_word scheme tok Es Et).
  rewrite (bearer_token_more_words scheme tok rest Es Et).
  change ("Bearer " ++ tok) with ("Bearer" ++ String " " tok).
  rewrite (bearer_token_second_word "Bearer" tok eq_refl Et).
  split; reflexivity.
Qed.

Ltac run_a :=
  unfold post_api_auth_login, get_api_auth_profile, put_api_auth_profile,
    save_profile, User_findOne_username, User_findById, with_users,
    try_catch, throw, now, db, mbind, mret, M_bind, M_ret;
  cbn [fst snd sensors measurements users outbox console dbOps netOps
       clockReads a_status a_payload l_username l_password].

Lemma list_find_insert_found {A} (P : A -> Prop) `{forall x, Decision (P x)}
    (l : list A) i x x' :
  list_find P l = Some (i, x) -> P x' ->
  list_find P (<[i := x']> l) = Some (i, x').
Proof.
  intros F Px. apply list_find_Some in F as (Hi & _ & Hlt).
  apply list_find_Some. repeat split; [|exact Px|].
  - apply list_lookup_insert_eq. eapply lookup_lt_Some, Hi.
  - intros j y Hy Hj. rewrite list_lookup_insert_ne in Hy by lia.
    exact (Hlt j y Hy Hj).
Qed.

(** X24: A login is refused in one and the same way, 401 "Credenciales
    inválidas", whether no user has the username or the password does not
    match; no token is made and nothing is written. *)
Theorem login_refusals_look_alike (body : LoginBody) (w : World) :
  dbFault env (dbOps w) = false ->
  (forall u, u ∈ users w -> username u <> l_username body) \/
  (exists i u,
     list_find (fun u => username u = l_username body) (users w) = Some (i, u) /\
     bcrypt_compare (l_password body) (password u) = false) ->
  post_api_auth_login env body w
  = (Ok (mkAccount 401 (AMessage "Credenciales inválidas")), bump_db 1 w).
Proof.
  intros H0 [Hno | (i & u & F & B)]; run_a; rewrite H0.
  - assert (N : list_find (fun u => username u = l_username body) (users w) = None).
    { apply list_find_None, Forall_forall. exact Hno. }
    now rewrite N.
  - rewrite F. cbn. now rewrite B.
Qed.

(** X25: Login, then the door: the token a successful login returns, sent back
    as "Bearer <token>", makes the middleware run the handler with the id
    and the username of the user who logged in (for a token the verifier
    accepts, as it does the ones it signed). *)
Theorem login_token_opens_the_door {R} (sendStatus : nat -> R)
    (next : JwtPayload -> M R) (body : LoginBody) (w : World) i u :
  list_find (fun u => username u = l_username body) (users w) = Some (i, u) ->
  bcrypt_compare (l_password body) (password u) = true ->
  dbFault env (dbOps w) = false ->
  let p := mkJwt (user_id u) (username u) in
  let token := jwt_sign p (clock env (clockReads w)) in
  jwt_verify token = Some p ->
  has_char " " token = false ->
  token <> EmptyString ->
  (post_api_auth_login env body w).1
  = Ok (mkAccount 200 (AToken token (username u))) /\
  same_store w (post_api_auth_login env body w).2 /\
  forall w2, authenticateToken sendStatus (Some ("Bearer " ++ token)) next w2
             = next p w2.
Proof.
  intros F B H0 p token V Sp Ne. split; [|split].
  - run_a. rewrite H0, F. cbn. now rewrite B.
  - run_a. rewrite H0, F. cbn. rewrite B. repeat split.
  - intros w2. unfold authenticateToken.
    change ("Bearer " ++ token) with ("Bearer" ++ String " " token).
    rewrite (bearer_token_second_word "Bearer" token eq_refl Sp).
    assert (T : Js.truthy_str token = true).
    { clearbody token. destruct token; [contradiction | reflexivity]. }
    cbn [truthy_opt mbind option_bind]. rewrite T, V. reflexivity.
Qed.

(** X26: A password change with a wrong old password is answered 401
    "Contraseña incorrecta" and writes nothing: the contact sent along in
    the same request is not stored either. *)
Theorem wrong_old_password_changes_nothing
    (caller : ObjectId) (body : ProfileBody) (w : World) i u old :
  list_find (fun u => user_id u = caller) (users w) = Some (i, u) ->
  truthy_opt (p_newPassword body) = true ->
  p_oldPassword body = Some old ->
  bcrypt_compare old (password u) = false ->
  dbFault env (dbOps w) = false ->
  put_api_auth_profile env caller body w
  = (Ok (mkAccount 401 (AMessage "Contraseña incorrecta")), bump_db 1 w).
Proof.
  intros F T O B H0. run_a. rewrite H0, F. cbn. rewrite T, O. cbn.
  now rewrite B.
Qed.

(** X27: What a profile update can touch: no sensor and no measurement; no id
    and no username; no other user's document; the password only when a new
    one is sent, the contact only when a non-empty one is sent (so a
    contact, once set, cannot be cleared through this route). *)
Theorem profile_update_frame (caller : ObjectId) (body : ProfileBody) (w : World) :
  let w' := (put_api_auth_profile env caller body w).2 in
  sensors w' = sensors w /\ measurements w' = measurements w /\
  length (users w') = length (users w) /\
  forall j u0, users w !! j = Some u0 ->
    exists u1, users w' !! j = Some u1 /\
      user_id u1 = user_id u0 /\ username u1 = username u0 /\
      (user_id u0 <> caller -> u1 = u0) /\
      (truthy_opt (p_newPassword body) = false -> password u1 = password u0) /\
      (truthy_opt (p_whatsapp body) = false -> whatsapp u1 = whatsapp u0).
Proof.
  cbn zeta.
  assert (Same : forall j u0, users w !! j = Some u0 ->
    exists u1, users w !! j = Some u1 /\
      user_id u1 = user_id u0 /\ username u1 = username u0 /\
      (user_id u0 <> caller -> u1 = u0) /\
      (truthy_opt (p_newPassword body) = false -> password u1 = password u0) /\
      (truthy_opt (p_whatsapp body) = false -> whatsapp u1 = whatsapp u0)).
  { intros j u0 Hj. exists u0. repeat split; auto. }
  assert (Saved : forall i u u',
    users w !! i = Some u -> user_id u = caller ->
    user_id u' = user_id u -> username u' = username u ->
    (truthy_opt (p_newPassword body) = false -> password u' = password u) ->
    (truthy_opt (p_whatsapp body) = false -> whatsapp u' = whatsapp u) ->
    forall j u0, users w !! j = Some u0 ->
    exists u1, <[i := u']> (users w) !! j = Some u1 /\
      user_id u1 = user_id u0 /\ username u1 = username u0 /\
      (user_id u0 <> caller -> u1 = u0) /\
      (truthy_opt (p_newPassword body) = false -> password u1 = password u0) /\
      (truthy_opt (p_whatsapp body) = false -> whatsapp u1 = whatsapp u0)).
  { intros i u u' Hi Hc Eid En Ep Ew j u0 Hj.
    destruct (decide (i = j)) as [->|Nij].
    - assert (u0 = u) as -> by congruence. exists u'.
      split; [apply list_lookup_insert_eq; eapply lookup_lt_Some, Hi|].
      repeat split; auto. intros N. contradiction.
    - exists u0. rewrite list_lookup_insert_ne by exact Nij.
      repeat split; auto. }
  run_a.
  destruct (dbFault env (dbOps w)); [cbn; auto|].
  destruct (list_find _ (users w)) as [[i u]|] eqn:F; [|cbn; auto].
  apply list_find_Some in F as (Hi & Hc & _). cbn.
  destruct (truthy_opt (p_newPassword body)) eqn:Tn.
  - destruct (p_oldPassword body) as [old|]; [|cbn; auto].
    destruct (bcrypt_compare old (password u)); [|cbn; auto].
    cbn. destruct (dbFault env (S (dbOps w))); [cbn; auto|]. cbn.
    split; [reflexivity|]. split; [reflexivity|].
    split; [apply length_insert|].
    apply (Saved i u); auto; try discriminate;
      destruct (truthy_opt (p_whatsapp body)); try reflexivity;
      intros; discriminate.
  - cbn. destruct (dbFault env (S (dbOps w))); [cbn; auto|]. cbn.
    split; [reflexivity|]. split; [reflexivity|].
    split; [apply length_insert|].
    apply (Saved i u); auto;
      destruct (truthy_opt (p_whatsapp body)); try reflexivity;
      intros; discriminate.
Qed.

(** X28: Change the password, then log in: after a change that went through,
    the new password logs the user in (stored as the schema stores it and
    compared as bcrypt compares), and an old password that no longer
    matches is refused. *)
Theorem new_password_logs_in
    (caller : ObjectId) (body : ProfileBody) (w : World) i u old np :
  list_find (fun x => user_id x = caller) (users w) = Some (i, u) ->
  list_find (fun x => username x = username u) (users w) = Some (i, u) ->
  p_newPassword body = Some np -> Js.truthy_str np = true ->
  p_oldPassword body = Some old ->
  bcrypt_compare old (password u) = true ->
  bcrypt_compare np (password_to_store np) = true ->
  (forall n, dbFault env n = false) ->
  let w1 := (put_api_auth_profile env caller body w).2 in
  (put_api_auth_profile env caller body w).1
  = Ok (mkAccount 200 (AMessage "Perfil actualizado")) /\
  (exists token,
     (post_api_auth_login env (mkLoginBody (username u) np) w1).1
     = Ok (mkAccount 200 (AToken token (username u)))) /\
  (bcrypt_compare old (password_to_store np) = false ->
   (post_api_auth_login env (mkLoginBody (username u) old) w1).1
   = Ok (mkAccount 401 (AMessage "Credenciales inválidas"))).
Proof.
  intros Fi Fn En Tn Eo Bo Bn NF. cbn zeta.
  assert (Run : exists u',
    put_api_auth_profile env caller body w
    = (Ok (mkAccount 200 (AMessage "Perfil actualizado")),
       mkWorld (sensors w) (measurements w) (<[i := u']> (users w)) (outbox w)
               (console w) (2 + dbOps w) (netOps w) (clockReads w)) /\
    username u' = username u /\ password u' = password_to_store np).
  { run_a. rewrite NF, Fi. cbn. rewrite En, Eo. cbn. rewrite Tn, Bo. cbn.
    rewrite NF. cbn. eexists. split; [reflexivity|].
    destruct (truthy_opt (p_whatsapp body)); split; reflexivity. }
  destruct Run as (u' & -> & Eu & Ep). cbn [fst snd].
  split; [reflexivity|].
  match goal with |- context [post_api_auth_login env _ ?x] => set (w1 := x) end.
  assert (F1 : list_find (fun x => username x = username u) (users w1)
               = Some (i, u')).
  { unfold w1. cbn [users].
    eapply list_find_insert_found; [exact Fn | exact Eu]. }
  split.
  - run_a. rewrite NF, F1. cbn. rewrite Ep, Bn. rewrite Eu. eauto.
  - intros Bold. run_a. rewrite NF, F1. cbn. rewrite Ep, Bold. reflexivity.
Qed.

(** X29: Set a contact, then read it back: after a profile update with a
    non-empty contact that went through, the profile route shows that
    contact with the id and username unchanged, and alerts for a sensor of
    that user are addressed to it. *)
Theorem saved_contact_is_used
    (caller : ObjectId) (body : ProfileBody) (w : World) i u c (s : Sensor) :
  list_find (fun x => user_id x = caller) (users w) = Some (i, u) ->
  p_whatsapp body = Some c -> Js.truthy_str c = true ->
  truthy_opt (p_newPassword body) = false ->
  owner s = caller ->
  (forall n, dbFault env n = false) ->
  let w1 := (put_api_auth_profile env caller body w).2 in
  (get_api_auth_profile env caller w1).1
  = Ok (mkAccount 200 (AProfile (Some (caller, username u, Some c)))) /\
  contact_of w1 s = Some c.
Proof.
  intros Fi Ew Tc Tn Os NF. cbn zeta.
  assert (Run : put_api_auth_profile env caller body w
    = (Ok (mkAccount 200 (AMessage "Perfil actualizado")),
       mkWorld (sensors w) (measurements w)
               (<[i := set_whatsapp c u]> (users w)) (outbox w)
               (console w) (2 + dbOps w) (netOps w) (clockReads w))).
  { run_a. rewrite NF, Fi. cbn. rewrite Tn. cbn. rewrite NF. cbn.
    rewrite Ew. cbn. rewrite Tc. reflexivity. }
  rewrite Run. cbn [snd].
  match goal with |- context [get_api_auth_profile env caller ?x] => set (w1 := x) end.
  assert (F1 : list_find (fun x => user_id x = caller) (users w1)
               = Some (i, set_whatsapp c u)).
  { unfold w1. cbn [users].
    eapply list_find_insert_found; [exact Fi|].
    apply list_find_Some in Fi as (_ & E & _). exact E. }
  apply list_find_Some in Fi as (_ & Eid & _).
  split.
  - run_a. rewrite NF, F1. cbn. now rewrite Eid.
  - unfold contact_of. rewrite Os, F1. reflexivity.
Qed.

End AccountsMore.

(** * Properties of the latest-readings route *)
Section LatestMore.
Context (env : Env).

Lemma time_le_total (a b : option Z) : time_le a b = false -> time_le b a = true.
Proof.
  destruct a as [x|], b as [y|]; cbn; try discriminate; try reflexivity.
  intros E. apply Z.leb_gt in E. apply Z.leb_le. lia.
Qed.

Lemma time_le_trans (a b c : option Z) :
  time_le a b = true -> time_le b c = true -> time_le a c = true.
Proof.
  destruct a as [x|], b as [y|], c as [z|]; cbn; try discriminate; try reflexivity.
  rewrite !Z.leb_le. lia.
Qed.

Lemma insert_row_perm (r : JoinedRow) (l : list JoinedRow) :
  insert_row r l ≡ₚ r :: l.
Proof.
  induction l as [|x l IH]; cbn; [reflexivity|].
  destruct (time_le _ _); [reflexivity|].
  rewrite IH. apply Permutation_swap.
Qed.

Lemma sort_rows_perm (l : list JoinedRow) : sort_rows l ≡ₚ l.
Proof.
  induction l as [|x l IH]; cbn; [reflexivity|].
  fold (sort_rows l). rewrite insert_row_perm, IH. reflexivity.
Qed.

Lemma insert_row_sorted (r : JoinedRow) (l : list JoinedRow) :
  StronglySorted newer_row l -> StronglySorted newer_row (insert_row r l).
Proof.
  induction 1 as [|x l S IH F]; cbn; [repeat constructor|].
  destruct (time_le (row_time x) (row_time r)) eqn:E.
  - constructor; [constructor; assumption|].
    constructor; [exact E|].
    eapply Forall_impl; [exact F|]. unfold newer_row. cbn.
    intros y Hy. exact (time_le_trans _ _ _ Hy E).
  - constructor; [exact IH|].
    rewrite insert_row_perm. constructor; [|exact F].
    exact (time_le_total _ _ E).
Qed.

Lemma sort_rows_sorted (l : list JoinedRow) :
  StronglySorted newer_row (sort_rows l).
Proof.
  induction l as [|x l IH]; cbn; [constructor|].
  apply insert_row_sorted, IH.
Qed.

(** A row of the grouped result is the first row of its hardwareId. *)
Lemma group_first_is_first (seen : list string) (rows : list JoinedRow) r :
  r ∈ group_first seen rows ->
  (row_id r ∉ seen) /\
  exists pre post, rows = (pre ++ r :: post)%list /\
                   forall x, x ∈ pre -> row_id x <> row_id r.
Proof.
  revert seen. induction rows as [|r0 rest IH]; intros seen Hr; cbn in Hr.
  { now apply elem_of_nil in Hr. }
  destruct (decide (row_id r0 ∈ seen)) as [In|Out].
  - destruct (IH seen Hr) as (Ns & pre & post & -> & Hpre).
    split; [exact Ns|]. exists (r0 :: pre), post. split; [reflexivity|].
    intros x Hx. apply elem_of_cons in Hx as [-> | Hx]; [|auto].
    intros E. apply Ns. now rewrite <- E.
  - apply elem_of_cons in Hr as [-> | Hr].
    + split; [exact Out|]. exists [], rest. split; [reflexivity|].
      intros x Hx. now apply elem_of_nil in Hx.
    + destruct (IH _ Hr) as (Ns & pre & post & -> & Hpre).
      apply not_elem_of_cons in Ns as [Ne Ns].
      split; [exact Ns|]. exists (r0 :: pre), post. split; [reflexivity|].
      intros x Hx. apply elem_of_cons in Hx as [-> | Hx]; [congruence | auto].
Qed.

(** Every hardwareId among the rows has its group. *)
Lemma group_first_covers (seen : list string) (rows : list JoinedRow) x :
  x ∈ rows -> row_id x ∉ seen ->
  exists r, r ∈ group_first seen rows /\ row_id r = row_id x.
Proof.
  revert seen. induction rows as [|r0 rest IH]; intros seen Hx Ns.
  { now apply elem_of_nil in Hx. }
  cbn. destruct (decide (row_id r0 ∈ seen)) as [In|Out].
  - apply elem_of_cons in Hx as [-> | Hx]; [contradiction|].
    exact (IH seen Hx Ns).
  - destruct (decide (row_id x = row_id r0)) as [E|Ne].
    + exists r0. split; [left | congruence].
    + apply elem_of_cons in Hx as [-> | Hx]; [congruence|].
      destruct (IH (row_id r0 :: seen) Hx) as (r & Hr & Er).
      { apply not_elem_of_cons. auto. }
      exists r. split; [right; exact Hr | exact Er].
Qed.

Lemma group_first_nodup (seen : list string) (rows : list JoinedRow) :
  NoDup (map row_id (group_first seen rows)).
Proof.
  revert seen. induction rows as [|r0 rest IH]; intros seen; cbn.
  { constructor. }
  destruct (decide (row_id r0 ∈ seen)); [apply IH|].
  cbn. apply NoDup_cons. split; [|apply IH].
  intros Hin. apply list_elem_of_fmap in Hin as (r & E & Hr).
  apply group_first_is_first in Hr as (Ns & _).
  apply Ns. rewrite E. left.
Qed.

Lemma unwound_row (ms : list Measurement) (ss : list Sensor) (r : JoinedRow) :
  r ∈ flat_map (lookup_unwind ms) ss <->
  r.1 ∈ ss /\
  match r.2 with
  | None => of_sensor (hardwareId r.1) ms = []
  | Some m => m ∈ of_sensor (hardwareId r.1) ms
  end.
Proof.
  rewrite list_elem_of_In, in_flat_map. split.
  - intros (s & Hs & Hr). apply list_elem_of_In in Hs, Hr.
    unfold lookup_unwind in Hr.
    destruct (of_sensor (hardwareId s) ms) as [|m0 l] eqn:E.
    + apply list_elem_of_singleton in Hr as ->. cbn. auto.
    + apply list_elem_of_fmap in Hr as (m & -> & Hm). cbn.
      split; [exact Hs|]. now rewrite E.
  - destruct r as [s o]. cbn. intros (Hs & Ho). exists s.
    split; [now apply list_elem_of_In|]. apply list_elem_of_In.
    unfold lookup_unwind. destruct o as [m|].
    + destruct (of_sensor (hardwareId s) ms) as [|m0 l] eqn:E.
      { now apply elem_of_nil in Ho. }
      apply list_elem_of_fmap. eauto.
    + rewrite Ho. left.
Qed.

Lemma NoDup_fmap_eq {A B} (f : A -> B) (l : list A) x y :
  NoDup (map f l) -> x ∈ l -> y ∈ l -> f x = f y -> x = y.
Proof.
  intros ND Hx Hy E.
  apply list_elem_of_lookup in Hx as [i Hi], Hy as [j Hj].
  assert (i = j).
  { eapply (NoDup_lookup _ i j (f x) ND); rewrite list_lookup_fmap.
    - now rewrite Hi.
    - rewrite Hj. cbn. congruence. }
  subst. congruence.
Qed.

(** X30: The latest-readings route, for a caller whose enabled sensors have
    distinct hardwareIds: one document for each of them and no other, with
    the sensor's name and threshold, and with the temperature, voltage and
    time of one of its stored measurements than which none is newer; the
    three are null for a sensor without measurements. *)
Theorem latest_has_the_newest_of_each_sensor (caller : ObjectId) (w : World) :
  let ss := filter (fun s => owner s = caller /\ enabled s = true) (sensors w) in
  NoDup (map hardwareId ss) ->
  dbFault env (dbOps w) = false ->
  exists data,
    get_api_latest env caller w = (Ok (200%nat, LRows data), bump_db 1 w) /\
    NoDup (map r_id data) /\
    (forall row, row ∈ data -> exists s, s ∈ ss /\ r_id row = hardwareId s) /\
    forall s, s ∈ ss ->
      exists row, row ∈ data /\
        r_id row = hardwareId s /\
        r_friendlyName row = friendlyName s /\
        r_alertThreshold row = alertThreshold s /\
        ((of_sensor (hardwareId s) (measurements w) = [] /\
          r_temperatureC row = None /\ r_voltageV row = None /\
          r_timestamp row = None) \/
         (exists m, m ∈ measurements w /\ sensorId m = hardwareId s /\
            (forall x, x ∈ measurements w -> sensorId x = hardwareId s ->
                       timestamp x <= timestamp m) /\
            r_temperatureC row = Some (temperatureC m) /\
            r_voltageV row = Some (voltageV m) /\
            r_timestamp row = Some (timestamp m))).
Proof.
  intros ss ND H0.
  exists (aggregate_latest caller w). split.
  { unfold get_api_latest, try_catch, db, mbind, M_bind. now rewrite H0. }
  unfold aggregate_latest. fold ss.
  set (rows0 := flat_map (lookup_unwind (measurements w)) ss).
  set (rows := sort_rows rows0).
  assert (P : forall r, r ∈ rows <-> r ∈ rows0).
  { intros r. unfold rows. now rewrite sort_rows_perm. }
  pose proof (sort_rows_sorted rows0) as S. fold rows in S.
  split; [|split].
  - replace (map r_id (map latest_row (group_first [] rows)))
      with (map row_id (group_first [] rows)); [apply group_first_nodup|].
    rewrite map_map. reflexivity.
  - intros row Hrow. apply list_elem_of_fmap in Hrow as (r & -> & Hr).
    apply group_first_is_first in Hr as (_ & pre & post & E & _).
    assert (Hin : r ∈ rows) by (rewrite E; apply elem_of_app; right; left).
    apply P in Hin. apply unwound_row in Hin as (Hs & _). exists r.1. auto.
  - intros s Hs.
    (* some row of [s] is among the rows *)
    assert (Hx : exists o, (s, o) ∈ rows).
    { destruct (of_sensor (hardwareId s) (measurements w)) as [|m0 l] eqn:E.
      - exists None. apply P, unwound_row. cbn. auto.
      - exists (Some m0). apply P, unwound_row. cbn. split; [exact Hs|].
        rewrite E. left. }
    destruct Hx as (o0 & Hx).
    destruct (group_first_covers [] rows (s, o0) Hx) as (r & Hr & Er).
    { apply not_elem_of_nil. }
    pose proof Hr as Hg.
    apply group_first_is_first in Hr as (_ & pre & post & E & Hpre).
    assert (Hin : r ∈ rows) by (rewrite E; apply elem_of_app; right; left).
    pose proof Hin as Hin0. apply P in Hin0.
    apply unwound_row in Hin0 as (Hs1 & Ho).
    assert (Es : r.1 = s) by exact (NoDup_fmap_eq hardwareId ss _ _ ND Hs1 Hs Er).
    exists (latest_row r). split; [apply list_elem_of_fmap; eauto|].
    destruct r as [s1 o]. cbn in Es. subst s1. cbn in Ho.
    split; [reflexivity|]. split; [reflexivity|]. split; [reflexivity|].
    destruct o as [m|]; [right | left; cbn; auto].
    apply list_elem_of_filter in Ho as [Em Hm].
    exists m. split; [exact Hm|]. split; [exact Em|].
    split; [|cbn; auto].
    intros x Hxm Ex.
    assert (Hrow : (s, Some x) ∈ rows).
    { apply P, unwound_row. cbn. split; [exact Hs|].
      apply list_elem_of_filter. auto. }
    rewrite E in Hrow. apply elem_of_app in Hrow as [Hrow | Hrow].
    { exfalso. exact (Hpre _ Hrow eq_refl). }
    apply elem_of_cons in Hrow as [Eq | Hrow].
    { injection Eq as ->. lia. }
    rewrite E in S. apply StronglySorted_app_1_r in S.
    apply StronglySorted_cons in S as [F _]. rewrite Forall_forall in F.
    specialize (F _ Hrow). unfold newer_row in F. cbn in F.
    now apply Z.leb_le in F.
Qed.

(** A storage failure of the aggregation is answered 500 "Error". *)
Lemma latest_failure (caller : ObjectId) (w : World) :
  dbFault env (dbOps w) = true ->
  get_api_latest env caller w = (Ok (500%nat, LText "Error"), bump_db 1 w).
Proof.
  intros H0. unfold get_api_latest, try_catch, db, mbind, M_bind.
  now rewrite H0.
Qed.

End LatestMore.

(** * The handlers on the shop *)
Module Examples.
Import Demo.

(** C2: with [ALERT_COOLDOWN=abc] the window is NaN; two hours after the
    last alert the reading of 9 against a threshold of 5 is stored and
    answered OK, but no alert is posted; with the variable unset the same
    request posts the alert (the default window is 30 minutes). *)
Theorem nonnumeric_cooldown_blocks_alert :
  cooldownMs (env_ok (Some "abc") two_hours) = Js.NaN /\
  (post_api_data (env_ok (Some "abc") two_hours) hot shop).1
  = Ok (mkResponse 200 (PText "OK")) /\
  dispatched shop (post_api_data (env_ok (Some "abc") two_hours) hot shop).2
  = [] /\
  console (post_api_data (env_ok (Some "abc") two_hours) hot shop).2
  = [LogCooldown "Freezer"] /\
  dispatched shop (post_api_data (env_ok None two_hours) hot shop).2
  = [(alert_of hot freezer "5491100000000", true)].
Proof. vm_compute. repeat split. Qed.

(** C6: the second user, who does not own HELADERA-01, deletes it: the
    sensor stays, its three measurements are gone. *)
Theorem stranger_delete_drops_measurements :
  let w' := (delete_api_sensors (env_ok None 0) 2%N "HELADERA-01" shop).2 in
  sensors w' = sensors shop /\
  length (of_sensor "HELADERA-01" (measurements shop)) = 3%nat /\
  measurements w' = [].
Proof. vm_compute. repeat split. Qed.

(** C5 fails on an event without [data], the body [{}]: the answer is
    500. *)
Lemma webhook_without_data_answers_500 :
  envelope (JObj []) = mkWebhookBody None /\
  (post_api_webhook_json (env_ok None 0) (JObj []) shop).1
  = Ok (mkResponse 500 PStatusOnly) /\
  (post_api_webhook_json (env_ok None 0) (JObj []) shop).1
  <> Ok (mkResponse 200 PStatusOnly).
Proof. split; [reflexivity|]. split; [reflexivity | discriminate]. Qed.

(** ... and so it is on a message whose text is the number 5. *)
Example webhook_with_a_number_for_text_answers_500 :
  (post_api_webhook_json (env_ok None 0)
     (json_message "5491100000000@s.whatsapp.net" (JNum (Js.of_Z 5))) shop).1
  = Ok (mkResponse 500 PStatusOnly).
Proof. reflexivity. Qed.

(** Numbers are doubles: a temperature written with seventeen digits is
    the double 5, a window of 8.2 minutes is just short of 492000
    milliseconds, a literal beyond the largest double is Infinity; and a
    no-break space is white space, for [Number] and for [trim]. *)
Example numbers_are_doubles :
  Js.StringToNumber "5.0000000000000001" = Js.of_Z 5 /\
  cooldownMs (env_ok (Some "8.2") 0)
  = Js.Fin (8452495638527999 # 17179869184) /\
  Js.lt (cooldownMs (env_ok (Some "8.2") 0)) (Js.of_Z 492000) = true /\
  Js.StringToNumber "1e400" = Js.PosInf /\
  Js.StringToNumber (Js.nbsp ++ "9") = Js.of_Z 9 /\
  Js.trim ("estado" ++ Js.nbsp) = "estado".
Proof. vm_compute. repeat split. Qed.

(** C1 fails on a hot reading that carries no voltage: the freezer is
    configured, its owner has a contact, 9 is above the threshold 5 and
    the last alert is two hours old, yet nothing is posted: the measurement
    fails validation and the answer is 500. *)
Lemma hot_reading_without_voltage_posts_nothing :
  let env := env_ok None two_hours in
  let w' := (post_api_data env hot_without_voltage shop).2 in
  configured shop "HELADERA-01" 0 freezer /\
  contact_of shop freezer = Some "5491100000000" /\
  shouldAlert (Js.ToNumber (b_tempC hot_without_voltage))
              (alertThreshold freezer) (lastAlertSent freezer)
              (clock env 1) (cooldownMs env) = true /\
  (post_api_data env hot_without_voltage shop).1
  = Ok (mkResponse 500 (PText "Error")) /\
  dispatched shop w' = [] /\
  measurements w' = measurements shop.
Proof. vm_compute. repeat split. Qed.

(** C3 fails on a hot reading whose voltage is a word: known sensor,
    temperature above the threshold, cooldown over, owner with a contact,
    and yet no alert is posted and the freezer keeps its old stamp. *)
Lemma hot_reading_with_words_is_not_stamped :
  let env := env_ok None two_hours in
  let w' := (post_api_data env hot_with_words shop).2 in
  configured shop "HELADERA-01" 0 freezer /\
  contact_of shop freezer = Some "5491100000000" /\
  Js.gt (Js.ToNumber (b_tempC hot_with_words)) (alertThreshold freezer) = true /\
  cooldown_over env (lastAlertSent freezer) (clock env 1) = true /\
  dispatched shop w' = [] /\
  sensors w' = [freezer] /\
  lastAlertSent freezer = Some 0 /\
  (post_api_data env hot_with_words shop).1
  = Ok (mkResponse 500 (PText "Error")).
Proof. vm_compute. repeat split. Qed.

(** C4 fails on two ingests that overlap.  The first handler reads the
    clock and posts its alert; before its write of lastAlertSent the second
    request is handled from start to end, reading the clock later and
    storing that instant; the first handler's write then puts the earlier
    instant back.  The clock only goes forward and the window is the
    default one. *)
Lemma overlapping_ingests_move_lastAlertSent_back :
  let env := env_ok None two_hours in
  (forall n, clock env n <= clock env (S n)) /\
  let '(tasks1, w1) :=
    run_tasks env [0; 0; 0; 1; 1; 1; 1]%nat [Started hot; Started hot] shop in
  let '(tasks2, w2) := run_tasks env [0%nat] tasks1 w1 in
  Js.lt (cooldownMs env) (Js.of_Z 0) = false /\
  lastAlertSent <$> sensors shop !! 0%nat = Some (Some 0) /\
  tasks1 = [Sent 0 7200001; Finished (mkResponse 200 (PText "OK"))] /\
  lastAlertSent <$> sensors w1 !! 0%nat = Some (Some 7200003) /\
  tasks2 = [Finished (mkResponse 200 (PText "OK"));
            Finished (mkResponse 200 (PText "OK"))] /\
  lastAlertSent <$> sensors w2 !! 0%nat = Some (Some 7200001) /\
  length (outbox w2) = 2%nat.
Proof.
  split; [intros n; unfold env_ok; cbn [clock]; lia|].
  vm_compute. repeat split.
Qed.

(** Two hours after the last alert, the hot reading posts one alert. *)
Lemma alert_decision_strict_on_shop :
  dispatched shop (post_api_data (env_ok None two_hours) hot shop).2
  = [(alert_of hot freezer "5491100000000", true)].
Proof.
  exact (proj1 (alert_decision_strict (env_ok None two_hours) hot shop 0
                  freezer "5491100000000"
                  eq_refl eq_refl eq_refl eq_refl eq_refl)).
Defined.

(** ... and the freezer is stamped with the time the handler read, one
    millisecond after the time of the measurement. *)
Lemma alert_sent_and_stamped_on_shop :
  sensors (post_api_data (env_ok None two_hours) hot shop).2 !! 0%nat
  = Some (mkSensor "HELADERA-01" "Freezer" (Js.of_Z 5) 1%N true
                   (Some 7200001)).
Proof.
  exact (proj1 (proj2 (proj2 (proj2
    (alert_sent_and_stamped (env_ok None two_hours) hot shop 0 freezer
       "5491100000000" eq_refl eq_refl eq_refl eq_refl eq_refl
       (or_intror (ex_intro _ 0 (conj eq_refl eq_refl)))
       eq_refl eq_refl))) eq_refl)).
Defined.

(** Two hot readings, one after the other: the stamp of the freezer does
    not go back. *)
Lemma lastAlertSent_never_decreases_on_shop :
  exists t1,
    sensors (ingest_all (env_ok None two_hours) [hot; hot] shop) !! 0%nat
    = Some (mkSensor "HELADERA-01" "Freezer" (Js.of_Z 5) 1%N true (Some t1))
    /\ 0 <= t1.
Proof.
  exact (lastAlertSent_never_decreases (env_ok None two_hours) [hot; hot] shop
           0 freezer 0 eq_refl eq_refl eq_refl).
Defined.

(** The hardwareId is matched with its case: heladera-01 is not configured. *)
Lemma ingest_unknown_sensor_on_shop :
  let body := mkDataBody "heladera-01" (Js.VNum (Js.of_Z 9)) Js.VUndefined in
  measurements (post_api_data (env_ok None 0) body shop).2 = measurements shop /\
  (post_api_data (env_ok None 0) body shop).1
  = Ok (mkResponse 404 (PText "Sensor no configurado")).
Proof.
  intros body.
  assert (Hno : forall s, s ∈ sensors shop -> hardwareId s <> b_sensorId body).
  { intros s Hs. apply list_elem_of_singleton in Hs as ->. discriminate. }
  pose proof (ingest_unknown_sensor_discarded (env_ok None 0) body shop Hno)
    as (Hm & _ & _ & _ & _ & Hr).
  exact (conj Hm (Hr eq_refl)).
Defined.


(** A greeting from a number nobody registered is acknowledged, and so is
    one sent while the chat platform is down. *)
Lemma webhook_answers_on_shop :
  (post_api_webhook_json (env_ok None 0)
     (json_message "5490000000000@s.whatsapp.net" (JStr "hola")) shop).1
  = Ok ack.
Proof.
  apply (webhook_answers_200_or_500 (env_ok None 0)
           (json_message "5490000000000@s.whatsapp.net" (JStr "hola")) shop).
  - intros n. reflexivity.
  - eexists. split; [reflexivity|]. split; [discriminate|]. intros _. split.
    + intros v E. injection E as <-. eauto.
    + eexists _, _. split; reflexivity.
  - intros E. discriminate E.
Defined.


(** "historial free" finds the freezer and charts its readings by time. *)
Example historial_chart_on_shop :
  dispatched shop
    (post_api_webhook_whatsapp (env_ok None 0)
       (text_message "5491100000000@s.whatsapp.net" "historial free") shop).2
  = [(SendImage "5491100000000"
        (QuickChart_getUrl
           (mkChart ["1000"; "2000"; "3000"]
                    [Js.of_Z 3; Js.of_Z 6; Js.of_Z 4]))
        "📊 Historial: Freezer", true)].
Proof. vm_compute. reflexivity. Qed.

(** The second user takes over the first user's freezer by configuring it. *)
Lemma config_takes_ownership_on_shop :
  let body := mkConfigBody "HELADERA-01" (Some "Mine") None None None None in
  exists i s',
    list_find (fun s => hardwareId s = "HELADERA-01")
      (sensors (post_api_sensors_config (env_ok None 0) 2%N body shop).2)
    = Some (i, s') /\ owner s' = 2%N /\ enabled s' = true.
Proof.
  intros body.
  destruct (config_takes_ownership (env_ok None 0) 2%N body shop eq_refl)
    as (i & s' & F & O & E & _).
  exists i, s'. exact (conj F (conj O E)).
Defined.

(** The second user has no sensor: "Estado" still gets the header. *)
Lemma estado_without_sensors_on_shop :
  dispatched shop
    (post_api_webhook_whatsapp (env_ok None 0)
       (text_message "5491122223333@s.whatsapp.net" "Estado") shop).2
  = [(SendText "5491122223333" REPORT_HEADER, true)].
Proof.
  refine (proj1 (estado_without_sensors_sends_header (env_ok None 0)
            (text_message "5491122223333@s.whatsapp.net" "Estado") shop
            _ _ "5491122223333@s.whatsapp.net" 1%nat beto
            eq_refl eq_refl eq_refl eq_refl eq_refl _ eq_refl eq_refl)).
  intros s Hs O. apply list_elem_of_singleton in Hs as ->. discriminate O.
Defined.

End Examples.

(** * More of the handlers on the shop *)
Module More.
Import Demo Demo2.

(** The fridge's owner has no contact: the warm reading is only stored. *)
Lemma ingest_without_contact_on_shop :
  dispatched shop2 (post_api_data (env_ok None two_hours) warm shop2).2 = [] /\
  sensors (post_api_data (env_ok None two_hours) warm shop2).2 = sensors shop2.
Proof.
  exact (ingest_without_contact_is_silent (env_ok None two_hours) warm shop2
           1 fridge eq_refl (or_introl eq_refl)).
Defined.

(** Five degrees against a threshold of five. *)
Lemma ingest_not_above_threshold_on_shop :
  dispatched shop (post_api_data (env_ok None two_hours) mild shop).2 = [] /\
  sensors (post_api_data (env_ok None two_hours) mild shop).2 = sensors shop.
Proof.
  exact (ingest_not_above_threshold_is_silent (env_ok None two_hours) mild shop
           0 freezer eq_refl eq_refl).
Defined.

(** A reading without a temperature is turned away. *)
Lemma reading_without_numbers_on_shop :
  measurements (post_api_data (env_ok None two_hours) blank shop).2
  = measurements shop /\
  dispatched shop (post_api_data (env_ok None two_hours) blank shop).2 = [] /\
  sensors (post_api_data (env_ok None two_hours) blank shop).2 = sensors shop /\
  ((post_api_data (env_ok None two_hours) blank shop).1
   = Ok (mkResponse 404 (PText "Sensor no configurado")) \/
   (post_api_data (env_ok None two_hours) blank shop).1
   = Ok (mkResponse 500 (PText "Error"))).
Proof.
  exact (reading_without_numbers_is_refused (env_ok None two_hours) blank shop
           (or_introl eq_refl)).
Defined.

(** The third storage operation fails: alert out, stamp unchanged, 500. *)
Lemma alert_posted_but_stamp_lost_on_shop :
  (post_api_data (env_faulty [2%nat] [] two_hours) hot shop).1
  = Ok (mkResponse 500 (PText "Error")) /\
  dispatched shop (post_api_data (env_faulty [2%nat] [] two_hours) hot shop).2
  = [(alert_of hot freezer "5491100000000", true)] /\
  sensors (post_api_data (env_faulty [2%nat] [] two_hours) hot shop).2
  = sensors shop /\
  measurements (post_api_data (env_faulty [2%nat] [] two_hours) hot shop).2
  = [reading 3 1000; reading 4 3000; reading 6 2000; reading 9 two_hours].
Proof.
  exact (alert_posted_but_stamp_lost (env_faulty [2%nat] [] two_hours) hot shop
           0 freezer "5491100000000"
           eq_refl eq_refl eq_refl eq_refl eq_refl eq_refl eq_refl eq_refl
           eq_refl).
Defined.

(** Two hot readings two milliseconds apart: one alert, and the stamp of
    the first. *)
Lemma second_reading_within_window_on_shop :
  dispatched shop (post_api_data (env_ok None two_hours) hot shop).2
  = [(alert_of hot freezer "5491100000000", true)] /\
  dispatched (post_api_data (env_ok None two_hours) hot shop).2
    (post_api_data (env_ok None two_hours) hot
       (post_api_data (env_ok None two_hours) hot shop).2).2 = [] /\
  sensors (post_api_data (env_ok None two_hours) hot
             (post_api_data (env_ok None two_hours) hot shop).2).2 !! 0%nat
  = Some (mkSensor "HELADERA-01" "Freezer" (Js.of_Z 5) 1%N true
                   (Some 7200001)).
Proof.
  assert (NF : forall n, (n < 5)%nat ->
            dbFault (env_ok None two_hours) (n + dbOps shop) = false)
    by reflexivity.
  pose proof (second_reading_within_window_is_silent (env_ok None two_hours)
                hot hot shop 0 freezer "5491100000000"
                eq_refl eq_refl eq_refl eq_refl eq_refl eq_refl eq_refl
                eq_refl NF eq_refl)
    as (A & B & _ & C & _).
  exact (conj A (conj B C)).
Defined.

(** The hot reading, created after the three stored ones, is the latest. *)
Lemma stored_reading_becomes_latest_on_shop :
  (Measurement_latest (env_ok None two_hours) "HELADERA-01"
     (post_api_data (env_ok None two_hours) hot shop).2).1
  = Ok (Some (mkMeasurement "HELADERA-01" (Js.of_Z 9) (Js.of_Z 12) two_hours)).
Proof.
  refine (stored_reading_becomes_latest (env_ok None two_hours) hot shop
            eq_refl _ eq_refl).
  intros x Hx _. cbn in Hx.
  repeat (apply elem_of_cons in Hx as [-> | Hx]; [reflexivity|]).
  now apply elem_of_nil in Hx.
Defined.

(** A greeting from a number nobody registered costs one lookup. *)
Lemma webhook_ignores_strangers_on_shop :
  post_api_webhook_whatsapp (env_ok None 0)
    (text_message "5490000000000@s.whatsapp.net" "hola") shop
  = (Ok ack, bump_db 1 shop).
Proof.
  refine (proj2 (webhook_ignores_strangers (env_ok None 0)
            (text_message "5490000000000@s.whatsapp.net" "hola") shop _ eq_refl)
            _ "5490000000000@s.whatsapp.net" eq_refl eq_refl _ eq_refl).
  intros u Hu.
  repeat (apply elem_of_cons in Hu as [-> | Hu]; [discriminate|]).
  now apply elem_of_nil in Hu.
Defined.

(** "Gracias" from the first user is logged and left unanswered. *)
Lemma unrecognised_command_on_shop :
  post_api_webhook_whatsapp (env_ok None 0)
    (text_message "5491100000000@s.whatsapp.net" " Gracias ") shop
  = (Ok ack, logged shop "gracias").
Proof.
  refine (unrecognised_command_is_ignored (env_ok None 0)
            (text_message "5491100000000@s.whatsapp.net" " Gracias ") shop
            _ _ "5491100000000@s.whatsapp.net" 0%nat ana
            eq_refl eq_refl eq_refl eq_refl _ eq_refl eq_refl).
  discriminate.
Defined.


(** The freezer's newest reading is the one of time 3000. *)
Lemma latest_is_newest_on_shop :
  exists r,
    Measurement_latest (env_ok None 0) "HELADERA-01" shop
    = (Ok r, bump_db 1 shop) /\
    match r with
    | None => forall x, x ∈ measurements shop -> sensorId x <> "HELADERA-01"
    | Some m => m ∈ measurements shop /\ sensorId m = "HELADERA-01" /\
                forall x, x ∈ measurements shop -> sensorId x = "HELADERA-01" ->
                          timestamp x <= timestamp m
    end.
Proof.
  exact (latest_is_newest (env_ok None 0) "HELADERA-01" shop eq_refl).
Defined.

(** "historial" alone from the first user charts her freezer. *)
Lemma bare_historial_on_shop :
  dispatched shop
    (post_api_webhook_whatsapp (env_ok None 0)
       (text_message "5491100000000@s.whatsapp.net" "Historial") shop).2
  = [(SendImage "5491100000000"
        (QuickChart_getUrl
           (mkChart ["1000"; "2000"; "3000"]
                    [Js.of_Z 3; Js.of_Z 6; Js.of_Z 4]))
        "📊 Historial: Freezer", true)].
Proof.
  refine (bare_historial_charts_first_sensor (env_ok None 0)
            (text_message "5491100000000@s.whatsapp.net" "Historial") shop
            _ _ "5491100000000@s.whatsapp.net" 0%nat ana
            (fun s => contains (lower EmptyString) (lower s))
            0%nat freezer
            eq_refl eq_refl eq_refl eq_refl eq_refl eq_refl _ eq_refl _
            (fun _ => eq_refl)).
  - intros x. destruct x; reflexivity.
  - discriminate.
Defined.

(** The first user deletes her freezer: sensor and readings are gone and
    her history query is refused. *)
Lemma delete_by_owner_on_shop :
  (forall s, s ∈ sensors (delete_api_sensors (env_ok None 0) 1%N "HELADERA-01" shop2).2 ->
             hardwareId s <> "HELADERA-01") /\
  (respond (get_api_history (env_ok None 0) 1%N "HELADERA-01" None)
     (delete_api_sensors (env_ok None 0) 1%N "HELADERA-01" shop2).2).1
  = Some (mkResponse 403 (PText "No autorizado")).
Proof.
  assert (ND : NoDup (map hardwareId (sensors shop2))).
  { cbn. apply NoDup_cons. split; [|apply NoDup_singleton].
    intros Hin. apply list_elem_of_singleton in Hin. discriminate Hin. }
  destruct (delete_by_owner (env_ok None 0) 1%N "HELADERA-01" shop2 None ND
              (fun _ => eq_refl) (ex_intro _ 0%nat (ex_intro _ freezer eq_refl)))
    as (A & _ & C).
  exact (conj A C).
Defined.

(** Deleting a hardwareId nobody configured is answered like a deletion. *)
Lemma delete_frame_on_shop :
  (respond (delete_api_sensors (env_ok None 0) 2%N "HELADERA-09") shop2).1
  = Some (mkResponse 200 (PMessage "Eliminado")) /\
  of_sensor "HELADERA-01"
    (measurements (respond (delete_api_sensors (env_ok None 0) 2%N "HELADERA-09") shop2).2)
  = of_sensor "HELADERA-01" (measurements shop2).
Proof.
  destruct (delete_frame (env_ok None 0) 2%N "HELADERA-09" shop2 eq_refl eq_refl)
    as (A & _ & C & _).
  refine (conj A (C "HELADERA-01" _)). discriminate.
Defined.

(** The second storage operation fails while the owner deletes. *)
Lemma delete_stops_half_way_on_shop :
  (delete_api_sensors (env_faulty [1%nat] [] 0) 1%N "HELADERA-01" shop2).1
  = Throw StorageError /\
  sensors (delete_api_sensors (env_faulty [1%nat] [] 0) 1%N "HELADERA-01" shop2).2
  = [fridge] /\
  measurements (delete_api_sensors (env_faulty [1%nat] [] 0) 1%N "HELADERA-01" shop2).2
  = measurements shop2.
Proof.
  destruct (delete_stops_half_way (env_faulty [1%nat] [] 0) 1%N "HELADERA-01"
              shop2 0 freezer eq_refl eq_refl eq_refl)
    as (A & B & _ & D & _).
  exact (conj A (conj B D)).
Defined.

(** Renaming the freezer keeps its threshold and its stamp, whatever the
    body says about the owner. *)
Lemma config_frame_on_shop :
  let body := mkConfigBody "HELADERA-01" (Some "Camara") None (Some 2%N)
                           (Some false) None in
  sensors (post_api_sensors_config (env_ok None 0) 1%N body shop2).2
  = [mkSensor "HELADERA-01" "Camara" (Js.of_Z 5) 1%N true (Some 0); fridge] /\
  measurements (post_api_sensors_config (env_ok None 0) 1%N body shop2).2
  = measurements shop2.
Proof.
  intros body.
  destruct (config_frame (env_ok None 0) 1%N body shop2 eq_refl)
    as (A & _ & _ & _).
  exact (conj eq_refl A).
Defined.

Lemma config_idempotent_on_shop :
  let body := mkConfigBody "HELADERA-07" (Some "Nueva") (Some (Js.of_Z 4))
                           None None None in
  sensors (post_api_sensors_config (env_ok None 0) 2%N body
             (post_api_sensors_config (env_ok None 0) 2%N body shop2).2).2
  = sensors (post_api_sensors_config (env_ok None 0) 2%N body shop2).2.
Proof.
  intros body.
  exact (proj1 (config_idempotent (env_ok None 0) 2%N body shop2
                  eq_refl eq_refl)).
Defined.

Lemma config_failure_on_shop :
  let body := mkConfigBody "HELADERA-01" (Some "Camara") None None None None in
  post_api_sensors_config (env_faulty [0%nat] [] 0) 2%N body shop2
  = (Ok (mkResponse 500 (PError "Error al guardar")), bump_db 1 shop2).
Proof.
  intros body.
  exact (config_failure_changes_nothing (env_faulty [0%nat] [] 0) 2%N body
           shop2 eq_refl).
Defined.

(** The second user configures the first user's freezer: she is locked out
    of its history. *)
Lemma config_moves_history_access_on_shop :
  let body := mkConfigBody "HELADERA-01" None None None None None in
  (respond (get_api_history (env_ok None 0) 1%N "HELADERA-01" None)
     (post_api_sensors_config (env_ok None 0) 2%N body shop2).2).1
  = Some (mkResponse 403 (PText "No autorizado")).
Proof.
  intros body.
  assert (ND : NoDup (map hardwareId (sensors shop2))).
  { cbn. apply NoDup_cons. split; [|apply NoDup_singleton].
    intros Hin. apply list_elem_of_singleton in Hin. discriminate Hin. }
  assert (Ne : 1%N <> 2%N) by discriminate.
  exact (proj2 (config_moves_history_access (env_ok None 0) 2%N 1%N body None
                  shop2 ND Ne (fun _ => eq_refl))).
Defined.

(** The first user's dashboard: her freezer with its reading of time 3000. *)
Lemma latest_on_shop :
  exists data,
    get_api_latest (env_ok None 0) 1%N shop2
    = (Ok (200%nat, LRows data), bump_db 1 shop2) /\
    NoDup (map r_id data).
Proof.
  assert (ND : NoDup (map hardwareId
            (filter (fun s => owner s = 1%N /\ enabled s = true) (sensors shop2)))).
  { apply NoDup_singleton. }
  destruct (latest_has_the_newest_of_each_sensor (env_ok None 0) 1%N shop2
              ND eq_refl) as (data & A & B & _).
  exists data. exact (conj A B).
Defined.

Example latest_rows_on_shop :
  aggregate_latest 1%N shop2
  = [mkLatestRow "HELADERA-01" "Freezer" (Js.of_Z 5)
       (Some (Js.of_Z 4)) (Some (Js.of_Z 12)) (Some 3000)] /\
  aggregate_latest 3%N shop2
  = [mkLatestRow "HELADERA-02" "Fridge" (Js.of_Z 8) None None None].
Proof. vm_compute. split; reflexivity. Qed.

End More.

(** * Accounts at the office *)
Module MoreAccounts.
Import DemoAccounts.

(** "Basic" in front of the first user's token does what "Bearer" does. *)
Lemma authentication_ignores_the_scheme_at_office :
  authenticateToken status_only (Some "Basic jwt.1.ana.7")
    (fun user => get_api_auth_profile (Demo.env_ok None 0) (jwt_id user)) office
  = authenticateToken status_only (Some "Bearer jwt.1.ana.7")
      (fun user => get_api_auth_profile (Demo.env_ok None 0) (jwt_id user)) office.
Proof.
  exact (proj1 (authentication_ignores_the_scheme (H:=crypto) status_only
                  (fun user => get_api_auth_profile (Demo.env_ok None 0) (jwt_id user)) office
                  "Basic" "jwt.1.ana.7" EmptyString eq_refl eq_refl)).
Defined.

(** An unknown username and a wrong password get the same refusal. *)
Lemma login_refusals_at_office :
  post_api_auth_login (Demo.env_ok None 0) (mkLoginBody "ana" "adivina") office
  = (Ok (mkAccount 401 (AMessage "Credenciales inválidas")), bump_db 1 office).
Proof.
  exact (login_refusals_look_alike (H:=crypto) (Demo.env_ok None 0)
           (mkLoginBody "ana" "adivina") office eq_refl
           (or_intror (ex_intro _ 0%nat (ex_intro _ ana (conj eq_refl eq_refl))))).
Defined.

(** The first user logs in and reads her profile with the token. *)
Lemma login_token_opens_the_door_at_office :
  (post_api_auth_login (Demo.env_ok None 7) (mkLoginBody "ana" "secreto") office).1
  = Ok (mkAccount 200 (AToken "jwt.1.ana.7" "ana")) /\
  (authenticateToken status_only (Some "Bearer jwt.1.ana.7")
     (fun user => get_api_auth_profile (Demo.env_ok None 7) (jwt_id user)) office).1
  = Ok (mkAccount 200 (AProfile (Some (1%N, "ana", Some "5491100000000")))).
Proof.
  destruct (login_token_opens_the_door (H:=crypto) (Demo.env_ok None 7) status_only
              (fun user => get_api_auth_profile (Demo.env_ok None 7) (jwt_id user))
              (mkLoginBody "ana" "secreto") office 0%nat ana
              eq_refl eq_refl eq_refl eq_refl eq_refl ltac:(discriminate))
    as (A & _ & C).
  split; [exact A|]. exact (f_equal fst (C office)).
Defined.

(** A wrong old password: the contact sent along is not stored. *)
Lemma wrong_old_password_at_office :
  put_api_auth_profile (Demo.env_ok None 0) 1%N
    (mkProfileBody (Some "5491199999999") (Some "adivina") (Some "nueva")) office
  = (Ok (mkAccount 401 (AMessage "Contraseña incorrecta")), bump_db 1 office).
Proof.
  exact (wrong_old_password_changes_nothing (H:=crypto) (Demo.env_ok None 0) 1%N
           (mkProfileBody (Some "5491199999999") (Some "adivina") (Some "nueva"))
           office 0%nat ana "adivina" eq_refl eq_refl eq_refl eq_refl eq_refl).
Defined.

(** The second user changes her password and logs in with the new one. *)
Lemma new_password_logs_in_at_office :
  exists token,
    (post_api_auth_login (Demo.env_ok None 0) (mkLoginBody "beto" "nueva")
       (put_api_auth_profile (Demo.env_ok None 0) 2%N
          (mkProfileBody None (Some "clave") (Some "nueva")) office).2).1
    = Ok (mkAccount 200 (AToken token "beto")).
Proof.
  exact (proj1 (proj2 (new_password_logs_in (H:=crypto) (Demo.env_ok None 0) 2%N
           (mkProfileBody None (Some "clave") (Some "nueva")) office
           1%nat beto "clave" "nueva"
           eq_refl eq_refl eq_refl eq_refl eq_refl eq_refl eq_refl
           (fun _ => eq_refl)))).
Defined.

(** The second user sets a contact: her profile shows it, and alerts of a
    sensor of hers would go to it. *)
Lemma saved_contact_at_office :
  let w1 := (put_api_auth_profile (Demo.env_ok None 0) 2%N
               (mkProfileBody (Some "5491122223333") None None) office).2 in
  (get_api_auth_profile (Demo.env_ok None 0) 2%N w1).1
  = Ok (mkAccount 200 (AProfile (Some (2%N, "beto", Some "5491122223333")))) /\
  contact_of w1 (mkSensor "HELADERA-03" "Vitrina" (Js.of_Z 6) 2%N true None)
  = Some "5491122223333".
Proof.
  exact (saved_contact_is_used (H:=crypto) (Demo.env_ok None 0) 2%N
           (mkProfileBody (Some "5491122223333") None None) office 1%nat beto
           "5491122223333"
           (mkSensor "HELADERA-03" "Vitrina" (Js.of_Z 6) 2%N true None)
           eq_refl eq_refl eq_refl eq_refl eq_refl (fun _ => eq_refl)).
Defined.

End MoreAccounts.
